(** * Biosimulators_utils: SED-ML execution and the COMBINE/SED-ML data model

  A shallow embedding of
  - [biosimulators_utils/combine/data_model.py] (module [Combine]),
  - [biosimulators_utils/sedml/data_model.py] (modules [MathFns], [Sedml]),
  - [biosimulators_utils/sedml/exec.py] (module [Exec]),
  - [biosimulators_utils/config.py] (module [Config]),
  - [get_xpp_input_configuration_from_directory] of
    [biosimulators_utils/model_lang/xpp/validation.py] (module [Xpp]),
  together with the properties of these modules that the specification
  states. *)

From Stdlib Require Import ZArith String Ascii List Permutation Sorted.
From stdpp Require Import base tactics option list sorting strings gmap stringmap.

(** ** Python values, exceptions and fallible computations *)

Module Py.

(** The exceptions the modelled code raises.  [Raised] stands for an
    exception coming out of an external collaborator (reader, writer, task
    executor, pandas, ...). *)
Inductive exn : Type :=
| ValueError (msg : string)
| NotImplementedError (msg : string)
| TypeError (msg : string)
| KeyError (key : option string)
| ReferenceError (msg : string)
| Raised (what : string).

Inductive result (A : Type) : Type :=
| Ok (a : A)
| Raise (e : exn).
Arguments Ok {A} a.
Arguments Raise {A} e.

Definition bind {A B} (k : A -> result B) (r : result A) : result B :=
  match r with
  | Ok a => k a
  | Raise e => Raise e
  end.

#[global] Instance result_ret : MRet result := fun A a => Ok a.
#[global] Instance result_bind : MBind result := fun A B k r => bind k r.
#[global] Instance result_fmap : FMap result := fun A B f r => bind (fun a => Ok (f a)) r.

Definition is_ok {A} (r : result A) : bool :=
  match r with Ok _ => true | Raise _ => false end.

(** [str.format] of an optional string: [None] prints as [None]. *)
Definition fmt (s : option string) : string :=
  match s with
  | Some s => s
  | None => "None"
  end.

(** [x or []] on an optional list argument: [None] and the empty list are
    both falsy, so a fresh empty list is taken in their place. *)
Definition or_empty {A} (x : option (list A)) : list A :=
  match x with
  | Some (a :: l) => a :: l
  | Some [] => []
  | None => []
  end.

(** [s] occurs in [msg]. *)
Definition names (msg s : string) : Prop :=
  exists pre post, msg = pre +:+ s +:+ post.

(** A point in time ([datetime.datetime]), as a number of microseconds. *)
Definition datetime : Type := Z.

(** A double.  Only [==], [<] and the identity of such values are observed
    here.  A number is represented by its rank among the doubles ([-0.0] and
    [0.0] share one rank, the infinities are the two ends), which is what
    [==] and [<] between numbers depend on.  A NaN is represented by the
    object that holds it: [==] and [<] are false as soon as one side is a
    NaN, be it one and the same object on both sides, whereas the comparison
    of two tuples takes an element for equal to itself without asking
    [==]. *)
Inductive pyfloat : Type :=
| Num (rank : Z)
| NaN (object : nat).

(** [x == y] on two doubles. *)
Definition float_eqb (x y : pyfloat) : bool :=
  match x, y with
  | Num a, Num b => bool_decide (a = b)
  | _, _ => false
  end.

(** [x == y] on two attributes that hold a double or [None]. *)
Definition opt_float_eqb (x y : option pyfloat) : bool :=
  match x, y with
  | None, None => true
  | Some x, Some y => float_eqb x y
  | _, _ => false
  end.

(** [x < y] on two doubles. *)
Definition float_ltb (x y : pyfloat) : bool :=
  match x, y with
  | Num a, Num b => (a <? b)%Z
  | _, _ => false
  end.

(** The values that occur in tuple projections. *)
#[local] Unset Elimination Schemes.
Inductive pyval : Type :=
| VNone
| VBool (b : bool)
| VInt (z : Z)
| VFloat (x : pyfloat)
| VTime (t : datetime)
| VStr (s : string)
| VTuple (l : list pyval).
#[local] Set Elimination Schemes.

(** Structural induction on [pyval], with the induction hypothesis for every
    component of a tuple. *)
Fixpoint pyval_ind (P : pyval -> Prop)
  (HNone : P VNone) (HBool : forall b, P (VBool b)) (HInt : forall z, P (VInt z))
  (HFloat : forall x, P (VFloat x)) (HTime : forall t, P (VTime t))
  (HStr : forall s, P (VStr s))
  (HTuple : forall l, Forall P l -> P (VTuple l)) (x : pyval) : P x :=
  match x with
  | VNone => HNone
  | VBool b => HBool b
  | VInt z => HInt z
  | VFloat x => HFloat x
  | VTime t => HTime t
  | VStr s => HStr s
  | VTuple l =>
      HTuple l
        ((fix go (l : list pyval) : Forall P l :=
            match l with
            | [] => @List.Forall_nil _ P
            | a :: l' =>
                @List.Forall_cons _ P a l'
                  (pyval_ind P HNone HBool HInt HFloat HTime HStr HTuple a) (go l')
            end) l)
  end.

Definition of_opt {A} (f : A -> pyval) (x : option A) : pyval :=
  match x with
  | Some a => f a
  | None => VNone
  end.

End Py.

Export Py.


(** ** A total order on tuple projections

    [none_sorted] (from [biosimulators_utils.utils.core]) orders tuple
    projections so that [None] comes before any value.  [pyval_compare] is
    that order: [None] first, then values by their kind, values of one kind
    by their own order, tuples lexicographically.  Two values compare as
    equal exactly when the comparison of two tuples takes them for equal;
    for the order to be total the NaNs, which [<] does not order, are put
    after the numbers, one object after the other. *)

Module PyOrder.

Section list_compare.
Context {A : Type} (c : A -> A -> comparison).

Fixpoint list_compare (l l' : list A) : comparison :=
  match l, l' with
  | [], [] => Eq
  | [], _ :: _ => Lt
  | _ :: _, [] => Gt
  | a :: l, b :: l' =>
      match c a b with
      | Eq => list_compare l l'
      | Lt => Lt
      | Gt => Gt
      end
  end.

End list_compare.

Definition pyfloat_compare (x y : pyfloat) : comparison :=
  match x, y with
  | Num a, Num b => Z.compare a b
  | Num _, NaN _ => Lt
  | NaN _, Num _ => Gt
  | NaN n, NaN m => Nat.compare n m
  end.

Definition rank (x : pyval) : Z :=
  match x with
  | VNone => 0
  | VBool _ => 1
  | VInt _ => 2
  | VFloat _ => 3
  | VTime _ => 4
  | VStr _ => 5
  | VTuple _ => 6
  end.

Fixpoint pyval_compare (x y : pyval) : comparison :=
  match x, y with
  | VBool a, VBool b => Z.compare (Z.b2z a) (Z.b2z b)
  | VInt a, VInt b => Z.compare a b
  | VFloat a, VFloat b => pyfloat_compare a b
  | VTime a, VTime b => Z.compare a b
  | VStr a, VStr b => String.compare a b
  | VTuple l, VTuple l' => list_compare pyval_compare l l'
  | _, _ => Z.compare (rank x) (rank y)
  end.

Definition pyval_leb (x y : pyval) : bool :=
  match pyval_compare x y with
  | Gt => false
  | _ => true
  end.

Definition pyval_le (x y : pyval) : Prop := pyval_leb x y = true.

(** Stable insertion sort: [insert_sorted x l] puts [x] in front of the first
    element that is not below it, so that elements that compare equal keep
    their order. *)
Section insertion_sort.
Context {A : Type} (leb : A -> A -> bool).

Fixpoint insert_sorted (x : A) (l : list A) : list A :=
  match l with
  | [] => [x]
  | y :: l' => if leb x y then x :: y :: l' else y :: insert_sorted x l'
  end.

Definition stable_sort (l : list A) : list A :=
  foldr insert_sorted [] l.

End insertion_sort.

End PyOrder.

Export PyOrder.

(** ** Helpers of [biosimulators_utils.utils.core] and Python built-ins *)

Module Utils.

(** The first element of [l] that satisfies [p] is taken out. *)
Fixpoint remove_first {A} (p : A -> bool) (l : list A) : option (list A) :=
  match l with
  | [] => None
  | y :: l' => if p y then Some l' else cons y <$> remove_first p l'
  end.

(** Modelled from the spec: [are_lists_equal] of [utils.core], whose source is
    not part of the repository files at hand.  The specification describes it
    as the comparison of two child lists "as unordered multisets" under the
    children's [is_equal]: every element of [a] is matched with an element of
    [b] of its own, and nothing of [b] is left over. *)
Fixpoint are_lists_equal {A} (is_equal : A -> A -> bool) (a b : list A) : bool :=
  match a with
  | [] => match b with [] => true | _ :: _ => false end
  | x :: a' =>
      match remove_first (is_equal x) b with
      | Some b' => are_lists_equal is_equal a' b'
      | None => false
      end
  end.

(** Modelled from the spec: [none_sorted] of [utils.core], whose source is not
    part of the repository files at hand.  The specification describes it as a
    sort of the children's tuple projections in which "[None] sorts before any
    value" and which yields "a fully-ordered" projection. *)
Definition none_sorted (l : list pyval) : list pyval :=
  stable_sort pyval_leb l.

(** The equality of two elements in the comparison of two tuples: one and
    the same object, or [==]. *)
Definition py_eqb (x y : pyval) : bool :=
  match pyval_compare x y with
  | Eq => true
  | _ => false
  end.

(** Python's [<].  It is defined between two values of one kind and raises
    [TypeError] otherwise, in particular when one side is [None].  Tuples are
    compared at the first position where they differ. *)
Fixpoint py_lt (x y : pyval) : result bool :=
  match x, y with
  | VBool a, VBool b => Ok (Z.b2z a <? Z.b2z b)%Z
  | VInt a, VInt b => Ok (a <? b)%Z
  | VFloat a, VFloat b => Ok (float_ltb a b)
  | VTime a, VTime b => Ok (a <? b)%Z
  | VStr a, VStr b => Ok (String.ltb a b)
  | VTuple l, VTuple l' =>
      (fix go (l l' : list pyval) : result bool :=
         match l, l' with
         | [], [] => Ok false
         | [], _ :: _ => Ok true
         | _ :: _, [] => Ok false
         | a :: l, b :: l' => if py_eqb a b then go l l' else py_lt a b
         end) l l'
  | _, _ => Raise (TypeError "'<' not supported between instances")
  end.

(** Python's built-in [sorted]: a stable sort that only asks [<], and that
    raises [TypeError] as soon as a comparison it makes is not supported.  The
    comparisons made here are those of a straight insertion; whenever the
    elements are pairwise comparable the result is the one of [sorted], and a
    list of at most one element is returned without any comparison. *)
Fixpoint py_insert (x : pyval) (l : list pyval) : result (list pyval) :=
  match l with
  | [] => Ok [x]
  | y :: l' =>
      b ← py_lt y x;
      if b : bool then cons y <$> py_insert x l' else Ok (x :: y :: l')
  end.

Fixpoint sorted (l : list pyval) : result (list pyval) :=
  match l with
  | [] => Ok []
  | x :: l' => s ← sorted l'; py_insert x s
  end.

End Utils.

Export Utils.

(** ** [biosimulators_utils/combine/data_model.py] *)

Module CombineArchiveAuthor.

Record t : Type := mk {
  given_name : option string;
  family_name : option string;
}.

Definition init (given_name family_name : option string) : t :=
  mk given_name family_name.

Definition is_equal (self other : t) : bool :=
  bool_decide (given_name self = given_name other)
  && bool_decide (family_name self = family_name other).

Definition to_tuple (self : t) : pyval :=
  VTuple [of_opt VStr (family_name self); of_opt VStr (given_name self)].

End CombineArchiveAuthor.

Module CombineArchiveContent.

Record t : Type := mk {
  location : string;
  format : string;
  master : bool;
  description : option string;
  authors : list CombineArchiveAuthor.t;
  created : option datetime;
  updated : option datetime;
}.

Definition init (location format : string) (master : bool)
    (description : option string) (authors : option (list CombineArchiveAuthor.t))
    (created updated : option datetime) : t :=
  mk location format master description (or_empty authors) created updated.

Definition to_tuple (self : t) : result pyval :=
  authors ← sorted (map CombineArchiveAuthor.to_tuple (authors self));
  Ok (VTuple [VStr (location self); VStr (format self); VBool (master self);
              of_opt VStr (description self); VTuple authors;
              of_opt VTime (created self); of_opt VTime (updated self)]).

Definition is_equal (self other : t) : bool :=
  bool_decide (location self = location other)
  && bool_decide (format self = format other)
  && bool_decide (master self = master other)
  && bool_decide (description self = description other)
  && are_lists_equal CombineArchiveAuthor.is_equal (authors self) (authors other)
  && bool_decide (created self = created other)
  && bool_decide (updated self = updated other).

End CombineArchiveContent.

Module CombineArchive.

Record t : Type := mk {
  contents : list CombineArchiveContent.t;
  description : option string;
  authors : list CombineArchiveAuthor.t;
  created : option datetime;
  updated : option datetime;
}.

Definition init (contents : option (list CombineArchiveContent.t))
    (description : option string) (authors : option (list CombineArchiveAuthor.t))
    (created updated : option datetime) : t :=
  mk (or_empty contents) description (or_empty authors) created updated.

(** One turn of the loop of [get_master_content], on the state of the call:
    the archive [self] and the local list [master_content]. *)
Definition get_master_content_step
    (st : t * list CombineArchiveContent.t) (content : CombineArchiveContent.t)
    : t * list CombineArchiveContent.t :=
  let '(self, master_content) := st in
  if CombineArchiveContent.master content
  then (self, master_content ++ [content])
  else (self, master_content).

(** [get_master_content]: the archive as the call leaves it, and what the call
    returns or raises. *)
Definition get_master_content (self : t)
    : t * result (option CombineArchiveContent.t) :=
  let '(self, master_content) :=
    foldl get_master_content_step (self, []) (contents self) in
  match master_content with
  | [] => (self, Ok None)
  | [content] => (self, Ok (Some content))
  | _ :: _ :: _ =>
      (self, Raise (ValueError "Multiple content items are marked as master"))
  end.

Definition to_tuple (self : t) : result pyval :=
  tuples ← mapM CombineArchiveContent.to_tuple (contents self);
  contents ← sorted tuples;
  authors ← sorted (map CombineArchiveAuthor.to_tuple (authors self));
  Ok (VTuple [VTuple contents; of_opt VStr (description self); VTuple authors;
              of_opt VTime (created self); of_opt VTime (updated self)]).

Definition is_equal (self other : t) : bool :=
  are_lists_equal CombineArchiveContent.is_equal (contents self) (contents other)
  && bool_decide (description self = description other)
  && are_lists_equal CombineArchiveAuthor.is_equal (authors self) (authors other)
  && bool_decide (created self = created other)
  && bool_decide (updated self = updated other).

End CombineArchive.

(** ** [biosimulators_utils/sedml/data_model.py]: the table of functions *)

Module MathFns.

(** The callables the table binds: one anonymous function, one built-in, the
    functions of [math] and those of [mpmath]. *)
Inductive callable : Type :=
| lambda_root          (* lambda x, n: x**(1 / float(n)) *)
| builtin_abs
| math_exp | math_log | math_floor | math_ceil | math_factorial
| math_sin | math_cos | math_tan
| mpmath_sec | mpmath_csc | mpmath_cot
| math_sinh | math_cosh | math_tanh
| mpmath_sech | mpmath_csch | mpmath_coth
| math_asin | math_acos | math_atan
| mpmath_asec | mpmath_acsc | mpmath_acot
| math_asinh | math_acosh | math_atanh
| mpmath_asech | mpmath_acsch | mpmath_acoth.

Definition MATHEMATICAL_FUNCTIONS_items : list (string * callable) :=
  [ ("root", lambda_root);
    ("abs", builtin_abs);
    ("exp", math_exp);
    ("ln", math_log);
    ("log", math_log);
    ("floor", math_floor);
    ("ceiling", math_ceil);
    ("factorial", math_factorial);
    ("sin", math_sin);
    ("cos", math_cos);
    ("tan", math_tan);
    ("sec", mpmath_sec);
    ("csc", mpmath_csc);
    ("cot", mpmath_cot);
    ("sinh", math_sinh);
    ("cosh", math_cosh);
    ("tanh", math_tanh);
    ("sech", mpmath_sech);
    ("csch", mpmath_csch);
    ("coth", mpmath_coth);
    ("arcsin", math_asin);
    ("arccos", math_acos);
    ("arctan", math_atan);
    ("arcsec", mpmath_asec);
    ("arccsc", mpmath_acsc);
    ("arccot", mpmath_acot);
    ("arcsinh", math_asinh);
    ("arccosh", math_acosh);
    ("arctanh", math_atanh);
    ("arcsech", mpmath_asech);
    ("arccsch", mpmath_acsch);
    ("arccoth", mpmath_acoth) ].

(** The dictionary [MATHEMATICAL_FUNCTIONS]. *)
Definition MATHEMATICAL_FUNCTIONS : gmap string callable :=
  list_to_map MATHEMATICAL_FUNCTIONS_items.

(** Modelled from the spec: the call of a function of the table by the
    evaluator of mathematical expressions ([calc_data_generator_results] of
    [sedml/utils.py], whose source is not part of the repository files at
    hand).  The function bound to the name is applied to the arguments; a name
    that the table does not bind is an unsupported function.  What the
    callables compute on floating-point numbers is left to [denote]. *)
Definition call_function {V : Type} (denote : callable -> list V -> result V)
    (name : string) (args : list V) : result V :=
  match MATHEMATICAL_FUNCTIONS !! name with
  | Some f => denote f args
  | None => Raise (Raised ("unsupported function " +:+ name))
  end.

End MathFns.

(** ** [biosimulators_utils/sedml/data_model.py]: the entities

    One module per class.  The attributes that the docstrings type as strings,
    numbers or entities may all be [None].  The entities that refer to a
    [Model] are parameterised by the type [M] of this reference: the model
    itself where entities are compared ([to_tuple], [is_equal]), a location of
    the store of objects where a document is executed (module [Exec]), since
    there the models are updated in place and shared by the entities that
    refer to them. *)

(** [(self.x is None and self.x == other.x) or
     (self.x is not None and self.x.is_equal(other.x))] *)
Definition opt_is_equal {A} (is_equal : A -> A -> bool) (self other : option A) : bool :=
  match self with
  | None => match other with None => true | Some _ => false end
  | Some a => match other with Some b => is_equal a b | None => false end
  end.

Module AlgorithmParameterChange.

Record t : Type := mk {
  kisao_id : option string;
  new_value : option string;
}.

Definition init (kisao_id new_value : option string) : t := mk kisao_id new_value.

Definition to_tuple (self : t) : pyval :=
  VTuple [of_opt VStr (kisao_id self); of_opt VStr (new_value self)].

Definition is_equal (self other : t) : bool :=
  bool_decide (kisao_id self = kisao_id other)
  && bool_decide (new_value self = new_value other).

End AlgorithmParameterChange.

Module Algorithm.

Record t : Type := mk {
  kisao_id : option string;
  changes : list AlgorithmParameterChange.t;
}.

Definition init (kisao_id : option string)
    (changes : option (list AlgorithmParameterChange.t)) : t :=
  mk kisao_id (or_empty changes).

Definition to_tuple (self : t) : pyval :=
  VTuple [of_opt VStr (kisao_id self);
          VTuple (none_sorted (map AlgorithmParameterChange.to_tuple (changes self)))].

Definition is_equal (self other : t) : bool :=
  bool_decide (kisao_id self = kisao_id other)
  && are_lists_equal AlgorithmParameterChange.is_equal (changes self) (changes other).

End Algorithm.

Module Simulation.

(** The attributes of the abstract class [Simulation]. *)
Record base : Type := mk {
  id : option string;
  name : option string;
  algorithm : option Algorithm.t;
}.

(** The instances of [Simulation]: those of its three subclasses. *)
Inductive t : Type :=
| SteadyStateSimulation (b : base)
| OneStepSimulation (b : base) (step : option pyfloat)
| UniformTimeCourseSimulation (b : base)
    (initial_time output_start_time output_end_time : option pyfloat)
    (number_of_points : option Z).

Definition attrs (self : t) : base :=
  match self with
  | SteadyStateSimulation b => b
  | OneStepSimulation b _ => b
  | UniformTimeCourseSimulation b _ _ _ _ => b
  end.

(** [self.__class__ == other.__class__] *)
Definition same_class (self other : t) : bool :=
  match self, other with
  | SteadyStateSimulation _, SteadyStateSimulation _ => true
  | OneStepSimulation _ _, OneStepSimulation _ _ => true
  | UniformTimeCourseSimulation _ _ _ _ _, UniformTimeCourseSimulation _ _ _ _ _ => true
  | _, _ => false
  end.

Definition algorithm_to_tuple (self : t) : pyval :=
  of_opt Algorithm.to_tuple (algorithm (attrs self)).

Definition to_tuple (self : t) : pyval :=
  match self with
  | SteadyStateSimulation b =>
      VTuple [of_opt VStr (id b); of_opt VStr (name b); algorithm_to_tuple self]
  | OneStepSimulation b step =>
      VTuple [of_opt VStr (id b); of_opt VStr (name b); algorithm_to_tuple self;
              of_opt VFloat step]
  | UniformTimeCourseSimulation b initial_time output_start_time output_end_time
      number_of_points =>
      VTuple [of_opt VStr (id b); of_opt VStr (name b); algorithm_to_tuple self;
              of_opt VFloat initial_time; of_opt VFloat output_start_time;
              of_opt VFloat output_end_time; of_opt VInt number_of_points]
  end.

(** [Simulation.is_equal], which the subclasses extend through [super]. *)
Definition base_is_equal (self other : t) : bool :=
  same_class self other
  && bool_decide (id (attrs self) = id (attrs other))
  && bool_decide (name (attrs self) = name (attrs other))
  && opt_is_equal Algorithm.is_equal (algorithm (attrs self)) (algorithm (attrs other)).

Definition is_equal (self other : t) : bool :=
  match self with
  | SteadyStateSimulation _ => base_is_equal self other
  | OneStepSimulation _ step =>
      base_is_equal self other
      && match other with
         | OneStepSimulation _ step' => opt_float_eqb step step'
         | _ => false
         end
  | UniformTimeCourseSimulation _ initial_time output_start_time output_end_time
      number_of_points =>
      base_is_equal self other
      && match other with
         | UniformTimeCourseSimulation _ initial_time' output_start_time'
             output_end_time' number_of_points' =>
             opt_float_eqb initial_time initial_time'
             && opt_float_eqb output_start_time output_start_time'
             && opt_float_eqb output_end_time output_end_time'
             && bool_decide (number_of_points = number_of_points')
         | _ => false
         end
  end.

End Simulation.

Module ModelChange.

(** The instances of the abstract class [ModelChange] are those of its only
    subclass, [ModelAttributeChange].  They have the attribute [name] of
    [ModelChange]. *)
Record t : Type := mk {
  name : option string;
  target : option string;
  new_value : option string;
}.

(** [ModelAttributeChange(target, new_value)]: the constructor hands no
    [name] to [ModelChange.__init__], which sets it to [None]. *)
Definition ModelAttributeChange (target new_value : option string) : t :=
  mk None target new_value.

(** [change.name = name] *)
Definition set_name (name : option string) (self : t) : t :=
  mk name (target self) (new_value self).

Definition to_tuple (self : t) : pyval :=
  VTuple [of_opt VStr (target self); of_opt VStr (new_value self)].

(** [ModelChange.is_equal] *)
Definition base_is_equal (self other : t) : bool :=
  bool_decide (name self = name other)
  && bool_decide (target self = target other).

(** [ModelAttributeChange.is_equal] *)
Definition is_equal (self other : t) : bool :=
  base_is_equal self other
  && bool_decide (new_value self = new_value other).

End ModelChange.

Module Model.

Record t : Type := mk {
  id : option string;
  name : option string;
  source : option string;
  language : option string;
  changes : list ModelChange.t;
}.

Definition init (id name source language : option string)
    (changes : option (list ModelChange.t)) : t :=
  mk id name source language (or_empty changes).

Definition to_tuple (self : t) : pyval :=
  VTuple [of_opt VStr (id self); of_opt VStr (name self); of_opt VStr (source self);
          of_opt VStr (language self);
          VTuple (none_sorted (map ModelChange.to_tuple (changes self)))].

Definition is_equal (self other : t) : bool :=
  bool_decide (id self = id other)
  && bool_decide (name self = name other)
  && bool_decide (source self = source other)
  && bool_decide (language self = language other)
  && are_lists_equal ModelChange.is_equal (changes self) (changes other).

(** [model.source = source] *)
Definition set_source (source : option string) (self : t) : t :=
  mk (id self) (name self) source (language self) (changes self).

End Model.

Module Task.

(** The instances of the abstract class [AbstractTask] are those of its only
    subclass, [Task]. *)
Record t (M : Type) : Type := mk {
  id : option string;
  name : option string;
  model : option M;
  simulation : option Simulation.t;
}.
Arguments mk {M} _ _ _ _.
Arguments id {M} _.
Arguments name {M} _.
Arguments model {M} _.
Arguments simulation {M} _.

Definition to_tuple (self : t Model.t) : pyval :=
  VTuple [of_opt VStr (id self); of_opt VStr (name self);
          of_opt Model.to_tuple (model self);
          of_opt Simulation.to_tuple (simulation self)].

(** [AbstractTask.is_equal] *)
Definition base_is_equal {M} (self other : t M) : bool :=
  bool_decide (id self = id other)
  && bool_decide (name self = name other).

(** [Task.is_equal] *)
Definition is_equal (self other : t Model.t) : bool :=
  base_is_equal self other
  && opt_is_equal Model.is_equal (model self) (model other)
  && opt_is_equal Simulation.is_equal (simulation self) (simulation other).

End Task.

Module DataGeneratorVariable.

Record t (M : Type) : Type := mk {
  id : option string;
  name : option string;
  target : option string;
  symbol : option string;
  task : option (Task.t M);
  model : option M;
}.
Arguments mk {M} _ _ _ _ _ _.
Arguments id {M} _.
Arguments name {M} _.
Arguments target {M} _.
Arguments symbol {M} _.
Arguments task {M} _.
Arguments model {M} _.

Definition to_tuple (self : t Model.t) : pyval :=
  VTuple [of_opt VStr (id self); of_opt VStr (name self); of_opt VStr (target self);
          of_opt VStr (symbol self);
          of_opt Task.to_tuple (task self);
          of_opt Model.to_tuple (model self)].

Definition is_equal (self other : t Model.t) : bool :=
  bool_decide (id self = id other)
  && bool_decide (name self = name other)
  && bool_decide (target self = target other)
  && bool_decide (symbol self = symbol other)
  && opt_is_equal Task.is_equal (task self) (task other)
  && opt_is_equal Model.is_equal (model self) (model other).

End DataGeneratorVariable.

Module DataGeneratorParameter.

Record t : Type := mk {
  id : option string;
  name : option string;
  value : option pyfloat;
}.

Definition init (id name : option string) (value : option pyfloat) : t :=
  mk id name value.

Definition to_tuple (self : t) : pyval :=
  VTuple [of_opt VStr (id self); of_opt VStr (name self); of_opt VFloat (value self)].

Definition is_equal (self other : t) : bool :=
  bool_decide (id self = id other)
  && bool_decide (name self = name other)
  && opt_float_eqb (value self) (value other).

End DataGeneratorParameter.

Module DataGenerator.

Record t (M : Type) : Type := mk {
  id : option string;
  name : option string;
  variables : list (DataGeneratorVariable.t M);
  parameters : list DataGeneratorParameter.t;
  math : option string;
}.
Arguments mk {M} _ _ _ _ _.
Arguments id {M} _.
Arguments name {M} _.
Arguments variables {M} _.
Arguments parameters {M} _.
Arguments math {M} _.

Definition init {M} (id name : option string)
    (variables : option (list (DataGeneratorVariable.t M)))
    (parameters : option (list DataGeneratorParameter.t)) (math : option string) : t M :=
  mk id name (or_empty variables) (or_empty parameters) math.

Definition to_tuple (self : t Model.t) : pyval :=
  VTuple [of_opt VStr (id self); of_opt VStr (name self);
          VTuple (none_sorted (map DataGeneratorVariable.to_tuple (variables self)));
          VTuple (none_sorted (map DataGeneratorParameter.to_tuple (parameters self)));
          of_opt VStr (math self)].

Definition is_equal (self other : t Model.t) : bool :=
  bool_decide (id self = id other)
  && bool_decide (name self = name other)
  && are_lists_equal DataGeneratorVariable.is_equal (variables self) (variables other)
  && are_lists_equal DataGeneratorParameter.is_equal (parameters self) (parameters other)
  && bool_decide (math self = math other).

End DataGenerator.

Module DataSet.

Record t (M : Type) : Type := mk {
  id : option string;
  name : option string;
  label : option string;
  data_generator : option (DataGenerator.t M);
}.
Arguments mk {M} _ _ _ _.
Arguments id {M} _.
Arguments name {M} _.
Arguments label {M} _.
Arguments data_generator {M} _.

Definition to_tuple (self : t Model.t) : pyval :=
  VTuple [of_opt VStr (id self); of_opt VStr (name self); of_opt VStr (label self);
          of_opt DataGenerator.to_tuple (data_generator self)].

Definition is_equal (self other : t Model.t) : bool :=
  bool_decide (id self = id other)
  && bool_decide (name self = name other)
  && bool_decide (label self = label other)
  && opt_is_equal DataGenerator.is_equal (data_generator self) (data_generator other).

End DataSet.

Module AxisScale.

Inductive t : Type := linear | log.

#[global] Instance eq_dec : EqDecision t.
Proof. solve_decision. Defined.

Definition value (self : t) : string :=
  match self with
  | linear => "linear"
  | log => "log"
  end.

End AxisScale.

Module Curve.

Record t (M : Type) : Type := mk {
  id : option string;
  name : option string;
  x_scale : option AxisScale.t;
  y_scale : option AxisScale.t;
  x_data_generator : option (DataGenerator.t M);
  y_data_generator : option (DataGenerator.t M);
}.
Arguments mk {M} _ _ _ _ _ _.
Arguments id {M} _.
Arguments name {M} _.
Arguments x_scale {M} _.
Arguments y_scale {M} _.
Arguments x_data_generator {M} _.
Arguments y_data_generator {M} _.

Definition to_tuple (self : t Model.t) : pyval :=
  VTuple [of_opt VStr (id self); of_opt VStr (name self);
          of_opt (fun s => VStr (AxisScale.value s)) (x_scale self);
          of_opt (fun s => VStr (AxisScale.value s)) (y_scale self);
          of_opt DataGenerator.to_tuple (x_data_generator self);
          of_opt DataGenerator.to_tuple (y_data_generator self)].

Definition is_equal (self other : t Model.t) : bool :=
  bool_decide (id self = id other)
  && bool_decide (name self = name other)
  && bool_decide (x_scale self = x_scale other)
  && bool_decide (y_scale self = y_scale other)
  && opt_is_equal DataGenerator.is_equal (x_data_generator self) (x_data_generator other)
  && opt_is_equal DataGenerator.is_equal (y_data_generator self) (y_data_generator other).

End Curve.

Module Surface.

Record t (M : Type) : Type := mk {
  id : option string;
  name : option string;
  x_scale : option AxisScale.t;
  y_scale : option AxisScale.t;
  z_scale : option AxisScale.t;
  x_data_generator : option (DataGenerator.t M);
  y_data_generator : option (DataGenerator.t M);
  z_data_generator : option (DataGenerator.t M);
}.
Arguments mk {M} _ _ _ _ _ _ _ _.
Arguments id {M} _.
Arguments name {M} _.
Arguments x_scale {M} _.
Arguments y_scale {M} _.
Arguments z_scale {M} _.
Arguments x_data_generator {M} _.
Arguments y_data_generator {M} _.
Arguments z_data_generator {M} _.

Definition to_tuple (self : t Model.t) : pyval :=
  VTuple [of_opt VStr (id self); of_opt VStr (name self);
          of_opt (fun s => VStr (AxisScale.value s)) (x_scale self);
          of_opt (fun s => VStr (AxisScale.value s)) (y_scale self);
          of_opt (fun s => VStr (AxisScale.value s)) (z_scale self);
          of_opt DataGenerator.to_tuple (x_data_generator self);
          of_opt DataGenerator.to_tuple (y_data_generator self);
          of_opt DataGenerator.to_tuple (z_data_generator self)].

Definition is_equal (self other : t Model.t) : bool :=
  bool_decide (id self = id other)
  && bool_decide (name self = name other)
  && bool_decide (x_scale self = x_scale other)
  && bool_decide (y_scale self = y_scale other)
  && bool_decide (z_scale self = z_scale other)
  && opt_is_equal DataGenerator.is_equal (x_data_generator self) (x_data_generator other)
  && opt_is_equal DataGenerator.is_equal (y_data_generator self) (y_data_generator other)
  && opt_is_equal DataGenerator.is_equal (z_data_generator self) (z_data_generator other).

End Surface.

Module Output.

(** The attributes of the three subclasses of the abstract class [Output]. *)
Record report (M : Type) : Type := mk_report {
  report_id : option string;
  report_name : option string;
  data_sets : list (DataSet.t M);
}.
Arguments mk_report {M} _ _ _.
Arguments report_id {M} _.
Arguments report_name {M} _.
Arguments data_sets {M} _.

Record plot2d (M : Type) : Type := mk_plot2d {
  plot2d_id : option string;
  plot2d_name : option string;
  curves : list (Curve.t M);
}.
Arguments mk_plot2d {M} _ _ _.
Arguments plot2d_id {M} _.
Arguments plot2d_name {M} _.
Arguments curves {M} _.

Record plot3d (M : Type) : Type := mk_plot3d {
  plot3d_id : option string;
  plot3d_name : option string;
  surfaces : list (Surface.t M);
}.
Arguments mk_plot3d {M} _ _ _.
Arguments plot3d_id {M} _.
Arguments plot3d_name {M} _.
Arguments surfaces {M} _.

(** The instances of [Output]. *)
Inductive t (M : Type) : Type :=
| Report (r : report M)
| Plot2D (p : plot2d M)
| Plot3D (p : plot3d M).
Arguments Report {M} _.
Arguments Plot2D {M} _.
Arguments Plot3D {M} _.

Definition Report_init {M} (id name : option string)
    (data_sets : option (list (DataSet.t M))) : t M :=
  Report (mk_report id name (or_empty data_sets)).

Definition Plot2D_init {M} (id name : option string)
    (curves : option (list (Curve.t M))) : t M :=
  Plot2D (mk_plot2d id name (or_empty curves)).

Definition Plot3D_init {M} (id name : option string)
    (surfaces : option (list (Surface.t M))) : t M :=
  Plot3D (mk_plot3d id name (or_empty surfaces)).

Definition id {M} (self : t M) : option string :=
  match self with
  | Report r => report_id r
  | Plot2D p => plot2d_id p
  | Plot3D p => plot3d_id p
  end.

Definition name {M} (self : t M) : option string :=
  match self with
  | Report r => report_name r
  | Plot2D p => plot2d_name p
  | Plot3D p => plot3d_name p
  end.

(** [output.__class__.__name__] *)
Definition class_name {M} (self : t M) : string :=
  match self with
  | Report _ => "Report"
  | Plot2D _ => "Plot2D"
  | Plot3D _ => "Plot3D"
  end.

(** [self.__class__ == other.__class__] *)
Definition same_class {M} (self other : t M) : bool :=
  match self, other with
  | Report _, Report _ => true
  | Plot2D _, Plot2D _ => true
  | Plot3D _, Plot3D _ => true
  | _, _ => false
  end.

Definition to_tuple (self : t Model.t) : pyval :=
  match self with
  | Report r =>
      VTuple [of_opt VStr (report_id r); of_opt VStr (report_name r);
              VTuple (none_sorted (map DataSet.to_tuple (data_sets r)))]
  | Plot2D p =>
      VTuple [of_opt VStr (plot2d_id p); of_opt VStr (plot2d_name p);
              VTuple (none_sorted (map Curve.to_tuple (curves p)))]
  | Plot3D p =>
      VTuple [of_opt VStr (plot3d_id p); of_opt VStr (plot3d_name p);
              VTuple (none_sorted (map Surface.to_tuple (surfaces p)))]
  end.

(** [Output.is_equal], which [Report] extends through [super]. *)
Definition base_is_equal {M} (self other : t M) : bool :=
  same_class self other
  && bool_decide (id self = id other)
  && bool_decide (name self = name other).

Definition is_equal (self other : t Model.t) : bool :=
  match self with
  | Report r =>
      base_is_equal self other
      && match other with
         | Report r' => are_lists_equal DataSet.is_equal (data_sets r) (data_sets r')
         | _ => false
         end
  | Plot2D p =>
      same_class self other
      && bool_decide (id self = id other)
      && bool_decide (name self = name other)
      && match other with
         | Plot2D p' => are_lists_equal Curve.is_equal (curves p) (curves p')
         | _ => false
         end
  | Plot3D p =>
      same_class self other
      && bool_decide (id self = id other)
      && bool_decide (name self = name other)
      && match other with
         | Plot3D p' => are_lists_equal Surface.is_equal (surfaces p) (surfaces p')
         | _ => false
         end
  end.

End Output.

Module SedDocument.

(** [Meta] is the class [Metadata] of [biosimulations.data_model], which is not
    part of the repository files at hand. *)
Record t (M Meta : Type) : Type := mk {
  level : option Z;
  version : option Z;
  models : list M;
  simulations : list Simulation.t;
  tasks : list (Task.t M);
  data_generators : list (DataGenerator.t M);
  outputs : list (Output.t M);
  metadata : option Meta;
}.
Arguments mk {M Meta} _ _ _ _ _ _ _ _.
Arguments level {M Meta} _.
Arguments version {M Meta} _.
Arguments models {M Meta} _.
Arguments simulations {M Meta} _.
Arguments tasks {M Meta} _.
Arguments data_generators {M Meta} _.
Arguments outputs {M Meta} _.
Arguments metadata {M Meta} _.

Definition init {M Meta} (level version : option Z)
    (models : option (list M)) (simulations : option (list Simulation.t))
    (tasks : option (list (Task.t M)))
    (data_generators : option (list (DataGenerator.t M)))
    (outputs : option (list (Output.t M))) (metadata : option Meta) : t M Meta :=
  mk level version (or_empty models) (or_empty simulations) (or_empty tasks)
     (or_empty data_generators) (or_empty outputs) metadata.

(** [SedDocument()] *)
Definition default {M Meta} : t M Meta :=
  init (Some 1%Z) (Some 3%Z) None None None None None None.

Section with_metadata.
Context {Meta : Type}.
(** [Metadata.to_tuple] and [Metadata.is_equal]; the argument of the latter
    may be [None]. *)
Context (Metadata_to_tuple : Meta -> pyval).
Context (Metadata_is_equal : Meta -> option Meta -> bool).

Definition to_tuple (self : t Model.t Meta) : pyval :=
  VTuple [of_opt VInt (level self);
          of_opt VInt (version self);
          VTuple (none_sorted (map Model.to_tuple (models self)));
          VTuple (none_sorted (map Simulation.to_tuple (simulations self)));
          VTuple (none_sorted (map Task.to_tuple (tasks self)));
          VTuple (none_sorted (map DataGenerator.to_tuple (data_generators self)));
          VTuple (none_sorted (map Output.to_tuple (outputs self)));
          of_opt Metadata_to_tuple (metadata self)].

Definition is_equal (self other : t Model.t Meta) : bool :=
  bool_decide (level self = level other)
  && bool_decide (version self = version other)
  && are_lists_equal Model.is_equal (models self) (models other)
  && are_lists_equal Simulation.is_equal (simulations self) (simulations other)
  && are_lists_equal Task.is_equal (tasks self) (tasks other)
  && are_lists_equal DataGenerator.is_equal (data_generators self) (data_generators other)
  && are_lists_equal Output.is_equal (outputs self) (outputs other)
  && match metadata self with
     | None => match metadata other with None => true | Some _ => false end
     | Some m => Metadata_is_equal m (metadata other)
     end.

End with_metadata.

End SedDocument.

(** ** Entities of any class

    [is_equal] takes an object of any class as its argument; each definition
    of it starts with [self.__class__ == other.__class__], which is where two
    entities of different classes are told apart.  [Entity.t] collects the
    classes whose tuple projection is a total function and that do not hold
    outputs: all classes but [SedDocument], [CombineArchive] and
    [CombineArchiveContent]. *)

Module Entity.

Inductive t : Type :=
| AlgorithmParameterChange (x : AlgorithmParameterChange.t)
| Algorithm (x : Algorithm.t)
| Simulation (x : Simulation.t)
| ModelChange (x : ModelChange.t)
| Model (x : Model.t)
| Task (x : Task.t Model.t)
| DataGeneratorVariable (x : DataGeneratorVariable.t Model.t)
| DataGeneratorParameter (x : DataGeneratorParameter.t)
| DataGenerator (x : DataGenerator.t Model.t)
| DataSet (x : DataSet.t Model.t)
| Curve (x : Curve.t Model.t)
| Surface (x : Surface.t Model.t)
| Output (x : Output.t Model.t)
| CombineArchiveAuthor (x : CombineArchiveAuthor.t).

(** [self.__class__.__name__] *)
Definition class_of (self : t) : string :=
  match self with
  | AlgorithmParameterChange _ => "AlgorithmParameterChange"
  | Algorithm _ => "Algorithm"
  | Simulation (Simulation.SteadyStateSimulation _) => "SteadyStateSimulation"
  | Simulation (Simulation.OneStepSimulation _ _) => "OneStepSimulation"
  | Simulation (Simulation.UniformTimeCourseSimulation _ _ _ _ _) =>
      "UniformTimeCourseSimulation"
  | ModelChange _ => "ModelAttributeChange"
  | Model _ => "Model"
  | Task _ => "Task"
  | DataGeneratorVariable _ => "DataGeneratorVariable"
  | DataGeneratorParameter _ => "DataGeneratorParameter"
  | DataGenerator _ => "DataGenerator"
  | DataSet _ => "DataSet"
  | Curve _ => "Curve"
  | Surface _ => "Surface"
  | Output x => Output.class_name x
  | CombineArchiveAuthor _ => "CombineArchiveAuthor"
  end.

(** [self.to_tuple()] *)
Definition to_tuple (self : t) : pyval :=
  match self with
  | AlgorithmParameterChange x => AlgorithmParameterChange.to_tuple x
  | Algorithm x => Algorithm.to_tuple x
  | Simulation x => Simulation.to_tuple x
  | ModelChange x => ModelChange.to_tuple x
  | Model x => Model.to_tuple x
  | Task x => Task.to_tuple x
  | DataGeneratorVariable x => DataGeneratorVariable.to_tuple x
  | DataGeneratorParameter x => DataGeneratorParameter.to_tuple x
  | DataGenerator x => DataGenerator.to_tuple x
  | DataSet x => DataSet.to_tuple x
  | Curve x => Curve.to_tuple x
  | Surface x => Surface.to_tuple x
  | Output x => Output.to_tuple x
  | CombineArchiveAuthor x => CombineArchiveAuthor.to_tuple x
  end.

(** [self.is_equal(other)]: the method of the class of [self]; it answers
    [False] at once when [other] is of another class. *)
Definition is_equal (self other : t) : bool :=
  match self, other with
  | AlgorithmParameterChange x, AlgorithmParameterChange y =>
      AlgorithmParameterChange.is_equal x y
  | Algorithm x, Algorithm y => Algorithm.is_equal x y
  | Simulation x, Simulation y => Simulation.is_equal x y
  | ModelChange x, ModelChange y => ModelChange.is_equal x y
  | Model x, Model y => Model.is_equal x y
  | Task x, Task y => Task.is_equal x y
  | DataGeneratorVariable x, DataGeneratorVariable y => DataGeneratorVariable.is_equal x y
  | DataGeneratorParameter x, DataGeneratorParameter y =>
      DataGeneratorParameter.is_equal x y
  | DataGenerator x, DataGenerator y => DataGenerator.is_equal x y
  | DataSet x, DataSet y => DataSet.is_equal x y
  | Curve x, Curve y => Curve.is_equal x y
  | Surface x, Surface y => Surface.is_equal x y
  | Output x, Output y => Output.is_equal x y
  | CombineArchiveAuthor x, CombineArchiveAuthor y => CombineArchiveAuthor.is_equal x y
  | _, _ => false
  end.

(** Two things keep an entity from being [is_equal] to an entity with the
    same tuple projection, itself included: a float attribute that is NaN, on
    which [==] is false, and a [name] given to a model change after its
    construction, which [is_equal] compares and [to_tuple] leaves out.  An
    entity is plain when it is free of both, it and the entities that it
    holds. *)
Module Plain.

Definition number (x : option pyfloat) : bool :=
  match x with
  | Some (NaN _) => false
  | Some (Num _) => true
  | None => true
  end.

Definition opt {A} (plain : A -> bool) (x : option A) : bool :=
  match x with
  | Some a => plain a
  | None => true
  end.

Definition simulation (self : Simulation.t) : bool :=
  match self with
  | Simulation.SteadyStateSimulation _ => true
  | Simulation.OneStepSimulation _ step => number step
  | Simulation.UniformTimeCourseSimulation _ initial_time output_start_time
      output_end_time _ =>
      number initial_time && number output_start_time && number output_end_time
  end.

Definition model_change (self : ModelChange.t) : bool :=
  bool_decide (ModelChange.name self = None).

Definition model (self : Model.t) : bool :=
  forallb model_change (Model.changes self).

Definition task (self : Task.t Model.t) : bool :=
  opt model (Task.model self) && opt simulation (Task.simulation self).

Definition variable (self : DataGeneratorVariable.t Model.t) : bool :=
  opt task (DataGeneratorVariable.task self)
  && opt model (DataGeneratorVariable.model self).

Definition parameter (self : DataGeneratorParameter.t) : bool :=
  number (DataGeneratorParameter.value self).

Definition data_generator (self : DataGenerator.t Model.t) : bool :=
  forallb variable (DataGenerator.variables self)
  && forallb parameter (DataGenerator.parameters self).

Definition data_set (self : DataSet.t Model.t) : bool :=
  opt data_generator (DataSet.data_generator self).

Definition curve (self : Curve.t Model.t) : bool :=
  opt data_generator (Curve.x_data_generator self)
  && opt data_generator (Curve.y_data_generator self).

Definition surface (self : Surface.t Model.t) : bool :=
  opt data_generator (Surface.x_data_generator self)
  && opt data_generator (Surface.y_data_generator self)
  && opt data_generator (Surface.z_data_generator self).

Definition output (self : Output.t Model.t) : bool :=
  match self with
  | Output.Report r => forallb data_set (Output.data_sets r)
  | Output.Plot2D p => forallb curve (Output.curves p)
  | Output.Plot3D p => forallb surface (Output.surfaces p)
  end.

End Plain.

Definition plain (self : t) : bool :=
  match self with
  | AlgorithmParameterChange _ => true
  | Algorithm _ => true
  | Simulation x => Plain.simulation x
  | ModelChange x => Plain.model_change x
  | Model x => Plain.model x
  | Task x => Plain.task x
  | DataGeneratorVariable x => Plain.variable x
  | DataGeneratorParameter x => Plain.parameter x
  | DataGenerator x => Plain.data_generator x
  | DataSet x => Plain.data_set x
  | Curve x => Plain.curve x
  | Surface x => Plain.surface x
  | Output x => Plain.output x
  | CombineArchiveAuthor _ => true
  end.

End Entity.

(** ** [biosimulators_utils/sedml/exec.py]

    A document is executed on a store of objects.  The objects that
    [exec_doc] updates in place are the models ([model.source]) and the
    document (the list [doc.tasks], which is sorted in place); they live in
    the store and are referred to by their location, so that an update is seen
    through every reference.  All other entities are never updated and are
    plain values. *)

Module Exec.

Definition loc : Type := nat.

(** A [numpy] array: its [shape] and its elements. *)
Record ndarray : Type := mk_ndarray {
  shape : list nat;
  entries : list pyfloat;
}.

(** [pandas.DataFrame]: the rows and the labels that index them. *)
Record DataFrame : Type := mk_DataFrame {
  df_values : list ndarray;
  df_index : list (option string);
}.

(** The member of the enumeration [ReportFormat] (or [PlotFormat]) with this
    value. *)
Definition ReportFormat : Type := string.
Definition PlotFormat : Type := string.

Inductive warning_category : Type :=
| SedmlFeatureNotSupportedWarning
| IllogicalSedmlWarning.

(** [DataGeneratorVariableResults]: a dictionary from the id of a variable to
    its result, which may be [None]. *)
Abbreviation DataGeneratorVariableResults := (gmap (option string) (option ndarray)).
(** [DataGeneratorResults]: from the id of a data generator to its result. *)
Abbreviation DataGeneratorResults := (gmap (option string) ndarray).
(** [OutputResults]: from the id of a report to its table. *)
Abbreviation OutputResults := (gmap (option string) DataFrame).

(** *** Entities that refer to other models *)

Section relocate.
Context (f : loc -> loc).

Definition relocate_Task (x : Task.t loc) : Task.t loc :=
  Task.mk (Task.id x) (Task.name x) (f <$> Task.model x) (Task.simulation x).

Definition relocate_Variable (x : DataGeneratorVariable.t loc)
    : DataGeneratorVariable.t loc :=
  DataGeneratorVariable.mk (DataGeneratorVariable.id x) (DataGeneratorVariable.name x)
    (DataGeneratorVariable.target x) (DataGeneratorVariable.symbol x)
    (relocate_Task <$> DataGeneratorVariable.task x)
    (f <$> DataGeneratorVariable.model x).

Definition relocate_DataGenerator (x : DataGenerator.t loc) : DataGenerator.t loc :=
  DataGenerator.mk (DataGenerator.id x) (DataGenerator.name x)
    (relocate_Variable <$> DataGenerator.variables x)
    (DataGenerator.parameters x) (DataGenerator.math x).

Definition relocate_DataSet (x : DataSet.t loc) : DataSet.t loc :=
  DataSet.mk (DataSet.id x) (DataSet.name x) (DataSet.label x)
    (relocate_DataGenerator <$> DataSet.data_generator x).

Definition relocate_Curve (x : Curve.t loc) : Curve.t loc :=
  Curve.mk (Curve.id x) (Curve.name x) (Curve.x_scale x) (Curve.y_scale x)
    (relocate_DataGenerator <$> Curve.x_data_generator x)
    (relocate_DataGenerator <$> Curve.y_data_generator x).

Definition relocate_Surface (x : Surface.t loc) : Surface.t loc :=
  Surface.mk (Surface.id x) (Surface.name x)
    (Surface.x_scale x) (Surface.y_scale x) (Surface.z_scale x)
    (relocate_DataGenerator <$> Surface.x_data_generator x)
    (relocate_DataGenerator <$> Surface.y_data_generator x)
    (relocate_DataGenerator <$> Surface.z_data_generator x).

Definition relocate_Output (x : Output.t loc) : Output.t loc :=
  match x with
  | Output.Report r =>
      Output.Report
        (Output.mk_report (Output.report_id r) (Output.report_name r)
           (relocate_DataSet <$> Output.data_sets r))
  | Output.Plot2D p =>
      Output.Plot2D
        (Output.mk_plot2d (Output.plot2d_id p) (Output.plot2d_name p)
           (relocate_Curve <$> Output.curves p))
  | Output.Plot3D p =>
      Output.Plot3D
        (Output.mk_plot3d (Output.plot3d_id p) (Output.plot3d_name p)
           (relocate_Surface <$> Output.surfaces p))
  end.

Definition relocate_SedDocument {Meta} (x : SedDocument.t loc Meta)
    : SedDocument.t loc Meta :=
  SedDocument.mk (SedDocument.level x) (SedDocument.version x)
    (f <$> SedDocument.models x) (SedDocument.simulations x)
    (relocate_Task <$> SedDocument.tasks x)
    (relocate_DataGenerator <$> SedDocument.data_generators x)
    (relocate_Output <$> SedDocument.outputs x)
    (SedDocument.metadata x).

End relocate.

(** The models an entity refers to, in the order in which a traversal of its
    attributes meets them. *)
Definition models_of_Task (x : Task.t loc) : list loc :=
  option_list (Task.model x).

Definition models_of_Variable (x : DataGeneratorVariable.t loc) : list loc :=
  from_option models_of_Task [] (DataGeneratorVariable.task x)
  ++ option_list (DataGeneratorVariable.model x).

Definition models_of_DataGenerator (x : DataGenerator.t loc) : list loc :=
  flat_map models_of_Variable (DataGenerator.variables x).

Definition models_of_opt_DataGenerator (x : option (DataGenerator.t loc)) : list loc :=
  from_option models_of_DataGenerator [] x.

Definition models_of_Output (x : Output.t loc) : list loc :=
  match x with
  | Output.Report r =>
      flat_map (fun d => models_of_opt_DataGenerator (DataSet.data_generator d))
        (Output.data_sets r)
  | Output.Plot2D p =>
      flat_map (fun c => models_of_opt_DataGenerator (Curve.x_data_generator c)
                         ++ models_of_opt_DataGenerator (Curve.y_data_generator c))
        (Output.curves p)
  | Output.Plot3D p =>
      flat_map (fun s => models_of_opt_DataGenerator (Surface.x_data_generator s)
                         ++ models_of_opt_DataGenerator (Surface.y_data_generator s)
                         ++ models_of_opt_DataGenerator (Surface.z_data_generator s))
        (Output.surfaces p)
  end.

Definition models_of_SedDocument {Meta} (x : SedDocument.t loc Meta) : list loc :=
  SedDocument.models x
  ++ flat_map models_of_Task (SedDocument.tasks x)
  ++ flat_map models_of_DataGenerator (SedDocument.data_generators x)
  ++ flat_map models_of_Output (SedDocument.outputs x).

Section exec.
(** The class [Metadata], which [exec_doc] does not look into. *)
Context {Meta : Type}.

Abbreviation Doc := (SedDocument.t loc Meta).

(** *** The world [exec_doc] runs in *)

Record World : Type := mk_World {
  (** the store: the models and the documents, by location *)
  heap_models : list Model.t;
  heap_docs : list Doc;
  (** the temporary files that exist *)
  files : gset string;
  (** the calls of the task executor so far: the task and the variables *)
  calls : list (Task.t loc * list (DataGeneratorVariable.t loc));
  (** the warnings issued so far *)
  warnings : list (string * warning_category);
  (** the calls of the report writer so far *)
  written : list (DataFrame * string * option string * ReportFormat);
}.

Definition set_heap_models (v : list Model.t) (w : World) : World :=
  mk_World v (heap_docs w) (files w) (calls w) (warnings w) (written w).
Definition set_heap_docs (v : list Doc) (w : World) : World :=
  mk_World (heap_models w) v (files w) (calls w) (warnings w) (written w).
Definition set_files (v : gset string) (w : World) : World :=
  mk_World (heap_models w) (heap_docs w) v (calls w) (warnings w) (written w).
Definition set_calls (v : list (Task.t loc * list (DataGeneratorVariable.t loc)))
    (w : World) : World :=
  mk_World (heap_models w) (heap_docs w) (files w) v (warnings w) (written w).
Definition set_warnings (v : list (string * warning_category)) (w : World) : World :=
  mk_World (heap_models w) (heap_docs w) (files w) (calls w) v (written w).
Definition set_written (v : list (DataFrame * string * option string * ReportFormat))
    (w : World) : World :=
  mk_World (heap_models w) (heap_docs w) (files w) (calls w) (warnings w) v.

(** A computation in the world: it leaves a world behind, also when it
    raises. *)
Definition exec (A : Type) : Type := World -> World * result A.

#[local] Instance exec_ret : MRet exec := fun A a w => (w, Ok a).
#[local] Instance exec_bind : MBind exec := fun A B k c w =>
  match c w with
  | (w', Ok a) => k a w'
  | (w', Raise e) => (w', Raise e)
  end.

Definition raise {A} (e : exn) : exec A := fun w => (w, Raise e).
Definition lift {A} (r : result A) : exec A := fun w => (w, r).
Definition get {A} (f : World -> A) : exec A := fun w => (w, Ok (f w)).
Definition modify (f : World -> World) : exec unit := fun w => (f w, Ok tt).

(** [for x in l: s = body(s, x)] *)
Fixpoint for_each {A S} (body : S -> A -> exec S) (s : S) (l : list A) : exec S :=
  match l with
  | [] => mret s
  | x :: l' => s' ← body s x; for_each body s' l'
  end.

(** The attributes of the object at a location; a location with no object is
    an error of the store, which does not happen in a run of Python. *)
Definition get_model (l : loc) : exec Model.t := fun w =>
  match heap_models w !! l with
  | Some m => (w, Ok m)
  | None => (w, Raise (ReferenceError "no model at this location"))
  end.

Definition get_doc (l : loc) : exec Doc := fun w =>
  match heap_docs w !! l with
  | Some d => (w, Ok d)
  | None => (w, Raise (ReferenceError "no document at this location"))
  end.

(** [warnings.warn(message, category)] *)
Definition warn (message : string) (category : warning_category) : exec unit :=
  modify (fun w => set_warnings (warnings w ++ [(message, category)]) w).

(** *** The collaborators *)

Record Env : Type := mk_Env {
  (** [SedmlSimulationReader().run(path)]: the models it creates, which are
      put at the end of the store, and the document. *)
  SedmlSimulationReader_run : string -> list Model.t -> result (list Model.t * Doc);
  (** [get_config().REPORT_FORMATS] and [PLOT_FORMATS], as members of the
      enumerations *)
  default_report_formats : result (list ReportFormat);
  default_plot_formats : result (list PlotFormat);
  (** [os.path.isabs], [os.path.join] *)
  isabs : string -> bool;
  path_join : string -> string -> string;
  (** [tempfile.mkstemp(suffix='.xml')]: the name of the file it creates,
      given the temporary files that exist *)
  mkstemp : gset string -> string;
  (** [apply_changes_to_xml_model(changes, in_filename, out_filename)] *)
  apply_changes_to_xml_model : list ModelChange.t -> string -> string -> result unit;
  (** [get_variables_for_task(doc, task)] of [sedml/utils.py] *)
  get_variables_for_task : Doc -> Task.t loc -> list (DataGeneratorVariable.t loc);
  (** [calc_data_generator_results(data_gen, variable_results)] of
      [sedml/utils.py] *)
  calc_data_generator_results :
    DataGenerator.t loc -> DataGeneratorVariableResults -> result ndarray;
  (** [pandas.DataFrame(numpy.array(dataset_results), index=dataset_labels)] *)
  pandas_DataFrame : list ndarray -> list (option string) -> result DataFrame;
  (** [ReportWriter().run(df, base_path, rel_path, format=format)] *)
  ReportWriter_run :
    DataFrame -> string -> option string -> ReportFormat -> result unit;
}.

(** The task executor [task_executer(task, variables)], which can look into
    the models the task and the variables refer to. *)
Definition TaskExecuter : Type :=
  list Model.t -> Task.t loc -> list (DataGeneratorVariable.t loc) ->
  result DataGeneratorVariableResults.

Context (env : Env).

(** *** Process arguments *)

(** The argument [doc]: a path to a SED-ML file, or a document of the
    store. *)
Inductive doc_arg : Type :=
| DocPath (path : string)
| DocObject (l : loc).

(** The distinct models that a document refers to and that are in the store. *)
Definition models_to_copy (models : list Model.t) (d : Doc) : list loc :=
  remove_dups (filter (fun l => is_Some (models !! l)) (models_of_SedDocument d)).

(** Where [copy.deepcopy] puts the copy of the model at [l]: the copies are
    put at the end of the store, in the order of [todo]. *)
Definition copy_loc (base : nat) (todo : list loc) (l : loc) : loc :=
  match list_find (fun l' => l' = l) todo with
  | Some (i, _) => base + i
  | None => l
  end.

(** [copy.deepcopy(doc)]: every model the document refers to is copied once,
    the document is copied with its references turned to the copies of the
    models, and the location of the copy of the document is returned. *)
Definition deepcopy (l : loc) : exec loc :=
  d ← get_doc l;
  models ← get heap_models;
  docs ← get heap_docs;
  let todo := models_to_copy models d in
  let copies := omap (fun l => models !! l) todo in
  modify (set_heap_models (models ++ copies));;
  modify (set_heap_docs (docs ++ [relocate_SedDocument (copy_loc (length models) todo) d]));;
  mret (length docs).

(** [SedmlSimulationReader().run(doc)] *)
Definition read (path : string) : exec loc :=
  models ← get heap_models;
  docs ← get heap_docs;
  '(new_models, d) ← lift (SedmlSimulationReader_run env path models);
  modify (set_heap_models (models ++ new_models));;
  modify (set_heap_docs (docs ++ [d]));;
  mret (length docs).

Definition process_arguments (doc : doc_arg)
    (report_formats : option (list ReportFormat))
    (plot_formats : option (list PlotFormat))
    : exec (loc * list ReportFormat * list PlotFormat) :=
  doc ← match doc with
        | DocPath path => read path
        | DocObject l => deepcopy l
        end;
  report_formats ← match report_formats with
                   | None => lift (default_report_formats env)
                   | Some formats => mret formats
                   end;
  plot_formats ← match plot_formats with
                 | None => lift (default_plot_formats env)
                 | Some formats => mret formats
                 end;
  mret (doc, report_formats, plot_formats).

(** [for x in l: s = body(s, x)], for a body that has no effect on the world *)
Fixpoint for_each_pure {A S} (body : S -> A -> result S) (s : S) (l : list A)
    : result S :=
  match l with
  | [] => Ok s
  | x :: l' => s' ← body s x; for_each_pure body s' l'
  end.

(** *** Apply changes to models *)

(** [model.source = source] *)
Definition set_model_source (model : loc) (source : string) : exec unit :=
  m ← get_model model;
  modify (fun w =>
    set_heap_models (<[model := Model.set_source (Some source) m]> (heap_models w)) w).

(** [tempfile.mkstemp(suffix='.xml')], [os.close] *)
Definition do_mkstemp : exec string := fun w =>
  let name := mkstemp env (files w) in
  (set_files ({[name]} ∪ files w) w, Ok name).

(** [os.remove(name)] *)
Definition os_remove (name : string) : exec unit := fun w =>
  if decide (name ∈ files w)
  then (set_files (files w ∖ {[name]}) w, Ok tt)
  else (w, Raise (Raised "FileNotFoundError")).

(** The body of [for model in doc.models]. *)
Definition apply_changes_to_model (working_dir : string)
    (apply_xml_model_changes : bool)
    (modified_model_filenames : list string) (model : loc) : exec (list string) :=
  m ← get_model model;
  source ← match Model.source m with
           | Some source => mret source
           | None => raise (TypeError "expected str, bytes or os.PathLike object")
           end;
  source ← (if isabs env source then mret source
            else set_model_source model (path_join env working_dir source);;
                 mret (path_join env working_dir source));
  if apply_xml_model_changes && bool_decide (Model.changes m <> [])
  then
    let original_model_filename := source in
    modified_model_filename ← do_mkstemp;
    lift (apply_changes_to_xml_model env (Model.changes m)
            original_model_filename modified_model_filename);;
    set_model_source model modified_model_filename;;
    mret (modified_model_filenames ++ [modified_model_filename])
  else mret modified_model_filenames.

Definition apply_changes_to_models (doc : loc) (working_dir : string)
    (apply_xml_model_changes : bool) : exec (list string) :=
  d ← get_doc doc;
  for_each (apply_changes_to_model working_dir apply_xml_model_changes) []
    (SedDocument.models d).

(** *** Execute simulations *)

(** The order of the keys [task.id] of the sort. *)
Definition id_leb (a b : option string) : bool :=
  match a, b with
  | Some x, Some y => String.leb x y
  | None, _ => true
  | Some _, None => false
  end.

Definition task_leb (a b : Task.t loc) : bool := id_leb (Task.id a) (Task.id b).

Definition has_no_id (task : Task.t loc) : bool := bool_decide (Task.id task = None).

Definition set_tasks (tasks : list (Task.t loc)) (d : Doc) : Doc :=
  SedDocument.mk (SedDocument.level d) (SedDocument.version d) (SedDocument.models d)
    (SedDocument.simulations d) tasks (SedDocument.data_generators d)
    (SedDocument.outputs d) (SedDocument.metadata d).

(** [doc.tasks.sort(key=lambda task: task.id)]: the list is sorted in place,
    by a stable sort.  A sort of two or more elements compares each key with
    another one, and [<] is not defined on [None]. *)
Definition sort_tasks (doc : loc) : exec unit :=
  d ← get_doc doc;
  if bool_decide (2 <= length (SedDocument.tasks d))
     && existsb has_no_id (SedDocument.tasks d)
  then raise (TypeError "'<' not supported between instances")
  else modify (fun w =>
         set_heap_docs
           (<[doc := set_tasks (stable_sort task_leb (SedDocument.tasks d)) d]>
              (heap_docs w)) w).

(** [print('... {}'.format(..., '\n'.join([task.id for task in doc.tasks])))]:
    what is printed is not kept; [str.join] takes strings only. *)
Definition print_found_tasks (doc : loc) : exec unit :=
  d ← get_doc doc;
  if existsb has_no_id (SedDocument.tasks d)
  then raise (TypeError "sequence item: expected str instance, NoneType found")
  else mret tt.

(** The body of [for var in task_vars]. *)
Definition record_variable_result (task : Task.t loc)
    (task_variable_results : DataGeneratorVariableResults)
    (variable_results : DataGeneratorVariableResults)
    (var : DataGeneratorVariable.t loc) : result DataGeneratorVariableResults :=
  let variable_results :=
    <[DataGeneratorVariable.id var :=
        default None (task_variable_results !! DataGeneratorVariable.id var)]>
      variable_results in
  match default None (variable_results !! DataGeneratorVariable.id var) with
  | None =>
      Raise (ValueError ("Variable " +:+ fmt (DataGeneratorVariable.id var)
                         +:+ " must be generated for task " +:+ fmt (Task.id task)))
  | Some _ => Ok variable_results
  end.

(** [task_executer(task, task_vars)]; the call is put on record. *)
Definition call_task_executer (task_executer : TaskExecuter) (task : Task.t loc)
    (task_vars : list (DataGeneratorVariable.t loc))
    : exec DataGeneratorVariableResults := fun w =>
  (set_calls (calls w ++ [(task, task_vars)]) w,
   task_executer (heap_models w) task task_vars).

(** The body of [for i_task, task in enumerate(doc.tasks)].  Every instance of
    [AbstractTask] is an instance of [Task], so that [isinstance(task, Task)]
    holds. *)
Definition exec_task (doc : loc) (task_executer : TaskExecuter)
    (variable_results : DataGeneratorVariableResults) (task : Task.t loc)
    : exec DataGeneratorVariableResults :=
  d ← get_doc doc;
  let task_vars := get_variables_for_task env d task in
  task_variable_results ← call_task_executer task_executer task task_vars;
  lift (for_each_pure (record_variable_result task task_variable_results)
          variable_results task_vars).

Definition execute_simulations (doc : loc) (task_executer : TaskExecuter)
    : exec DataGeneratorVariableResults :=
  sort_tasks doc;;
  print_found_tasks doc;;
  d ← get_doc doc;
  for_each (exec_task doc task_executer) ∅ (SedDocument.tasks d).

(** *** Calculate data generators *)

Definition calc_data_generator (variable_results : DataGeneratorVariableResults)
    (data_gen_results : DataGeneratorResults) (data_gen : DataGenerator.t loc)
    : exec DataGeneratorResults :=
  r ← lift (calc_data_generator_results env data_gen variable_results);
  mret (<[DataGenerator.id data_gen := r]> data_gen_results).

Definition calculate_data_generators (doc : loc)
    (variable_results : DataGeneratorVariableResults) : exec DataGeneratorResults :=
  d ← get_doc doc;
  for_each (calc_data_generator variable_results) ∅ (SedDocument.data_generators d).

(** *** Generate outputs *)

(** The body of [for data_set in output.data_sets], on the three local
    variables [dataset_labels], [dataset_results] and [dataset_shapes]. *)
Definition collect_data_set (data_gen_results : DataGeneratorResults)
    (acc : list (option string) * list ndarray * gset (list nat))
    (data_set : DataSet.t loc)
    : result (list (option string) * list ndarray * gset (list nat)) :=
  let '(dataset_labels, dataset_results, dataset_shapes) := acc in
  let dataset_labels := dataset_labels ++ [DataSet.label data_set] in
  data_generator ← match DataSet.data_generator data_set with
                   | Some data_generator => Ok data_generator
                   | None => Raise (Raised "AttributeError: 'NoneType' object has no attribute 'id'")
                   end;
  data_gen_res ← match data_gen_results !! DataGenerator.id data_generator with
                 | Some r => Ok r
                 | None => Raise (KeyError (DataGenerator.id data_generator))
                 end;
  Ok (dataset_labels, dataset_results ++ [data_gen_res],
      {[shape data_gen_res]} ∪ dataset_shapes).

(** [len(set(dataset_labels)) < len(dataset_labels)] *)
Definition has_duplicates (dataset_labels : list (option string)) : bool :=
  bool_decide (size (list_to_set dataset_labels : gset (option string))
               < length dataset_labels).

(** [os.path.join(rel_out_path, output.id) if rel_out_path else output.id] *)
Definition report_path (rel_out_path : option string) (id : option string)
    : result (option string) :=
  match rel_out_path with
  | None => Ok id
  | Some EmptyString => Ok id
  | Some rel_out_path =>
      match id with
      | Some id => Ok (Some (path_join env rel_out_path id))
      | None => Raise (TypeError "expected str, bytes or os.PathLike object")
      end
  end.

(** The body of [for report_format in report_formats]. *)
Definition write_report (output_df : DataFrame) (base_out_path : string)
    (rel_out_path : option string) (id : option string)
    (_ : unit) (report_format : ReportFormat) : exec unit :=
  path ← lift (report_path rel_out_path id);
  lift (ReportWriter_run env output_df base_out_path path report_format);;
  modify (fun w =>
    set_written (written w ++ [(output_df, base_out_path, path, report_format)]) w).

Definition shape_error (id : option string) : exn :=
  ValueError ("Data generators for report " +:+ fmt id
              +:+ " must have consistent shapes").

(** The branch [isinstance(output, Report)]. *)
Definition exec_report (data_gen_results : DataGeneratorResults)
    (report_formats : list ReportFormat) (base_out_path : string)
    (rel_out_path : option string)
    (report_results : OutputResults) (output : Output.report loc)
    : exec OutputResults :=
  '(dataset_labels, dataset_results, dataset_shapes) ←
    lift (for_each_pure (collect_data_set data_gen_results) ([], [], ∅)
            (Output.data_sets output));
  (if bool_decide (1 < size dataset_shapes)
   then raise (shape_error (Output.report_id output))
   else mret tt);;
  (if has_duplicates dataset_labels
   then warn "To facilitate machine interpretation, data sets should have unique ids"
          IllogicalSedmlWarning
   else mret tt);;
  output_df ← lift (pandas_DataFrame env dataset_results dataset_labels);
  let report_results := <[Output.report_id output := output_df]> report_results in
  for_each (write_report output_df base_out_path rel_out_path (Output.report_id output))
    tt report_formats;;
  mret report_results.

Definition skipped_message (output : Output.t loc) : string :=
  "Output " +:+ fmt (Output.id output) +:+ " skipped because outputs of type "
  +:+ Output.class_name output +:+ " are not yet supported".

(** The body of [for output in doc.outputs].  Every instance of [Output] is
    an instance of [Report], [Plot2D] or [Plot3D], so that the last branch,
    which raises [NotImplementedError], is never taken. *)
Definition exec_output (data_gen_results : DataGeneratorResults)
    (report_formats : list ReportFormat) (base_out_path : string)
    (rel_out_path : option string)
    (report_results : OutputResults) (output : Output.t loc) : exec OutputResults :=
  match output with
  | Output.Report r =>
      exec_report data_gen_results report_formats base_out_path rel_out_path
        report_results r
  | Output.Plot2D _ =>
      warn (skipped_message output) SedmlFeatureNotSupportedWarning;;
      mret report_results
  | Output.Plot3D _ =>
      warn (skipped_message output) SedmlFeatureNotSupportedWarning;;
      mret report_results
  end.

Definition generate_outputs (doc : loc) (data_gen_results : DataGeneratorResults)
    (report_formats : list ReportFormat) (base_out_path : string)
    (rel_out_path : option string) : exec OutputResults :=
  d ← get_doc doc;
  for_each (exec_output data_gen_results report_formats base_out_path rel_out_path)
    ∅ (SedDocument.outputs d).

(** *** Cleanup modified models *)

Definition cleanup_modified_models (modified_model_filenames : list string)
    : exec unit :=
  for_each (fun _ modified_model_filename => os_remove modified_model_filename)
    tt modified_model_filenames.

(** *** [exec_doc]

    The argument [indent] only shapes what is printed and is left out. *)
Definition exec_doc (doc : doc_arg) (working_dir : string)
    (task_executer : TaskExecuter) (base_out_path : string)
    (rel_out_path : option string) (apply_xml_model_changes : bool)
    (report_formats : option (list ReportFormat))
    (plot_formats : option (list PlotFormat))
    : exec (OutputResults * DataGeneratorVariableResults) :=
  '(doc, report_formats, plot_formats) ←
    process_arguments doc report_formats plot_formats;
  modified_model_filenames ←
    apply_changes_to_models doc working_dir apply_xml_model_changes;
  variable_results ← execute_simulations doc task_executer;
  data_gen_results ← calculate_data_generators doc variable_results;
  report_results ←
    generate_outputs doc data_gen_results report_formats base_out_path rel_out_path;
  cleanup_modified_models modified_model_filenames;;
  mret (report_results, variable_results).

End exec.

Arguments World : clear implicits.
Arguments Env : clear implicits.
Arguments exec : clear implicits.

End Exec.

(** ** The vocabulary of the statements

    Notions in which the properties of the modules above are stated. *)

Module Spec.

Import Exec.

(** The master-flagged contents of an archive, in their order. *)
Definition masters (archive : CombineArchive.t) : list CombineArchiveContent.t :=
  filter (fun c => CombineArchiveContent.master c = true) (CombineArchive.contents archive).

(** The entities as their constructors build them with no argument. *)
Definition CombineArchive_default : CombineArchive.t :=
  CombineArchive.init None None None None None.

Definition DataGenerator_default : DataGenerator.t Model.t :=
  DataGenerator.init None None None None None.

#[local] Existing Instance exec_ret.
#[local] Existing Instance exec_bind.

Section exec_spec.
Context {Meta : Type}.

Abbreviation W := (World Meta).
Abbreviation E := (exec Meta).

(** *** Relations that a computation keeps

    [keeps R c]: whatever the outcome, the world that [c] leaves is related
    by [R] to the world it started in. *)
Definition keeps (R : relation W) {A} (c : E A) : Prop :=
  forall w, R w (c w).1.

(** *** The store: what [exec_doc] leaves untouched

    [frame nm nd w w']: the models at the locations below [nm] and the
    documents at the locations below [nd] are in [w'] what they are in [w]. *)
Definition frame (nm nd : nat) (w w' : W) : Prop :=
  (forall i m, i < nm -> heap_models w !! i = Some m -> heap_models w' !! i = Some m) /\
  (forall i d, i < nd -> heap_docs w !! i = Some d -> heap_docs w' !! i = Some d).

(** The document that [exec_doc] works on: the one it is given, or the one
    the reader makes of the file. *)
Definition loaded_document (env : Env Meta) (doc : doc_arg) (w : W)
    : option (SedDocument.t loc Meta) :=
  match doc with
  | DocObject l => heap_docs w !! l
  | DocPath path =>
      match SedmlSimulationReader_run env path (heap_models w) with
      | Ok (_, d) => Some d
      | Raise _ => None
      end
  end.

(** The ids of its tasks, as the document declares them, *)
Definition declared_task_ids (env : Env Meta) (doc : doc_arg) (w : W)
    : list (option string) :=
  from_option (fun d => Task.id <$> SedDocument.tasks d) [] (loaded_document env doc w).

(** and in ascending order. *)
Definition sorted_task_ids (env : Env Meta) (doc : doc_arg) (w : W)
    : list (option string) :=
  stable_sort id_leb (declared_task_ids env doc w).


(** The calls on record stay as they are, and so do the documents. *)
Definition same_calls (w w' : W) : Prop :=
  calls w' = calls w /\ heap_docs w' = heap_docs w.

(** The formats that [process_arguments] settles on. *)
Definition resolve_formats (env : Env Meta) (report_formats : option (list ReportFormat))
    (plot_formats : option (list PlotFormat))
    : result (list ReportFormat * list PlotFormat) :=
  match from_option Ok (default_report_formats env) report_formats with
  | Ok report_formats =>
      match from_option Ok (default_plot_formats env) plot_formats with
      | Ok plot_formats => Ok (report_formats, plot_formats)
      | Raise e => Raise e
      end
  | Raise e => Raise e
  end.

(** [exec_doc] up to [for i_task, task in enumerate(doc.tasks)]: the document
    that is worked on, the report formats and [modified_model_filenames]. *)
Definition before_tasks (env : Env Meta) (doc : doc_arg) (working_dir : string)
    (apply_xml_model_changes : bool) (report_formats : option (list ReportFormat))
    (plot_formats : option (list PlotFormat))
    : E (loc * list ReportFormat * list string) :=
  '(doc, report_formats, plot_formats) ←
    process_arguments env doc report_formats plot_formats;
  modified_model_filenames ←
    apply_changes_to_models env doc working_dir apply_xml_model_changes;
  sort_tasks doc;;
  print_found_tasks doc;;
  mret (doc, report_formats, modified_model_filenames).

(** [exec_doc] from [# calculate data generators] on. *)
Definition after_tasks (env : Env Meta) (base_out_path : string)
    (rel_out_path : option string) (doc : loc) (report_formats : list ReportFormat)
    (modified_model_filenames : list string)
    (variable_results : DataGeneratorVariableResults)
    : E (OutputResults * DataGeneratorVariableResults) :=
  data_gen_results ← calculate_data_generators env doc variable_results;
  report_results ←
    generate_outputs env doc data_gen_results report_formats base_out_path rel_out_path;
  cleanup_modified_models modified_model_filenames;;
  mret (report_results, variable_results).

(** [exec_doc] up to [for output in doc.outputs]: with the results of the
    variables and those of the data generators. *)
Definition before_outputs (env : Env Meta) (doc : doc_arg) (working_dir : string)
    (task_executer : TaskExecuter) (apply_xml_model_changes : bool)
    (report_formats : option (list ReportFormat))
    (plot_formats : option (list PlotFormat))
    : E (loc * list ReportFormat * list string
         * DataGeneratorVariableResults * DataGeneratorResults) :=
  '(doc, report_formats, plot_formats) ←
    process_arguments env doc report_formats plot_formats;
  modified_model_filenames ←
    apply_changes_to_models env doc working_dir apply_xml_model_changes;
  variable_results ← execute_simulations env doc task_executer;
  data_gen_results ← calculate_data_generators env doc variable_results;
  mret (doc, report_formats, modified_model_filenames, variable_results,
        data_gen_results).

(** The message of the error for a variable with no result. *)
Definition missing_result_message (var : DataGeneratorVariable.t loc)
    (task : Task.t loc) : string :=
  "Variable " +:+ fmt (DataGeneratorVariable.id var)
  +:+ " must be generated for task " +:+ fmt (Task.id task).

(** The mapping that the task executor returned has no result for the
    variable: its id is not a key, or it is the key of [None]. *)
Definition missing (task_variable_results : DataGeneratorVariableResults)
    (var : DataGeneratorVariable.t loc) : Prop :=
  default None (task_variable_results !! DataGeneratorVariable.id var) = None.

(** The result that the data generator of a data set is bound to. *)
Definition bound_result (data_gen_results : DataGeneratorResults)
    (data_set : DataSet.t loc) (r : ndarray) : Prop :=
  exists data_generator,
    DataSet.data_generator data_set = Some data_generator /\
    data_gen_results !! DataGenerator.id data_generator = Some r.

(** What [exec_report] does once the shapes are found consistent: the
    warning for labels that are not unique, the table, its record in
    [report_results], and the writing of it in every format. *)
Definition write_table (env : Env Meta) (report_formats : list ReportFormat)
    (base_out_path : string)
    (rel_out_path : option string) (report_results : OutputResults)
    (output : Output.report loc) (dataset_labels : list (option string))
    (dataset_results : list ndarray) : E OutputResults :=
  (if has_duplicates dataset_labels
   then warn "To facilitate machine interpretation, data sets should have unique ids"
          IllogicalSedmlWarning
   else mret tt);;
  output_df ← lift (pandas_DataFrame env dataset_results dataset_labels);
  for_each (write_report env output_df base_out_path rel_out_path
              (Output.report_id output)) tt report_formats;;
  mret (<[Output.report_id output := output_df]> report_results).

(** The warnings of [exec_doc]. *)
Definition duplicate_labels_warning : string * warning_category :=
  ("To facilitate machine interpretation, data sets should have unique ids"%string,
   IllogicalSedmlWarning).

Definition skipped_warning (output : Output.t loc) : string * warning_category :=
  (skipped_message output, SedmlFeatureNotSupportedWarning).

End exec_spec.

End Spec.

(** ** More vocabulary for the runs of [exec_doc] *)

Module ExecSpec.

Import Exec Spec.

#[local] Existing Instance exec_ret.
#[local] Existing Instance exec_bind.

Section exec_spec.
Context {Meta : Type}.

(** A part of the world stays as it is. *)
Definition same {A} (part : World Meta -> A) (w w' : World Meta) : Prop :=
  part w' = part w.

(** Nothing is written and no warning is issued. *)
Definition quiet (w w' : World Meta) : Prop :=
  written w' = written w /\ warnings w' = warnings w.

(** A document and what loading makes of it: the document itself when it is
    read from a file, a copy with its references moved to the copies of the
    models when it is handed in. *)
Definition copy_of (d d' : SedDocument.t loc Meta) : Prop :=
  d' = d \/ exists f, d' = relocate_SedDocument f d.

(** The reports among the outputs of a document, in their order. *)
Definition report_of (output : Output.t loc) : option (Output.report loc) :=
  match output with
  | Output.Report r => Some r
  | Output.Plot2D _ => None
  | Output.Plot3D _ => None
  end.

Definition reports (d : SedDocument.t loc Meta) : list (Output.report loc) :=
  omap report_of (SedDocument.outputs d).

(** The warning that an output gives rise to, if any. *)
Definition warning_of (output : Output.t loc) : option (string * warning_category) :=
  match output with
  | Output.Report r =>
      if has_duplicates (DataSet.label <$> Output.data_sets r)
      then Some duplicate_labels_warning
      else None
  | Output.Plot2D _ => Some (skipped_warning output)
  | Output.Plot3D _ => Some (skipped_warning output)
  end.

(** The table of a report: the results that its data sets are bound to, in
    the order of the data sets, indexed by their labels. *)
Definition table_of (env : Env Meta) (data_gen_results : DataGeneratorResults)
    (report : Output.report loc) (output_df : DataFrame) : Prop :=
  exists results,
    Forall2 (bound_result data_gen_results) (Output.data_sets report) results /\
    pandas_DataFrame env results (DataSet.label <$> Output.data_sets report)
      = Ok output_df.

(** A call of the report writer on record: the table of a report, written
    under [base_out_path] at the path of the report, in a format. *)
Definition written_as (env : Env Meta) (data_gen_results : DataGeneratorResults)
    (base_out_path : string) (rel_out_path : option string)
    (call : DataFrame * string * option string * ReportFormat)
    (what : Output.report loc * ReportFormat) : Prop :=
  let '(output_df, base, path, format) := call in
  let '(report, report_format) := what in
  table_of env data_gen_results report output_df /\
  base = base_out_path /\
  report_path env rel_out_path (Output.report_id report) = Ok path /\
  format = report_format.

(** The same, with the id of the report for the report. *)
Definition written_at (env : Env Meta) (base_out_path : string)
    (rel_out_path : option string)
    (call : DataFrame * string * option string * ReportFormat)
    (what : option string * ReportFormat) : Prop :=
  let '(output_df, base, path, format) := call in
  let '(id, report_format) := what in
  base = base_out_path /\
  report_path env rel_out_path id = Ok path /\
  format = report_format.

(** A row of the table of a report: what [calc_data_generator_results] makes
    of the results of the variables and of a data generator of the document
    that has the id of the data generator of the data set. *)
Definition row_of (env : Env Meta) (d : SedDocument.t loc Meta)
    (variable_results : DataGeneratorVariableResults)
    (data_set : DataSet.t loc) (r : ndarray) : Prop :=
  exists referred data_gen,
    DataSet.data_generator data_set = Some referred /\
    data_gen ∈ SedDocument.data_generators d /\
    DataGenerator.id data_gen = DataGenerator.id referred /\
    calc_data_generator_results env data_gen variable_results = Ok r.

(** The data set refers to a data generator whose id is the id of a data
    generator of the document. *)
Definition refers_to_data_generator_of (d : SedDocument.t loc Meta)
    (data_set : DataSet.t loc) : Prop :=
  exists referred,
    DataSet.data_generator data_set = Some referred /\
    DataGenerator.id referred ∈ DataGenerator.id <$> SedDocument.data_generators d.

(** The source of a model once it is resolved against the working
    directory. *)
Definition resolved_source (env : Env Meta) (working_dir source : string) : string :=
  if isabs env source then source else path_join env working_dir source.

(** A model of the document handed in and its copy in the document that the
    run works on: the copy is the model, with its source resolved. *)
Definition resolved_copy (env : Env Meta) (working_dir : string) (w w1 : World Meta)
    (model model' : loc) : Prop :=
  exists m source,
    heap_models w !! model = Some m /\
    Model.source m = Some source /\
    heap_models w1 !! model'
    = Some (Model.set_source (Some (resolved_source env working_dir source)) m).

(** [exec_doc] from an output of [for output in doc.outputs] on: the loop
    over the outputs that are left, the removal of the files of the modified
    models, and the results. *)
Definition remaining_outputs (env : Env Meta)
    (data_gen_results : DataGeneratorResults) (report_formats : list ReportFormat)
    (base_out_path : string) (rel_out_path : option string)
    (modified_model_filenames : list string)
    (variable_results : DataGeneratorVariableResults)
    (report_results : OutputResults) (outputs : list (Output.t loc))
    : exec Meta (OutputResults * DataGeneratorVariableResults) :=
  report_results ←
    for_each (exec_output env data_gen_results report_formats base_out_path
                rel_out_path) report_results outputs;
  cleanup_modified_models modified_model_filenames;;
  mret (report_results, variable_results).

(** The warnings on record and the calls of the report writer on record
    stay, and more may follow them. *)
Definition grows (w w' : World Meta) : Prop :=
  warnings w `prefix_of` warnings w' /\ written w `prefix_of` written w'.



End exec_spec.

End ExecSpec.

(** ** Vocabulary for the tuple projections of COMBINE archives *)

Module CombineSpec.

(** An author with a given name and a family name. *)
Definition named (author : CombineArchiveAuthor.t) : Prop :=
  is_Some (CombineArchiveAuthor.given_name author) /\
  is_Some (CombineArchiveAuthor.family_name author).

(** Among the authors there is one with no family name and one with a family
    name. *)
Definition mixed_family_names (authors : list CombineArchiveAuthor.t) : Prop :=
  exists a b,
    a ∈ authors /\ b ∈ authors /\
    CombineArchiveAuthor.family_name a = None /\
    is_Some (CombineArchiveAuthor.family_name b).

(** The first component of a tuple is [None]. *)
Definition none_first (x : pyval) : bool :=
  match x with
  | VTuple (VNone :: _) => true
  | _ => false
  end.

(** A pair of strings. *)
Definition str_pair (x : pyval) : Prop :=
  exists a b, x = VTuple [VStr a; VStr b].

End CombineSpec.

(** ** Concrete documents and collaborators *)

Module Examples.

Import Exec Spec.

(** Collaborators: no file can be read; a path is absolute when it starts with
    a slash; a temporary file is created under one name; changes are applied
    without error; the variables of a task are those that name a task of its
    id; a data generator yields the result of its first variable; tables are
    made and written without error. *)
Definition example_env : Env unit :=
  mk_Env
    (fun _ _ => Raise (Raised "no file"))
    (Ok ["csv"; "h5"]%string)
    (Ok ["pdf"]%string)
    (fun s => String.prefix "/" s)
    (fun a b => a +:+ "/" +:+ b)
    (fun _ => "/tmp/tmp0.xml"%string)
    (fun _ _ _ => Ok tt)
    (fun d task =>
       flat_map (fun dg =>
         filter (fun v => Task.id <$> DataGeneratorVariable.task v = Some (Task.id task))
                (DataGenerator.variables dg))
         (SedDocument.data_generators d))
    (fun dg vr =>
       match DataGenerator.variables dg with
       | v :: _ => match default None (vr !! DataGeneratorVariable.id v) with
                   | Some r => Ok r
                   | None => Raise (Raised "unresolved reference")
                   end
       | [] => Ok (mk_ndarray [] [Num 0])
       end)
    (fun rs ls => Ok (mk_DataFrame rs ls))
    (fun _ _ _ _ => Ok tt).

(** A model with one change, two tasks declared as [b], [a], and a data
    generator with a variable [x] of the task [a]. *)
Definition model0 : Model.t :=
  Model.init (Some "m") None (Some "model.xml") None
    (Some [ModelChange.ModelAttributeChange (Some "/x") (Some "1")])%string.

Definition task_a (model : loc) : Task.t loc :=
  Task.mk (Some "a"%string) None (Some model) None.
Definition task_b (model : loc) : Task.t loc :=
  Task.mk (Some "b"%string) None (Some model) None.

Definition var_x (model : loc) : DataGeneratorVariable.t loc :=
  DataGeneratorVariable.mk (Some "x"%string) None None None
    (Some (task_a model)) (Some model).
Definition var_y (model : loc) : DataGeneratorVariable.t loc :=
  DataGeneratorVariable.mk (Some "y"%string) None None None
    (Some (task_a model)) (Some model).

Definition dg_x (model : loc) : DataGenerator.t loc :=
  DataGenerator.init (Some "dg_x"%string) None (Some [var_x model]) None
    (Some "x"%string).
Definition dg_y (model : loc) : DataGenerator.t loc :=
  DataGenerator.init (Some "dg_y"%string) None (Some [var_y model]) None
    (Some "y"%string).

Definition doc0 (model : loc) : SedDocument.t loc unit :=
  SedDocument.init (Some 1%Z) (Some 3%Z) (Some [model]) None
    (Some [task_b model; task_a model]) (Some [dg_x model]) None None.

Definition world0 : World unit := mk_World [model0] [doc0 0] ∅ [] [] [].

(** A task executor that returns a mapping with no result. *)
Definition silent_executer : TaskExecuter := fun _ _ _ => Ok ∅.

(** The run: the document of the store, changes to the models applied. *)
Definition run0 : World unit * result (OutputResults * DataGeneratorVariableResults) :=
  exec_doc example_env (DocObject 0) "/work" silent_executer "/out" None true
    None None world0.

(** The same run, up to the loop over the tasks. *)
Definition doc1 : SedDocument.t loc unit :=
  SedDocument.mk (Some 1%Z) (Some 3%Z) [1] [] [task_a 1; task_b 1] [dg_x 1] [] None.

Definition world1 : World unit :=
  mk_World [model0; Model.set_source (Some "/tmp/tmp0.xml"%string) model0]
    [doc0 0; doc1] {["/tmp/tmp0.xml"%string]} [] [] [].

(** A document with a plot and a report of two data sets, on the data
    generators of [x] and [y]; a task executor that gives [x] three values
    and [y] four. *)
Definition model1 : Model.t :=
  Model.init (Some "m") None (Some "/models/model.xml") None None%string.

Definition data_set_x (model : loc) : DataSet.t loc :=
  DataSet.mk (Some "ds_x") None (Some "X") (Some (dg_x model))%string.
Definition data_set_y (model : loc) : DataSet.t loc :=
  DataSet.mk (Some "ds_y") None (Some "Y") (Some (dg_y model))%string.

Definition plot_p : Output.t loc := Output.Plot2D_init (Some "p"%string) None None.

Definition report_r (model : loc) : Output.report loc :=
  Output.mk_report (Some "r"%string) None [data_set_x model; data_set_y model].

Definition doc_r (model : loc) : SedDocument.t loc unit :=
  SedDocument.init (Some 1%Z) (Some 3%Z) (Some [model]) None
    (Some [task_a model]) (Some [dg_x model; dg_y model])
    (Some [plot_p; Output.Report (report_r model)]) None.

Definition world_r : World unit := mk_World [model1] [doc_r 0] ∅ [] [] [].

Definition array3 : ndarray := mk_ndarray [3] [Num 1; Num 2; Num 3].
Definition array4 : ndarray := mk_ndarray [4] [Num 1; Num 2; Num 3; Num 4].

Definition xy_executer : TaskExecuter := fun _ _ _ =>
  Ok (<[Some "y"%string := Some array4]> (<[Some "x"%string := Some array3]> ∅)).

(** The run up to the loop over the outputs, and past the plot. *)
Definition world_r1 : World unit :=
  mk_World [model1; model1] [doc_r 0; doc_r 1] ∅
    [(task_a 1, [var_x 1; var_y 1])] [] [].

Definition world_r2 : World unit :=
  mk_World [model1; model1] [doc_r 0; doc_r 1] ∅
    [(task_a 1, [var_x 1; var_y 1])] [skipped_warning plot_p] [].

Definition variable_results_xy : DataGeneratorVariableResults :=
  <[Some "y"%string := Some array4]> (<[Some "x"%string := Some array3]> ∅).

Definition data_gen_results_xy : DataGeneratorResults :=
  <[Some "dg_y"%string := array4]> (<[Some "dg_x"%string := array3]> ∅).

End Examples.

(** ** [biosimulators_utils/config.py]

    A string is the sequence of its characters, and the characters are those
    below U+0100; on these, [str.lower] and [str.strip] work character by
    character. *)

Module Config.

(** [c.isspace()]: the white space that [str.strip] removes. *)
Definition is_space (c : ascii) : bool :=
  let n := nat_of_ascii c in
  bool_decide (9 <= n <= 13) || bool_decide (28 <= n <= 32)
  || bool_decide (n = 133) || bool_decide (n = 160).

(** [c.lower()]: the letters [A] to [Z] and the upper-case letters from
    U+00C0 to U+00DE (which leaves out the sign U+00D7) go to the letter that
    is 32 places further. *)
Definition lower_char (c : ascii) : ascii :=
  let n := nat_of_ascii c in
  if bool_decide (65 <= n <= 90) || bool_decide (192 <= n <= 214)
     || bool_decide (216 <= n <= 222)
  then ascii_of_nat (n + 32)
  else c.

(** [s.lower()] *)
Fixpoint str_lower (s : string) : string :=
  match s with
  | EmptyString => EmptyString
  | String c s' => String (lower_char c) (str_lower s')
  end.

(** [s.lstrip()] *)
Fixpoint str_lstrip (s : string) : string :=
  match s with
  | EmptyString => EmptyString
  | String c s' => if is_space c then str_lstrip s' else s
  end.

(** [s.rstrip()] *)
Fixpoint str_rstrip (s : string) : string :=
  match s with
  | EmptyString => EmptyString
  | String c s' =>
      match str_rstrip s' with
      | EmptyString => if is_space c then EmptyString else String c EmptyString
      | String c' r => String c (String c' r)
      end
  end.

(** [s.strip()] *)
Definition str_strip (s : string) : string := str_rstrip (str_lstrip s).

(** [s.split(sep)] for a separator of one character: the parts of [s] between
    the occurrences of the separator, of which there is always one at least. *)
Fixpoint str_split (sep : ascii) (s : string) : list string :=
  match s with
  | EmptyString => [EmptyString]
  | String c s' =>
      if Ascii.eqb c sep then EmptyString :: str_split sep s'
      else match str_split sep s' with
           | part :: parts => String c part :: parts
           | [] => [String c EmptyString]
           end
  end.

(** [os.environ]: the variables that are set, and their values. *)
Abbreviation environ := (gmap string string).

(** [os.environ.get(key, default)] *)
Definition environ_get (env : environ) (key value : string) : string :=
  default value (env !! key).

Record t : Type := mk {
  ALGORITHM_SUBSTITUTION_POLICY : string;
  REPORT_FORMATS : list string;
  PLOT_FORMATS : list string;
  H5_REPORTS_PATH : string;
  REPORTS_PATH : string;
  PLOTS_PATH : string;
  BUNDLE_OUTPUTS : bool;
  KEEP_INDIVIDUAL_OUTPUTS : bool;
  LOG_PATH : string;
  BIOSIMULATORS_API_ENDPOINT : string;
}.

(** [[format.strip().lower() for format in value.split(',')]] *)
Definition formats (value : string) : list string :=
  (fun format => str_lower (str_strip format)) <$> str_split "," value.

(** [value.lower() in ['1', 'true']] *)
Definition flag (value : string) : bool :=
  bool_decide (str_lower value ∈ ["1"; "true"]%string).

Definition get_config (env : environ) : t :=
  mk (environ_get env "ALGORITHM_SUBSTITUTION_POLICY" "SIMILAR_VARIABLES")
     (formats (environ_get env "REPORT_FORMATS" "csv, h5"))
     (formats (environ_get env "PLOT_FORMATS" "pdf"))
     (environ_get env "H5_REPORTS_PATH" "reports.h5")
     (environ_get env "REPORTS_PATH" "reports.zip")
     (environ_get env "PLOTS_PATH" "plots.zip")
     (flag (environ_get env "BUNDLE_OUTPUTS" "1"))
     (flag (environ_get env "KEEP_INDIVIDUAL_OUTPUTS" "1"))
     (environ_get env "LOG_PATH" "log.yml")
     (environ_get env "BIOSIMULATORS_API_ENDPOINT" "https://api.biosimulators.org/").

(** *** Vocabulary *)

(** [sep.join(parts)] *)
Fixpoint str_join (sep : string) (parts : list string) : string :=
  match parts with
  | [] => EmptyString
  | [part] => part
  | part :: parts => part +:+ sep +:+ str_join sep parts
  end.

(** The character occurs in the string. *)
Fixpoint occurs (c : ascii) (s : string) : bool :=
  match s with
  | EmptyString => false
  | String c' s' => Ascii.eqb c' c || occurs c s'
  end.

(** The name of a format as the configuration has it: with no comma, no white
    space around it, and no upper-case letter. *)
Definition normalised (format : string) : Prop :=
  occurs "," format = false /\
  str_strip format = format /\
  str_lower format = format.

End Config.

(** ** [biosimulators_utils/model_lang/xpp/validation.py]: the files of a
    directory *)

Module Xpp.

(** The line feed. *)
Definition LF : string := String "010" EmptyString.

(** [sep.join(parts)] *)
Fixpoint join (sep : string) (parts : list string) : string :=
  match parts with
  | [] => EmptyString
  | [part] => part
  | part :: parts => part +:+ sep +:+ join sep parts
  end.

Section directory.
(** [glob.glob] and [os.path.join] *)
Context (glob : string -> list string) (path_join : string -> string -> string).

Definition invalid (dirname : string) (errors : list string) : exn :=
  ValueError ("`" +:+ dirname +:+ "` does not contain a valid set of XPP files:" +:+ LF
              +:+ "  - " +:+ join (LF +:+ "  - ") errors).

(** [get_xpp_input_configuration_from_directory].  A local variable that is
    not assigned is [None] here; [ode_filename] is read only when it has been
    assigned. *)
Definition get_xpp_input_configuration_from_directory (dirname : string)
    : result (string * option string * option string * option string) :=
  let errors := [] in
  let ode_filenames := glob (path_join dirname "*.ode") in
  let '(errors, ode_filename) :=
    if bool_decide (1 < length ode_filenames)
    then (errors ++ ["Only 1 ODE file can be used at a time."%string], None)
    else match ode_filenames with
         | ode_filename :: _ => (errors, Some ode_filename)
         | [] => (errors ++ ["The directory must contain an ODE file."%string], None)
         end in
  let set_filenames := glob (path_join dirname "*.set") in
  let '(errors, set_filename) :=
    if bool_decide (1 < length set_filenames)
    then (errors ++ ["Only 1 set file can be used at a time."%string], None)
    else match set_filenames with
         | set_filename :: _ => (errors, Some set_filename)
         | [] => (errors, None)
         end in
  let parameter_filenames := glob (path_join dirname "*.par") in
  let '(errors, parameter_filename) :=
    if bool_decide (1 < length parameter_filenames)
    then (errors ++ ["Only 1 parameter file can be used at a time."%string], None)
    else match parameter_filenames with
         | parameter_filename :: _ => (errors, Some parameter_filename)
         | [] => (errors, None)
         end in
  let initial_conditions_filenames := glob (path_join dirname "*.ic") in
  let '(errors, initial_conditions_filename) :=
    if bool_decide (1 < length initial_conditions_filenames)
    then (errors ++ ["Only 1 initial conditions file can be used at a time."%string],
          None)
    else match initial_conditions_filenames with
         | initial_conditions_filename :: _ => (errors, Some initial_conditions_filename)
         | [] => (errors, None)
         end in
  if bool_decide (errors <> [])
  then Raise (invalid dirname errors)
  else match ode_filename with
       | Some ode_filename =>
           Ok (ode_filename, set_filename, parameter_filename,
               initial_conditions_filename)
       | None => Raise (Raised "UnboundLocalError")
       end.

(** *** Vocabulary *)

(** What is wrong with the files of a directory: more than one [.ode] file
    or none, and more than one file of another kind. *)
Definition only_one (kind : string) (filenames : list string) : list string :=
  if bool_decide (1 < length filenames)
  then ["Only 1 " +:+ kind +:+ " file can be used at a time."]
  else [].

Definition problems (dirname : string) : list string :=
  only_one "ODE" (glob (path_join dirname "*.ode"))
  ++ (if bool_decide (glob (path_join dirname "*.ode") = [])
      then ["The directory must contain an ODE file."%string] else [])
  ++ only_one "set" (glob (path_join dirname "*.set"))
  ++ only_one "parameter" (glob (path_join dirname "*.par"))
  ++ only_one "initial conditions" (glob (path_join dirname "*.ic")).

End directory.

End Xpp.

(** ** More concrete documents and collaborators *)

Module MoreExamples.

Import Exec Spec ExecSpec Examples.

(** The collaborators of [example_env], with temporary files that get a name
    which no existing file has. *)
Definition tmp_env : Env unit :=
  mk_Env
    (SedmlSimulationReader_run example_env)
    (default_report_formats example_env)
    (default_plot_formats example_env)
    (isabs example_env)
    (path_join example_env)
    (fresh_string_of_set "/tmp/tmp")
    (apply_changes_to_xml_model example_env)
    (get_variables_for_task example_env)
    (calc_data_generator_results example_env)
    (pandas_DataFrame example_env)
    (ReportWriter_run example_env).

(** A task executor that gives [x] and [y] three values each. *)
Definition xx_executer : TaskExecuter := fun _ _ _ =>
  Ok (<[Some "y"%string := Some array3]> (<[Some "x"%string := Some array3]> ∅)).

(** The document [doc_r] (a task, two data generators, a plot and a report of
    two data sets) on a model with a change and a relative source. *)
Definition world_ok : World unit := mk_World [model0] [doc_r 0] ∅ [] [] [].

(** The run of this document, with the changes to the model applied, and what
    it returns. *)
Definition run_ok : World unit * result (OutputResults * DataGeneratorVariableResults) :=
  exec_doc tmp_env (DocObject 0) "/work" xx_executer "/out" (Some "sim"%string) true
    None None world_ok.

Definition variable_results_ok : DataGeneratorVariableResults :=
  <[Some "y"%string := Some array3]> (<[Some "x"%string := Some array3]> ∅).

Definition data_gen_results_ok : DataGeneratorResults :=
  <[Some "dg_y"%string := array3]> (<[Some "dg_x"%string := array3]> ∅).

Definition table_r : DataFrame :=
  mk_DataFrame [array3; array3] [Some "X"; Some "Y"]%string.

Definition report_results_ok : OutputResults :=
  <[Some "r"%string := table_r]> ∅.

(** The same run without changes to apply, up to the loop over the tasks. *)
Definition run_before_tasks : World unit * result (loc * list ReportFormat * list string) :=
  before_tasks tmp_env (DocObject 0) "/work" false None None world_ok.

(** and up to the loop over the outputs. *)
Definition run_before_outputs :
    World unit * result (loc * list ReportFormat * list string
                         * DataGeneratorVariableResults * DataGeneratorResults) :=
  before_outputs tmp_env (DocObject 0) "/work" xx_executer false None None world_ok.

(** A document with a plot, a report of two data sets with one label [X],
    both on the data generator of [x], and another plot. *)
Definition report_xx (model : loc) : Output.report loc :=
  Output.mk_report (Some "r"%string) None
    [data_set_x model;
     DataSet.mk (Some "ds_2") None (Some "X") (Some (dg_x model))%string].

Definition plot_q : Output.t loc := Output.Plot3D_init (Some "q"%string) None None.

Definition doc_xx (model : loc) : SedDocument.t loc unit :=
  SedDocument.init (Some 1%Z) (Some 3%Z) (Some [model]) None
    (Some [task_a model]) (Some [dg_x model])
    (Some [plot_p; Output.Report (report_xx model); plot_q]) None.

Definition world_xx : World unit := mk_World [model1] [doc_xx 0] ∅ [] [] [].

Definition table_xx : DataFrame :=
  mk_DataFrame [array3; array3] [Some "X"; Some "X"]%string.

(** The run of this document up to the loop over the outputs, past the first
    plot, and past the report. *)
Definition world_xx1 : World unit :=
  mk_World [model1; model1] [doc_xx 0; doc_xx 1] ∅ [(task_a 1, [var_x 1])] [] [].

Definition world_xx2 : World unit :=
  mk_World [model1; model1] [doc_xx 0; doc_xx 1] ∅ [(task_a 1, [var_x 1])]
    [skipped_warning plot_p] [].

Definition world_xx3 : World unit :=
  mk_World [model1; model1] [doc_xx 0; doc_xx 1] ∅ [(task_a 1, [var_x 1])]
    [skipped_warning plot_p; duplicate_labels_warning]
    [(table_xx, "/out", Some "r", "csv"); (table_xx, "/out", Some "r", "h5")]%string.

Definition variable_results_x : DataGeneratorVariableResults :=
  <[Some "x"%string := Some array3]> ∅.

Definition data_gen_results_x : DataGeneratorResults :=
  <[Some "dg_x"%string := array3]> ∅.

(** A document that lists its model twice. *)
Definition doc_twice (model : loc) : SedDocument.t loc unit :=
  SedDocument.init (Some 1%Z) (Some 3%Z) (Some [model; model]) None
    (Some [task_a model]) None None None.

Definition world_twice : World unit := mk_World [model0] [doc_twice 0] ∅ [] [] [].

(** A document with a task that has no id. *)
Definition doc_anonymous (model : loc) : SedDocument.t loc unit :=
  SedDocument.init (Some 1%Z) (Some 3%Z) (Some [model]) None
    (Some [Task.mk None None (Some model) None]) None None None.

Definition world_anonymous : World unit :=
  mk_World [model1] [doc_anonymous 0] ∅ [] [] [].

(** A model with no source. *)
Definition model_nowhere : Model.t := Model.init (Some "m"%string) None None None None.

Definition world_nowhere : World unit :=
  mk_World [model_nowhere] [doc_r 0] ∅ [] [] [].

(** A document whose report has a data set on the data generator of [y],
    which the document does not have. *)
Definition doc_unknown (model : loc) : SedDocument.t loc unit :=
  SedDocument.init (Some 1%Z) (Some 3%Z) (Some [model]) None
    (Some [task_a model]) (Some [dg_x model])
    (Some [Output.Report (report_r model)]) None.

Definition world_unknown : World unit :=
  mk_World [model1] [doc_unknown 0] ∅ [] [] [].

Definition run_unknown_before_outputs :
    World unit * result (loc * list ReportFormat * list string
                         * DataGeneratorVariableResults * DataGeneratorResults) :=
  before_outputs tmp_env (DocObject 0) "/work" xx_executer false None None
    world_unknown.

(** *** Content items of archives *)

Definition author_lovelace : CombineArchiveAuthor.t :=
  CombineArchiveAuthor.init (Some "Ada") (Some "Lovelace")%string.
Definition author_babbage : CombineArchiveAuthor.t :=
  CombineArchiveAuthor.init (Some "Charles") (Some "Babbage")%string.
(** An author with no family name. *)
Definition author_ada : CombineArchiveAuthor.t :=
  CombineArchiveAuthor.init (Some "Ada"%string) None.

Definition content_of (authors : list CombineArchiveAuthor.t) : CombineArchiveContent.t :=
  CombineArchiveContent.init "./model.xml" "http://identifiers.org/combine.specifications/sbml"
    true None (Some authors) None None.

(** *** The environment and a directory of XPP files *)

(** An environment in which the formats of reports are set. *)
Definition environ_formats : Config.environ :=
  {[ "REPORT_FORMATS"%string := "h5, csv, tsv"%string ]}.

(** A directory [model] with two [.ode] files and two [.set] files. *)
Definition glob_model (pattern : string) : list string :=
  if bool_decide (pattern = "model/*.ode"%string)
  then ["model/a.ode"; "model/b.ode"]%string
  else if bool_decide (pattern = "model/*.set"%string)
  then ["model/a.set"; "model/b.set"]%string
  else [].

Definition slash_join (a b : string) : string := a +:+ "/" +:+ b.

End MoreExamples.
(** *** Properties of the order *)

Module PyOrderFacts.

Import Py.

Lemma string_compare_trans (s1 s2 s3 : string) :
  String.compare s1 s2 = Lt -> String.compare s2 s3 = Lt -> String.compare s1 s3 = Lt.
Proof.
  revert s2 s3. induction s1 as [|a1 s1 IH]; intros [|a2 s2] [|a3 s3] H12 H23;
    simpl in *; try done.
  destruct (Ascii.compare a1 a2) eqn:Ha12; try done.
  - apply Ascii.compare_eq_iff in Ha12 as ->.
    destruct (Ascii.compare a2 a3); eauto.
  - destruct (Ascii.compare a2 a3) eqn:Ha23; try done.
    + apply Ascii.compare_eq_iff in Ha23 as ->. by rewrite Ha12.
    + assert (Ascii.compare a1 a3 = Lt) as ->; [|done].
      unfold Ascii.compare in *. apply N.compare_lt_iff.
      etrans; by apply N.compare_lt_iff.
Qed.

Lemma string_compare_refl (s : string) : String.compare s s = Eq.
Proof.
  induction s as [|a s IH]; simpl; [done|].
  unfold Ascii.compare. by rewrite N.compare_refl.
Qed.

Section list_compare_facts.
Context {A : Type} (c : A -> A -> comparison).

Lemma list_compare_eq (l : list A) :
  Forall (fun a => forall b, c a b = Eq <-> a = b) l ->
  forall l', list_compare c l l' = Eq <-> l = l'.
Proof.
  induction 1 as [|a l Ha _ IH]; intros [|b l']; simpl; try (split; done).
  destruct (c a b) eqn:E.
  - apply Ha in E as ->. rewrite IH. split; congruence.
  - split; [done|]. intros [= -> _]. assert (c b b = Eq) by by apply Ha. congruence.
  - split; [done|]. intros [= -> _]. assert (c b b = Eq) by by apply Ha. congruence.
Qed.

Lemma list_compare_antisym (l : list A) :
  Forall (fun a => forall b, c b a = CompOpp (c a b)) l ->
  forall l', list_compare c l' l = CompOpp (list_compare c l l').
Proof.
  induction 1 as [|a l Ha _ IH]; intros [|b l']; simpl; try done.
  rewrite Ha. destruct (c a b); simpl; auto.
Qed.

Lemma list_compare_trans (l1 : list A) :
  (forall a b, c a b = Eq <-> a = b) ->
  Forall (fun a => forall b d, c a b = Lt -> c b d = Lt -> c a d = Lt) l1 ->
  forall l2 l3, list_compare c l1 l2 = Lt -> list_compare c l2 l3 = Lt ->
    list_compare c l1 l3 = Lt.
Proof.
  intros Heq. induction 1 as [|a l1 Htr _ IH]; intros [|b l2] [|d l3]; simpl; try done.
  destruct (c a b) eqn:Eab; try done.
  - apply Heq in Eab as <-. destruct (c a d); eauto.
  - intros _. destruct (c b d) eqn:Ebd; try done.
    + apply Heq in Ebd as <-. by rewrite Eab.
    + by rewrite (Htr _ _ Eab Ebd).
Qed.

End list_compare_facts.

Lemma pyfloat_compare_eq (x y : pyfloat) : pyfloat_compare x y = Eq <-> x = y.
Proof.
  destruct x as [a|n], y as [b|m]; simpl; try (split; done).
  - rewrite Z.compare_eq_iff. split; congruence.
  - rewrite Nat.compare_eq_iff. split; congruence.
Qed.

Lemma pyfloat_compare_antisym (x y : pyfloat) :
  pyfloat_compare y x = CompOpp (pyfloat_compare x y).
Proof.
  destruct x as [a|n], y as [b|m]; simpl; try done.
  - apply Z.compare_antisym.
  - apply Nat.compare_antisym.
Qed.

Lemma pyfloat_compare_trans (x y z : pyfloat) :
  pyfloat_compare x y = Lt -> pyfloat_compare y z = Lt -> pyfloat_compare x z = Lt.
Proof.
  destruct x as [a|n], y as [b|m], z as [c|k]; simpl; try done.
  - rewrite !Z.compare_lt_iff. lia.
  - rewrite !Nat.compare_lt_iff. lia.
Qed.

Lemma rank_compare_neq (x y : pyval) :
  rank x <> rank y -> Z.compare (rank x) (rank y) <> Eq.
Proof. intros H E. by apply Z.compare_eq in E. Qed.

Lemma pyval_compare_eq (x y : pyval) : pyval_compare x y = Eq <-> x = y.
Proof.
  revert y. induction x as [| | | | | |l IH] using pyval_ind; intros [| | | | | |l'];
    cbn [pyval_compare rank]; try (split; done).
  - destruct b, b0; simpl; split; done.
  - rewrite Z.compare_eq_iff. split; congruence.
  - rewrite pyfloat_compare_eq. split; congruence.
  - rewrite Z.compare_eq_iff. split; congruence.
  - split; [by intros ->%String.compare_eq_iff|intros [= ->]; apply string_compare_refl].
  - rewrite (list_compare_eq _ _ IH). split; congruence.
Qed.

Lemma pyval_compare_refl (x : pyval) : pyval_compare x x = Eq.
Proof. by apply pyval_compare_eq. Qed.

Lemma pyval_compare_antisym (x y : pyval) :
  pyval_compare y x = CompOpp (pyval_compare x y).
Proof.
  revert y. induction x as [| | | | | |l IH] using pyval_ind; intros [| | | | | |l'];
    cbn [pyval_compare rank]; try done; try apply Z.compare_antisym.
  - apply pyfloat_compare_antisym.
  - apply String.compare_antisym.
  - by apply list_compare_antisym.
Qed.

Lemma pyval_compare_trans (x y z : pyval) :
  pyval_compare x y = Lt -> pyval_compare y z = Lt -> pyval_compare x z = Lt.
Proof.
  revert y z. induction x as [| | | | | |l IH] using pyval_ind;
    intros [| | | | | |l2] [| | | | | |l3]; cbn [pyval_compare rank]; try done;
    try (rewrite !Z.compare_lt_iff; lia).
  - apply pyfloat_compare_trans.
  - apply string_compare_trans.
  - apply list_compare_trans; [apply pyval_compare_eq|done].
Qed.

#[global] Instance pyval_eq_dec : EqDecision pyval.
Proof.
  intros x y. destruct (pyval_compare x y) eqn:E.
  - left. by apply pyval_compare_eq.
  - right. intros ->. by rewrite pyval_compare_refl in E.
  - right. intros ->. by rewrite pyval_compare_refl in E.
Defined.

#[global] Instance pyval_le_dec : RelDecision pyval_le.
Proof. intros x y. unfold pyval_le. apply _. Defined.

#[global] Instance pyval_le_trans : Transitive pyval_le.
Proof.
  intros x y z. unfold pyval_le, pyval_leb.
  destruct (pyval_compare x y) eqn:Exy; try done.
  - apply pyval_compare_eq in Exy as ->. done.
  - destruct (pyval_compare y z) eqn:Eyz; try done.
    + apply pyval_compare_eq in Eyz as ->. by rewrite Exy.
    + by rewrite (pyval_compare_trans _ _ _ Exy Eyz).
Qed.

#[global] Instance pyval_le_antisym : AntiSymm (=) pyval_le.
Proof.
  intros x y. unfold pyval_le, pyval_leb. rewrite (pyval_compare_antisym x y).
  destruct (pyval_compare x y) eqn:E; simpl; try done.
  intros _ _. by apply pyval_compare_eq.
Qed.

#[global] Instance pyval_le_total : Total pyval_le.
Proof.
  intros x y. unfold pyval_le, pyval_leb. rewrite (pyval_compare_antisym x y).
  destruct (pyval_compare x y); simpl; auto.
Qed.

(** [None] sorts before any value. *)
Lemma pyval_le_None (x : pyval) : pyval_le VNone x.
Proof. by destruct x. Qed.

Section insertion_sort_facts.
Context {A : Type} (leb : A -> A -> bool).
Let le (x y : A) : Prop := leb x y = true.

Lemma insert_sorted_Permutation (x : A) (l : list A) :
  insert_sorted leb x l ≡ₚ x :: l.
Proof.
  induction l as [|y l IH]; simpl; [done|].
  destruct (leb x y); [done|]. rewrite IH. apply Permutation_swap.
Qed.

Lemma stable_sort_Permutation (l : list A) : stable_sort leb l ≡ₚ l.
Proof.
  induction l as [|x l IH]; simpl; [done|].
  by rewrite insert_sorted_Permutation, IH.
Qed.

Lemma insert_sorted_Sorted (x : A) (l : list A) :
  Total le -> Sorted le l -> Sorted le (insert_sorted leb x l).
Proof.
  intros Htot. induction 1 as [|y l Hl IH Hhd]; simpl.
  - repeat constructor.
  - destruct (leb x y) eqn:E.
    + repeat constructor; done.
    + constructor; [done|].
      assert (Hyx : le y x) by (destruct (Htot x y) as [H|H]; [unfold le in H; congruence|done]).
      destruct Hhd as [|z l Hz]; simpl.
      * by constructor.
      * destruct (leb x z); by constructor.
Qed.

Lemma stable_sort_Sorted (l : list A) : Total le -> Sorted le (stable_sort leb l).
Proof.
  intros Htot. induction l as [|x l IH]; simpl; [constructor|].
  by apply insert_sorted_Sorted.
Qed.

Lemma stable_sort_length (l : list A) : length (stable_sort leb l) = length l.
Proof. by rewrite stable_sort_Permutation. Qed.



End insertion_sort_facts.

End PyOrderFacts.

(** ** Properties of the list helpers *)

Module UtilsFacts.

Import PyOrderFacts.

Lemma none_sorted_Permutation (l : list pyval) : none_sorted l ≡ₚ l.
Proof. apply stable_sort_Permutation. Qed.

Lemma none_sorted_Sorted (l : list pyval) : Sorted pyval_le (none_sorted l).
Proof. apply stable_sort_Sorted, pyval_le_total. Qed.

(** Two lists have the same sorted form exactly when they are permutations
    of one another. *)
Lemma none_sorted_eq_iff (l1 l2 : list pyval) :
  none_sorted l1 = none_sorted l2 <-> l1 ≡ₚ l2.
Proof.
  split.
  - intros H. rewrite <- (none_sorted_Permutation l1), H.
    apply none_sorted_Permutation.
  - intros H. apply (Sorted_unique pyval_le); try apply none_sorted_Sorted.
    by rewrite !none_sorted_Permutation.
Qed.

Section are_lists_equal_facts.
Context {A : Type} (is_equal : A -> A -> bool).

Lemma remove_first_Some (p : A -> bool) (l l' : list A) :
  remove_first p l = Some l' ->
  exists y, p y = true /\ l ≡ₚ y :: l'.
Proof.
  revert l'. induction l as [|y l IH]; intros l'; simpl; [done|].
  destruct (p y) eqn:E.
  - intros [= <-]. eauto.
  - destruct (remove_first p l) as [l0|]; simpl; [|done].
    intros [= <-]. destruct (IH l0 eq_refl) as (z & Hz & Hperm).
    exists z. split; [done|]. rewrite Hperm. apply Permutation_swap.
Qed.

Lemma remove_first_None (p : A -> bool) (l : list A) :
  remove_first p l = None -> forall y, y ∈ l -> p y = false.
Proof.
  induction l as [|y l IH]; simpl; [by intros _ ? ?%elem_of_nil|].
  destruct (p y) eqn:E; [done|].
  destruct (remove_first p l); simpl; [done|].
  intros _ z [->|Hz]%elem_of_cons; auto.
Qed.

(** When [is_equal] holds exactly between elements with one projection
    [tuple], [are_lists_equal] holds exactly between lists whose projections
    are permutations of one another. *)
Lemma are_lists_equal_Permutation (tuple : A -> pyval) :
  (forall x y, is_equal x y = true <-> tuple x = tuple y) ->
  forall a b,
    are_lists_equal is_equal a b = true <-> map tuple a ≡ₚ map tuple b.
Proof.
  intros Hiff a. induction a as [|x a IH]; intros b; simpl.
  - destruct b; simpl; split; try done.
    intros H%Permutation_nil_l. done.
  - destruct (remove_first (is_equal x) b) as [b'|] eqn:E.
    + apply remove_first_Some in E as (y & Hy & Hperm).
      apply Hiff in Hy. rewrite IH, Hperm. simpl. rewrite <- Hy.
      split; [by intros ->|apply Permutation_cons_inv].
    + split; [done|]. intros Hperm.
      assert (Hx : tuple x ∈ map tuple b) by (rewrite <- Hperm; apply list_elem_of_here).
      apply list_elem_of_fmap in Hx as (y & Hxy & Hy).
      apply Hiff in Hxy. by rewrite (remove_first_None _ _ E y Hy) in Hxy.
Qed.

(** One direction needs one direction only. *)
Lemma are_lists_equal_Permutation_1 (tuple : A -> pyval) :
  (forall x y, is_equal x y = true -> tuple x = tuple y) ->
  forall a b,
    are_lists_equal is_equal a b = true -> map tuple a ≡ₚ map tuple b.
Proof.
  intros Himp a. induction a as [|x a IH]; intros b; simpl.
  - by destruct b.
  - destruct (remove_first (is_equal x) b) as [b'|] eqn:E; [|done].
    apply remove_first_Some in E as (y & Hy & Hperm).
    apply Himp in Hy. intros H%IH. rewrite Hperm. simpl. by rewrite Hy, H.
Qed.

Lemma are_lists_equal_none_sorted (tuple : A -> pyval) :
  (forall x y, is_equal x y = true -> tuple x = tuple y) ->
  forall a b,
    are_lists_equal is_equal a b = true ->
    none_sorted (map tuple a) = none_sorted (map tuple b).
Proof.
  intros Himp a b H. apply none_sorted_eq_iff.
  by apply are_lists_equal_Permutation_1.
Qed.

Lemma are_lists_equal_iff (tuple : A -> pyval) :
  (forall x y, is_equal x y = true <-> tuple x = tuple y) ->
  forall a b,
    are_lists_equal is_equal a b = true <->
    none_sorted (map tuple a) = none_sorted (map tuple b).
Proof.
  intros Hiff a b. rewrite none_sorted_eq_iff.
  by apply are_lists_equal_Permutation.
Qed.

Lemma opt_is_equal_iff (tuple : A -> pyval) :
  (forall x y, is_equal x y = true <-> tuple x = tuple y) ->
  (forall x, tuple x <> VNone) ->
  forall a b, opt_is_equal is_equal a b = true <-> of_opt tuple a = of_opt tuple b.
Proof.
  intros Hiff Hne [x|] [y|]; simpl.
  - apply Hiff.
  - split; [done|]. intros H. by destruct (Hne x).
  - split; [done|]. intros H. by destruct (Hne y).
  - done.
Qed.

Lemma opt_is_equal_to_tuple (tuple : A -> pyval) :
  (forall x y, is_equal x y = true -> tuple x = tuple y) ->
  forall a b, opt_is_equal is_equal a b = true -> of_opt tuple a = of_opt tuple b.
Proof. intros Himp [x|] [y|]; simpl; try done. apply Himp. Qed.

(** The other direction may hold between some elements only, those that
    satisfy [plain]. *)
Lemma are_lists_equal_of_Permutation (tuple : A -> pyval) (plain : A -> bool) :
  (forall x y, is_equal x y = true -> tuple x = tuple y) ->
  (forall x y, plain x = true -> plain y = true -> tuple x = tuple y ->
     is_equal x y = true) ->
  forall a b,
    Forall (fun x => plain x = true) a -> Forall (fun x => plain x = true) b ->
    map tuple a ≡ₚ map tuple b -> are_lists_equal is_equal a b = true.
Proof.
  intros Himp Hplain a. induction a as [|x a IH]; intros b Ha Hb Hperm; simpl.
  - apply Permutation_nil_l in Hperm. by destruct b.
  - apply Forall_cons in Ha as [Hx Ha].
    destruct (remove_first (is_equal x) b) as [b'|] eqn:E.
    + apply remove_first_Some in E as (y & Hy & Hb').
      rewrite Hb' in Hb. apply Forall_cons in Hb as [_ Hb].
      apply IH; [done|done|].
      apply Himp in Hy. rewrite Hb' in Hperm. simpl in Hperm.
      rewrite <- Hy in Hperm. by apply Permutation_cons_inv in Hperm.
    + assert (Hin : tuple x ∈ map tuple b) by (rewrite <- Hperm; apply list_elem_of_here).
      apply list_elem_of_fmap in Hin as (y & Hxy & Hy).
      rewrite Forall_forall in Hb.
      pose proof (remove_first_None _ _ E y Hy) as Hno.
      by rewrite (Hplain x y Hx (Hb y Hy) Hxy) in Hno.
Qed.

Lemma are_lists_equal_of_none_sorted (tuple : A -> pyval) (plain : A -> bool) :
  (forall x y, is_equal x y = true -> tuple x = tuple y) ->
  (forall x y, plain x = true -> plain y = true -> tuple x = tuple y ->
     is_equal x y = true) ->
  forall a b,
    forallb plain a = true -> forallb plain b = true ->
    none_sorted (map tuple a) = none_sorted (map tuple b) ->
    are_lists_equal is_equal a b = true.
Proof.
  intros Himp Hplain a b Ha Hb H.
  apply (are_lists_equal_of_Permutation tuple plain); try done.
  - apply Forall_forall. intros x Hx. rewrite List.forallb_forall in Ha.
    by apply Ha, list_elem_of_In.
  - apply Forall_forall. intros x Hx. rewrite List.forallb_forall in Hb.
    by apply Hb, list_elem_of_In.
  - by apply none_sorted_eq_iff.
Qed.

Lemma opt_to_tuple_is_equal (tuple : A -> pyval) (plain : A -> bool) :
  (forall x y, plain x = true -> plain y = true -> tuple x = tuple y ->
     is_equal x y = true) ->
  (forall x, tuple x <> VNone) ->
  forall a b,
    Entity.Plain.opt plain a = true -> Entity.Plain.opt plain b = true ->
    of_opt tuple a = of_opt tuple b -> opt_is_equal is_equal a b = true.
Proof.
  intros Hplain Hne [x|] [y|]; simpl; try done.
  - apply Hplain.
  - intros _ _ H. by destruct (Hne x).
  - intros _ _ H. by destruct (Hne y).
Qed.

End are_lists_equal_facts.

(** [==] between two doubles implies that they are one value; it holds
    between a double and itself unless it is a NaN. *)
Lemma opt_float_eqb_eq (x y : option pyfloat) : opt_float_eqb x y = true -> x = y.
Proof.
  destruct x as [[a|n]|], y as [[b|m]|]; simpl; try done.
  by intros ->%bool_decide_eq_true.
Qed.

Lemma opt_float_eqb_number (x : option pyfloat) :
  Entity.Plain.number x = true -> opt_float_eqb x x = true.
Proof. destruct x as [[a|n]|]; simpl; try done. intros _. by apply bool_decide_eq_true. Qed.

Lemma opt_float_eqb_refl (x : option pyfloat) :
  opt_float_eqb x x = Entity.Plain.number x.
Proof. destruct x as [[a|n]|]; simpl; try done. by apply bool_decide_eq_true. Qed.

Lemma of_opt_inj {A} (f : A -> pyval) (a b : option A) :
  (forall x y, f x = f y -> x = y) -> (forall x, f x <> VNone) ->
  of_opt f a = of_opt f b <-> a = b.
Proof.
  intros Hinj Hne. destruct a as [x|], b as [y|]; simpl; split; try done.
  - by intros ->%Hinj.
  - by intros [= ->].
  - intros H. by destruct (Hne x).
  - intros H. by destruct (Hne y).
Qed.

Lemma or_empty_default {A} (x : option (list A)) : or_empty x = default [] x.
Proof. by destruct x as [[|? ?]|]. Qed.

Lemma of_opt_VStr (a b : option string) : of_opt VStr a = of_opt VStr b <-> a = b.
Proof. apply of_opt_inj; [by intros ?? [= ->]|done]. Qed.

Lemma of_opt_VInt (a b : option Z) : of_opt VInt a = of_opt VInt b <-> a = b.
Proof. apply of_opt_inj; [by intros ?? [= ->]|done]. Qed.

Lemma of_opt_VFloat (a b : option pyfloat) : of_opt VFloat a = of_opt VFloat b <-> a = b.
Proof. apply of_opt_inj; [by intros ?? [= ->]|done]. Qed.

Lemma of_opt_VTime (a b : option datetime) : of_opt VTime a = of_opt VTime b <-> a = b.
Proof. apply of_opt_inj; [by intros ?? [= ->]|done]. Qed.

End UtilsFacts.

(** ** Properties of the COMBINE archive model *)

Module CombineFacts.

Import CombineArchive Spec.

Lemma get_master_content_loop (self : CombineArchive.t)
    (acc l : list CombineArchiveContent.t) :
  foldl get_master_content_step (self, acc) l =
  (self, acc ++ filter (fun c => CombineArchiveContent.master c = true) l).
Proof.
  revert acc. induction l as [|c l IH]; intros acc; simpl.
  - by rewrite app_nil_r.
  - destruct (CombineArchiveContent.master c) eqn:E.
    + rewrite IH, filter_cons_True by done. by rewrite <- app_assoc.
    + rewrite IH, filter_cons_False by (by rewrite E). done.
Qed.

Lemma get_master_content_unfold (archive : CombineArchive.t) :
  get_master_content archive =
  (archive,
   match masters archive with
   | [] => Ok None
   | [content] => Ok (Some content)
   | _ :: _ :: _ => Raise (ValueError "Multiple content items are marked as master")
   end).
Proof.
  unfold get_master_content, masters. rewrite get_master_content_loop. simpl.
  by destruct (filter _ _) as [|? [|? ?]].
Qed.

(** C5.  [get_master_content] returns [None] when no content is flagged as
    master, returns the flagged content when exactly one is (and this content
    is the only flagged one of the archive), raises a [ValueError] when two or
    more are, and in every case leaves the archive as it was. *)
Theorem get_master_content_spec (archive : CombineArchive.t) :
  fst (get_master_content archive) = archive /\
  (length (masters archive) = 0 ->
     snd (get_master_content archive) = Ok None) /\
  (length (masters archive) = 1 ->
     exists content,
       snd (get_master_content archive) = Ok (Some content) /\
       content ∈ contents archive /\
       CombineArchiveContent.master content = true /\
       masters archive = [content]) /\
  (2 <= length (masters archive) ->
     exists msg, snd (get_master_content archive) = Raise (ValueError msg)).
Proof.
  rewrite get_master_content_unfold. simpl.
  split; [done|]. split; [|split].
  - destruct (masters archive) as [|? ?]; [done|discriminate].
  - intros Hlen. destruct (masters archive) as [|c [|? ?]] eqn:E; try discriminate.
    exists c. split; [done|].
    assert (Hc : c ∈ masters archive) by (rewrite E; apply list_elem_of_here).
    unfold masters in Hc. apply list_elem_of_filter in Hc as [? ?]. done.
  - intros Hlen. destruct (masters archive) as [|? [|? ?]]; simpl in Hlen; try lia.
    eauto.
Qed.

Example get_master_content_none :
  snd (get_master_content
         (CombineArchive.init
            (Some [CombineArchiveContent.init "1.txt" "fmt" false None None None None])
            None None None None)) = Ok None.
Proof. reflexivity. Qed.

Example get_master_content_two :
  snd (get_master_content
         (CombineArchive.init
            (Some [CombineArchiveContent.init "1.txt" "fmt" true None None None None;
                   CombineArchiveContent.init "2.txt" "fmt" true None None None None])
            None None None None))
  = Raise (ValueError "Multiple content items are marked as master").
Proof. reflexivity. Qed.

End CombineFacts.

(** ** Properties of the table of functions *)

Module MathFnsFacts.

Import MathFns.

Lemma MATHEMATICAL_FUNCTIONS_keys_NoDup :
  NoDup (MATHEMATICAL_FUNCTIONS_items.*1).
Proof. apply (bool_decide_unpack _). vm_compute. done. Qed.

Lemma MATHEMATICAL_FUNCTIONS_lookup (name : string) (f : callable) :
  MATHEMATICAL_FUNCTIONS !! name = Some f <-> (name, f) ∈ MATHEMATICAL_FUNCTIONS_items.
Proof.
  unfold MATHEMATICAL_FUNCTIONS. symmetry.
  apply elem_of_list_to_map, MATHEMATICAL_FUNCTIONS_keys_NoDup.
Qed.

(** C9.  The names [log] and [ln] are bound to one and the same function, the
    natural logarithm [math.log]; hence, whatever the functions compute, the
    calls [log(x)] and [ln(x)] give identical results (or fail alike). *)
Theorem log_ln_alias :
  MATHEMATICAL_FUNCTIONS !! "log" = Some math_log /\
  MATHEMATICAL_FUNCTIONS !! "ln" = Some math_log /\
  forall (V : Type) (denote : callable -> list V -> result V) (x : V),
    call_function denote "log" [x] = call_function denote "ln" [x].
Proof.
  assert (Hlog : MATHEMATICAL_FUNCTIONS !! "log" = Some math_log).
  { apply MATHEMATICAL_FUNCTIONS_lookup. unfold MATHEMATICAL_FUNCTIONS_items.
    rewrite !elem_of_cons. tauto. }
  assert (Hln : MATHEMATICAL_FUNCTIONS !! "ln" = Some math_log).
  { apply MATHEMATICAL_FUNCTIONS_lookup. unfold MATHEMATICAL_FUNCTIONS_items.
    rewrite !elem_of_cons. tauto. }
  split; [done|]. split; [done|].
  intros V denote x. unfold call_function. by rewrite Hlog, Hln.
Qed.

End MathFnsFacts.

(** ** Consistency of [is_equal] and [to_tuple], class by class *)

Module SedmlFacts.

Import UtilsFacts.

Lemma VTuple_eq_iff (l l' : list pyval) : VTuple l = VTuple l' <-> l = l'.
Proof. split; [by intros [= ->]|by intros ->]. Qed.

Lemma cons_eq_iff {A} (x y : A) (l l' : list A) :
  x :: l = y :: l' <-> x = y /\ l = l'.
Proof. split; [by intros [= -> ->]|by intros [-> ->]]. Qed.

(** Both sides of a consistency statement are turned into conjunctions of
    equations between attributes. *)
Ltac split_tuples :=
  rewrite ?andb_true_iff, ?bool_decide_eq_true;
  repeat (rewrite VTuple_eq_iff || rewrite cons_eq_iff);
  rewrite ?of_opt_VStr, ?of_opt_VInt, ?of_opt_VFloat, ?of_opt_VTime.

Lemma AlgorithmParameterChange_consistent (a b : AlgorithmParameterChange.t) :
  AlgorithmParameterChange.is_equal a b = true <->
  AlgorithmParameterChange.to_tuple a = AlgorithmParameterChange.to_tuple b.
Proof.
  unfold AlgorithmParameterChange.is_equal, AlgorithmParameterChange.to_tuple.
  split_tuples. tauto.
Qed.

Lemma Algorithm_consistent (a b : Algorithm.t) :
  Algorithm.is_equal a b = true <-> Algorithm.to_tuple a = Algorithm.to_tuple b.
Proof.
  unfold Algorithm.is_equal, Algorithm.to_tuple. split_tuples.
  rewrite <- (are_lists_equal_iff _ _ AlgorithmParameterChange_consistent).
  tauto.
Qed.

(** From here on the classes hold doubles or model changes, and the two
    directions part: [is_equal] implies equal tuple projections; equal tuple
    projections imply [is_equal] between plain entities. *)

(** The conjunction that [is_equal] is, as hypotheses. *)
Ltac is_equal_hyps :=
  rewrite ?andb_true_iff, ?bool_decide_eq_true; intros; destruct_and?.

(** The equation between two tuple projections, as equations between the
    attributes, and the conjunction that [is_equal] is, as goals. *)
Ltac to_tuple_hyps H :=
  repeat (rewrite VTuple_eq_iff in H || rewrite cons_eq_iff in H);
  rewrite ?of_opt_VStr, ?of_opt_VInt, ?of_opt_VFloat, ?of_opt_VTime in H;
  destruct_and?;
  rewrite ?andb_true_iff, ?bool_decide_eq_true; repeat split; try done.

Lemma Algorithm_is_equal_to_tuple (a b : Algorithm.t) :
  Algorithm.is_equal a b = true -> Algorithm.to_tuple a = Algorithm.to_tuple b.
Proof. apply Algorithm_consistent. Qed.

Lemma opt_Algorithm_consistent (a b : option Algorithm.t) :
  opt_is_equal Algorithm.is_equal a b = true <->
  of_opt Algorithm.to_tuple a = of_opt Algorithm.to_tuple b.
Proof. apply opt_is_equal_iff; [apply Algorithm_consistent|done]. Qed.

Lemma Simulation_is_equal_to_tuple (a b : Simulation.t) :
  Simulation.is_equal a b = true -> Simulation.to_tuple a = Simulation.to_tuple b.
Proof.
  destruct a as [[i n g]|[i n g] s|[i n g] t0 t1 t2 k],
           b as [[i' n' g']|[i' n' g'] s'|[i' n' g'] t0' t1' t2' k'];
    unfold Simulation.is_equal, Simulation.base_is_equal, Simulation.to_tuple,
      Simulation.algorithm_to_tuple; simpl;
    rewrite ?andb_false_r; try done; is_equal_hyps;
    repeat match goal with
           | H : opt_float_eqb _ _ = true |- _ => apply opt_float_eqb_eq in H
           | H : opt_is_equal Algorithm.is_equal _ _ = true |- _ =>
               apply opt_Algorithm_consistent in H
           end;
    congruence.
Qed.

Lemma Simulation_to_tuple_is_equal (a b : Simulation.t) :
  Entity.Plain.simulation a = true -> Entity.Plain.simulation b = true ->
  Simulation.same_class a b = true ->
  Simulation.to_tuple a = Simulation.to_tuple b -> Simulation.is_equal a b = true.
Proof.
  destruct a as [[i n g]|[i n g] s|[i n g] t0 t1 t2 k],
           b as [[i' n' g']|[i' n' g'] s'|[i' n' g'] t0' t1' t2' k'];
    try done; intros Ha Hb _;
    unfold Simulation.is_equal, Simulation.base_is_equal, Simulation.to_tuple,
      Simulation.algorithm_to_tuple; simpl; simpl in Ha, Hb; intros H;
    to_tuple_hyps H; subst;
    repeat match goal with
           | H : _ && _ = true |- _ => apply andb_true_iff in H as [? ?]
           end;
    try (by apply opt_float_eqb_number); by apply opt_Algorithm_consistent.
Qed.

Lemma ModelChange_is_equal_to_tuple (a b : ModelChange.t) :
  ModelChange.is_equal a b = true -> ModelChange.to_tuple a = ModelChange.to_tuple b.
Proof.
  unfold ModelChange.is_equal, ModelChange.base_is_equal, ModelChange.to_tuple.
  is_equal_hyps. congruence.
Qed.

Lemma ModelChange_to_tuple_is_equal (a b : ModelChange.t) :
  Entity.Plain.model_change a = true -> Entity.Plain.model_change b = true ->
  ModelChange.to_tuple a = ModelChange.to_tuple b -> ModelChange.is_equal a b = true.
Proof.
  unfold ModelChange.is_equal, ModelChange.base_is_equal, ModelChange.to_tuple,
    Entity.Plain.model_change.
  rewrite !bool_decide_eq_true. intros Ha Hb H. to_tuple_hyps H. congruence.
Qed.

Lemma Model_is_equal_to_tuple (a b : Model.t) :
  Model.is_equal a b = true -> Model.to_tuple a = Model.to_tuple b.
Proof.
  unfold Model.is_equal, Model.to_tuple. is_equal_hyps.
  rewrite (are_lists_equal_none_sorted _ _ ModelChange_is_equal_to_tuple
             (Model.changes a) (Model.changes b)) by done.
  congruence.
Qed.

Lemma Model_to_tuple_is_equal (a b : Model.t) :
  Entity.Plain.model a = true -> Entity.Plain.model b = true ->
  Model.to_tuple a = Model.to_tuple b -> Model.is_equal a b = true.
Proof.
  unfold Model.is_equal, Model.to_tuple, Entity.Plain.model. intros Ha Hb H.
  to_tuple_hyps H.
  by apply (are_lists_equal_of_none_sorted _ _ _ ModelChange_is_equal_to_tuple
              ModelChange_to_tuple_is_equal).
Qed.

Lemma Simulation_to_tuple_same_class (a b : Simulation.t) :
  Simulation.to_tuple a = Simulation.to_tuple b -> Simulation.same_class a b = true.
Proof. by destruct a, b. Qed.

Lemma opt_Simulation_to_tuple_is_equal (a b : option Simulation.t) :
  Entity.Plain.opt Entity.Plain.simulation a = true ->
  Entity.Plain.opt Entity.Plain.simulation b = true ->
  of_opt Simulation.to_tuple a = of_opt Simulation.to_tuple b ->
  opt_is_equal Simulation.is_equal a b = true.
Proof.
  apply opt_to_tuple_is_equal; [|by intros []].
  intros x y Hx Hy H. apply Simulation_to_tuple_is_equal; try done.
  by apply Simulation_to_tuple_same_class.
Qed.

Lemma Task_is_equal_to_tuple (a b : Task.t Model.t) :
  Task.is_equal a b = true -> Task.to_tuple a = Task.to_tuple b.
Proof.
  unfold Task.is_equal, Task.base_is_equal, Task.to_tuple. is_equal_hyps.
  rewrite (opt_is_equal_to_tuple _ _ Model_is_equal_to_tuple
             (Task.model a) (Task.model b)) by done.
  rewrite (opt_is_equal_to_tuple _ _ Simulation_is_equal_to_tuple
             (Task.simulation a) (Task.simulation b)) by done.
  congruence.
Qed.

Lemma Task_to_tuple_is_equal (a b : Task.t Model.t) :
  Entity.Plain.task a = true -> Entity.Plain.task b = true ->
  Task.to_tuple a = Task.to_tuple b -> Task.is_equal a b = true.
Proof.
  unfold Task.is_equal, Task.base_is_equal, Task.to_tuple, Entity.Plain.task.
  intros [? ?]%andb_true_iff [? ?]%andb_true_iff Htuple. to_tuple_hyps Htuple.
  - by apply (opt_to_tuple_is_equal _ _ _ Model_to_tuple_is_equal).
  - by apply opt_Simulation_to_tuple_is_equal.
Qed.

Lemma DataGeneratorVariable_is_equal_to_tuple (a b : DataGeneratorVariable.t Model.t) :
  DataGeneratorVariable.is_equal a b = true ->
  DataGeneratorVariable.to_tuple a = DataGeneratorVariable.to_tuple b.
Proof.
  unfold DataGeneratorVariable.is_equal, DataGeneratorVariable.to_tuple. is_equal_hyps.
  rewrite (opt_is_equal_to_tuple _ _ Model_is_equal_to_tuple
             (DataGeneratorVariable.model a) (DataGeneratorVariable.model b)) by done.
  rewrite (opt_is_equal_to_tuple _ _ Task_is_equal_to_tuple
             (DataGeneratorVariable.task a) (DataGeneratorVariable.task b)) by done.
  congruence.
Qed.

Lemma DataGeneratorVariable_to_tuple_is_equal (a b : DataGeneratorVariable.t Model.t) :
  Entity.Plain.variable a = true -> Entity.Plain.variable b = true ->
  DataGeneratorVariable.to_tuple a = DataGeneratorVariable.to_tuple b ->
  DataGeneratorVariable.is_equal a b = true.
Proof.
  unfold DataGeneratorVariable.is_equal, DataGeneratorVariable.to_tuple,
    Entity.Plain.variable.
  intros [? ?]%andb_true_iff [? ?]%andb_true_iff Htuple. to_tuple_hyps Htuple.
  - by apply (opt_to_tuple_is_equal _ _ _ Task_to_tuple_is_equal).
  - by apply (opt_to_tuple_is_equal _ _ _ Model_to_tuple_is_equal).
Qed.

Lemma DataGeneratorParameter_is_equal_to_tuple (a b : DataGeneratorParameter.t) :
  DataGeneratorParameter.is_equal a b = true ->
  DataGeneratorParameter.to_tuple a = DataGeneratorParameter.to_tuple b.
Proof.
  unfold DataGeneratorParameter.is_equal, DataGeneratorParameter.to_tuple.
  is_equal_hyps.
  match goal with H : opt_float_eqb _ _ = true |- _ => apply opt_float_eqb_eq in H end.
  congruence.
Qed.

Lemma DataGeneratorParameter_to_tuple_is_equal (a b : DataGeneratorParameter.t) :
  Entity.Plain.parameter a = true -> Entity.Plain.parameter b = true ->
  DataGeneratorParameter.to_tuple a = DataGeneratorParameter.to_tuple b ->
  DataGeneratorParameter.is_equal a b = true.
Proof.
  unfold DataGeneratorParameter.is_equal, DataGeneratorParameter.to_tuple,
    Entity.Plain.parameter.
  intros Ha Hb H. to_tuple_hyps H.
  match goal with H : DataGeneratorParameter.value _ = _ |- _ => rewrite <- H end.
  by apply opt_float_eqb_number.
Qed.

Lemma DataGenerator_is_equal_to_tuple (a b : DataGenerator.t Model.t) :
  DataGenerator.is_equal a b = true ->
  DataGenerator.to_tuple a = DataGenerator.to_tuple b.
Proof.
  unfold DataGenerator.is_equal, DataGenerator.to_tuple. is_equal_hyps.
  rewrite (are_lists_equal_none_sorted _ _ DataGeneratorVariable_is_equal_to_tuple
             (DataGenerator.variables a) (DataGenerator.variables b)) by done.
  rewrite (are_lists_equal_none_sorted _ _ DataGeneratorParameter_is_equal_to_tuple
             (DataGenerator.parameters a) (DataGenerator.parameters b)) by done.
  congruence.
Qed.

Lemma DataGenerator_to_tuple_is_equal (a b : DataGenerator.t Model.t) :
  Entity.Plain.data_generator a = true -> Entity.Plain.data_generator b = true ->
  DataGenerator.to_tuple a = DataGenerator.to_tuple b ->
  DataGenerator.is_equal a b = true.
Proof.
  unfold DataGenerator.is_equal, DataGenerator.to_tuple, Entity.Plain.data_generator.
  intros [? ?]%andb_true_iff [? ?]%andb_true_iff Htuple. to_tuple_hyps Htuple.
  - by apply (are_lists_equal_of_none_sorted _ _ _
                DataGeneratorVariable_is_equal_to_tuple
                DataGeneratorVariable_to_tuple_is_equal).
  - by apply (are_lists_equal_of_none_sorted _ _ _
                DataGeneratorParameter_is_equal_to_tuple
                DataGeneratorParameter_to_tuple_is_equal).
Qed.

Lemma opt_DataGenerator_is_equal_to_tuple (a b : option (DataGenerator.t Model.t)) :
  opt_is_equal DataGenerator.is_equal a b = true ->
  of_opt DataGenerator.to_tuple a = of_opt DataGenerator.to_tuple b.
Proof. apply opt_is_equal_to_tuple, DataGenerator_is_equal_to_tuple. Qed.

Lemma opt_DataGenerator_to_tuple_is_equal (a b : option (DataGenerator.t Model.t)) :
  Entity.Plain.opt Entity.Plain.data_generator a = true ->
  Entity.Plain.opt Entity.Plain.data_generator b = true ->
  of_opt DataGenerator.to_tuple a = of_opt DataGenerator.to_tuple b ->
  opt_is_equal DataGenerator.is_equal a b = true.
Proof. by apply opt_to_tuple_is_equal; [apply DataGenerator_to_tuple_is_equal|]. Qed.

(** The optional data generators of an entity, one hypothesis at a time. *)
Ltac data_generators_to_tuple :=
  repeat match goal with
         | H : opt_is_equal DataGenerator.is_equal _ _ = true |- _ =>
             apply opt_DataGenerator_is_equal_to_tuple in H
         end.

Lemma DataSet_is_equal_to_tuple (a b : DataSet.t Model.t) :
  DataSet.is_equal a b = true -> DataSet.to_tuple a = DataSet.to_tuple b.
Proof.
  unfold DataSet.is_equal, DataSet.to_tuple. is_equal_hyps.
  data_generators_to_tuple. congruence.
Qed.

Lemma DataSet_to_tuple_is_equal (a b : DataSet.t Model.t) :
  Entity.Plain.data_set a = true -> Entity.Plain.data_set b = true ->
  DataSet.to_tuple a = DataSet.to_tuple b -> DataSet.is_equal a b = true.
Proof.
  unfold DataSet.is_equal, DataSet.to_tuple, Entity.Plain.data_set.
  intros Ha Hb H. to_tuple_hyps H. by apply opt_DataGenerator_to_tuple_is_equal.
Qed.

Lemma AxisScale_to_tuple (a b : option AxisScale.t) :
  of_opt (fun s => VStr (AxisScale.value s)) a =
  of_opt (fun s => VStr (AxisScale.value s)) b <-> a = b.
Proof. apply of_opt_inj; [by intros [] [] [=]|done]. Qed.

Lemma Curve_is_equal_to_tuple (a b : Curve.t Model.t) :
  Curve.is_equal a b = true -> Curve.to_tuple a = Curve.to_tuple b.
Proof.
  unfold Curve.is_equal, Curve.to_tuple. is_equal_hyps.
  data_generators_to_tuple. congruence.
Qed.

Lemma Curve_to_tuple_is_equal (a b : Curve.t Model.t) :
  Entity.Plain.curve a = true -> Entity.Plain.curve b = true ->
  Curve.to_tuple a = Curve.to_tuple b -> Curve.is_equal a b = true.
Proof.
  unfold Curve.is_equal, Curve.to_tuple, Entity.Plain.curve.
  intros [? ?]%andb_true_iff [? ?]%andb_true_iff Htuple.
  to_tuple_hyps Htuple; try (by apply AxisScale_to_tuple);
    by apply opt_DataGenerator_to_tuple_is_equal.
Qed.

Lemma Surface_is_equal_to_tuple (a b : Surface.t Model.t) :
  Surface.is_equal a b = true -> Surface.to_tuple a = Surface.to_tuple b.
Proof.
  unfold Surface.is_equal, Surface.to_tuple. is_equal_hyps.
  data_generators_to_tuple. congruence.
Qed.

Lemma Surface_to_tuple_is_equal (a b : Surface.t Model.t) :
  Entity.Plain.surface a = true -> Entity.Plain.surface b = true ->
  Surface.to_tuple a = Surface.to_tuple b -> Surface.is_equal a b = true.
Proof.
  unfold Surface.is_equal, Surface.to_tuple, Entity.Plain.surface.
  intros [[? ?]%andb_true_iff ?]%andb_true_iff [[? ?]%andb_true_iff ?]%andb_true_iff Htuple.
  to_tuple_hyps Htuple; try (by apply AxisScale_to_tuple);
    by apply opt_DataGenerator_to_tuple_is_equal.
Qed.


Lemma Output_is_equal_to_tuple (a b : Output.t Model.t) :
  Output.is_equal a b = true -> Output.to_tuple a = Output.to_tuple b.
Proof.
  destruct a as [r|p|p], b as [r'|p'|p'];
    unfold Output.is_equal, Output.base_is_equal, Output.to_tuple; simpl;
    rewrite ?andb_false_r; try done; is_equal_hyps.
  - rewrite (are_lists_equal_none_sorted _ _ DataSet_is_equal_to_tuple
               (Output.data_sets r) (Output.data_sets r')) by done.
    congruence.
  - rewrite (are_lists_equal_none_sorted _ _ Curve_is_equal_to_tuple
               (Output.curves p) (Output.curves p')) by done.
    congruence.
  - rewrite (are_lists_equal_none_sorted _ _ Surface_is_equal_to_tuple
               (Output.surfaces p) (Output.surfaces p')) by done.
    congruence.
Qed.

(** Two plain outputs of one class are consistent. *)
Lemma Output_to_tuple_is_equal (a b : Output.t Model.t) :
  Entity.Plain.output a = true -> Entity.Plain.output b = true ->
  Output.same_class a b = true ->
  Output.to_tuple a = Output.to_tuple b -> Output.is_equal a b = true.
Proof.
  destruct a as [r|p|p], b as [r'|p'|p']; try done; intros Ha Hb _;
    unfold Output.is_equal, Output.base_is_equal, Output.to_tuple; simpl;
    simpl in Ha, Hb; intros H; to_tuple_hyps H.
  - by apply (are_lists_equal_of_none_sorted _ _ _ DataSet_is_equal_to_tuple
                DataSet_to_tuple_is_equal).
  - by apply (are_lists_equal_of_none_sorted _ _ _ Curve_is_equal_to_tuple
                Curve_to_tuple_is_equal).
  - by apply (are_lists_equal_of_none_sorted _ _ _ Surface_is_equal_to_tuple
                Surface_to_tuple_is_equal).
Qed.

Lemma CombineArchiveAuthor_consistent (a b : CombineArchiveAuthor.t) :
  CombineArchiveAuthor.is_equal a b = true <->
  CombineArchiveAuthor.to_tuple a = CombineArchiveAuthor.to_tuple b.
Proof.
  unfold CombineArchiveAuthor.is_equal, CombineArchiveAuthor.to_tuple.
  split_tuples. tauto.
Qed.

End SedmlFacts.

(** ** The tuple projections of COMBINE archives and Python's [sorted] *)

Module CombineMore.

Import PyOrderFacts UtilsFacts SedmlFacts CombineSpec.

(** [<] raises nothing but [TypeError]. *)
Lemma py_lt_TypeError (x y : pyval) (e : exn) :
  py_lt x y = Raise e -> exists msg, e = TypeError msg.
Proof.
  revert y. induction x as [| | | | | |l IH] using pyval_ind; intros y;
    destruct y as [| | | | | |l']; simpl; try done; try (intros [= <-]; by eexists).
  revert l'. induction IH as [|a l Ha _ IHl]; intros [|b l']; try done.
  destruct (py_eqb a b); [apply IHl|apply Ha].
Qed.

Lemma py_insert_TypeError (x : pyval) (l : list pyval) (e : exn) :
  py_insert x l = Raise e -> exists msg, e = TypeError msg.
Proof.
  induction l as [|y l IH]; simpl; [done|].
  destruct (py_lt y x) as [[]|e'] eqn:Hlt; simpl.
  - destruct (py_insert x l) as [l'|e'']; simpl; [done|].
    intros [= <-]. by apply IH.
  - done.
  - intros [= <-]. by eapply py_lt_TypeError.
Qed.

Lemma sorted_TypeError (l : list pyval) (e : exn) :
  sorted l = Raise e -> exists msg, e = TypeError msg.
Proof.
  induction l as [|x l IH]; simpl; [done|].
  destruct (sorted l) as [s|e']; simpl.
  - apply py_insert_TypeError.
  - intros [= <-]. by apply IH.
Qed.

Lemma py_insert_Permutation (x : pyval) (l l' : list pyval) :
  py_insert x l = Ok l' -> l' ≡ₚ x :: l.
Proof.
  revert l'. induction l as [|y l IH]; intros l'; simpl.
  - by intros [= <-].
  - destruct (py_lt y x) as [[]|e]; simpl; [|by intros [= <-]|done].
    destruct (py_insert x l) as [l0|e]; simpl; [|done].
    intros [= <-]. rewrite (IH l0 eq_refl). apply Permutation_swap.
Qed.

Lemma sorted_Permutation (l l' : list pyval) : sorted l = Ok l' -> l' ≡ₚ l.
Proof.
  revert l'. induction l as [|x l IH]; intros l'; simpl.
  - by intros [= <-].
  - destruct (sorted l) as [s|e]; simpl; [|done].
    intros ->%py_insert_Permutation. by rewrite (IH s eq_refl).
Qed.

(** *** Authors with names *)

(** On pairs of strings [<] is defined, and it is the strict part of the
    total order of tuple projections. *)
Lemma py_lt_str_pair (x y : pyval) :
  str_pair x -> str_pair y -> py_lt y x = Ok (negb (pyval_leb x y)).
Proof.
  intros (a & b & ->) (a' & b' & ->). unfold pyval_leb.
  rewrite (pyval_compare_antisym (VTuple [VStr a'; VStr b']) (VTuple [VStr a; VStr b])).
  cbn [py_lt pyval_compare list_compare]. unfold py_eqb, String.ltb.
  cbn [pyval_compare].
  destruct (String.compare a' a) eqn:Ha; simpl; try done.
  destruct (String.compare b' b) eqn:Hb; simpl; done.
Qed.

Lemma py_insert_str_pairs (x : pyval) (l : list pyval) :
  str_pair x -> Forall str_pair l -> py_insert x l = Ok (insert_sorted pyval_leb x l).
Proof.
  intros Hx Hl. induction Hl as [|y l Hy _ IH]; simpl; [done|].
  rewrite py_lt_str_pair by done. simpl.
  destruct (pyval_leb x y); simpl; [done|]. by rewrite IH.
Qed.

(** [sorted] of pairs of strings raises nothing: it is the sort of tuple
    projections. *)
Lemma sorted_str_pairs (l : list pyval) :
  Forall str_pair l -> sorted l = Ok (none_sorted l).
Proof.
  intros Hl. induction Hl as [|x l Hx Hl IH]; simpl; [done|].
  rewrite IH. simpl. apply py_insert_str_pairs; [done|].
  apply Forall_forall. intros y Hy. rewrite Forall_forall in Hl. apply Hl.
  by rewrite none_sorted_Permutation in Hy.
Qed.

Lemma named_str_pair (authors : list CombineArchiveAuthor.t) :
  Forall named authors -> Forall str_pair (map CombineArchiveAuthor.to_tuple authors).
Proof.
  intros H. apply Forall_fmap. eapply Forall_impl; [done|].
  intros [given family] [[g Hg] [f Hf]]. simpl in *. subst. by exists f, g.
Qed.

(** X1.  The tuple projection of a content item whose authors all have a
    given name and a family name is defined: [to_tuple] raises nothing, and
    the authors of the projection are the projections of the authors, in
    ascending order. *)
Theorem CombineArchiveContent_to_tuple_of_named_authors (c : CombineArchiveContent.t) :
  Forall named (CombineArchiveContent.authors c) ->
  exists authors,
    CombineArchiveContent.to_tuple c
    = Ok (VTuple [VStr (CombineArchiveContent.location c);
                  VStr (CombineArchiveContent.format c);
                  VBool (CombineArchiveContent.master c);
                  of_opt VStr (CombineArchiveContent.description c);
                  VTuple authors;
                  of_opt VTime (CombineArchiveContent.created c);
                  of_opt VTime (CombineArchiveContent.updated c)]) /\
    authors ≡ₚ map CombineArchiveAuthor.to_tuple (CombineArchiveContent.authors c) /\
    Sorted pyval_le authors.
Proof.
  intros Hnamed. eexists. unfold CombineArchiveContent.to_tuple.
  rewrite sorted_str_pairs by by apply named_str_pair. simpl.
  split; [done|]. split; [apply none_sorted_Permutation|apply none_sorted_Sorted].
Qed.

(** X2.  On content items whose authors all have a given name and a family
    name, [is_equal] and [to_tuple] agree: two such items are equal exactly
    when their tuple projections are. *)
Theorem CombineArchiveContent_consistent (a b : CombineArchiveContent.t) :
  Forall named (CombineArchiveContent.authors a) ->
  Forall named (CombineArchiveContent.authors b) ->
  CombineArchiveContent.is_equal a b = true
  <-> CombineArchiveContent.to_tuple a = CombineArchiveContent.to_tuple b.
Proof.
  intros Ha Hb. unfold CombineArchiveContent.to_tuple, CombineArchiveContent.is_equal.
  rewrite !sorted_str_pairs by by apply named_str_pair. simpl.
  rewrite !andb_true_iff, !bool_decide_eq_true.
  rewrite (are_lists_equal_iff _ CombineArchiveAuthor.to_tuple)
    by apply CombineArchiveAuthor_consistent.
  split.
  - intros ((((((-> & ->) & ->) & ->) & ->) & ->) & ->). done.
  - intros [= H1 H2 H3 H4 H5 H6 H7].
    apply of_opt_VStr in H4. apply of_opt_VTime in H6. apply of_opt_VTime in H7.
    done.
Qed.

(** *** Authors without a family name *)

Lemma none_first_author (a : CombineArchiveAuthor.t) :
  none_first (CombineArchiveAuthor.to_tuple a)
  = bool_decide (CombineArchiveAuthor.family_name a = None).
Proof. destruct a as [given [family|]]; done. Qed.

(** [<] between the projections of two authors is defined only if both have
    a family name or none has. *)
Lemma py_lt_authors (a b : CombineArchiveAuthor.t) (r : bool) :
  py_lt (CombineArchiveAuthor.to_tuple a) (CombineArchiveAuthor.to_tuple b) = Ok r ->
  none_first (CombineArchiveAuthor.to_tuple a)
  = none_first (CombineArchiveAuthor.to_tuple b).
Proof. destruct a as [given [family|]], b as [given' [family'|]]; done. Qed.

(** When [sorted] gets through the projections of authors, either all of them
    have a family name or none has. *)
Lemma sorted_authors_uniform (authors : list CombineArchiveAuthor.t)
    (s : list pyval) :
  sorted (map CombineArchiveAuthor.to_tuple authors) = Ok s ->
  forall a b, a ∈ authors -> b ∈ authors ->
    none_first (CombineArchiveAuthor.to_tuple a)
    = none_first (CombineArchiveAuthor.to_tuple b).
Proof.
  revert s. induction authors as [|x authors IH]; intros s; simpl.
  - intros _ a b Ha. by apply elem_of_nil in Ha.
  - destruct (sorted _) as [s0|e] eqn:Hsorted; simpl; [|done].
    specialize (IH s0 eq_refl). intros Hinsert.
    assert (Hx : forall a, a ∈ authors ->
              none_first (CombineArchiveAuthor.to_tuple a)
              = none_first (CombineArchiveAuthor.to_tuple x)).
    { destruct s0 as [|y s0].
      { apply sorted_Permutation, Permutation_nil_l in Hsorted.
        destruct authors; [|done]. intros a Ha. by apply elem_of_nil in Ha. }
      assert (Hy : y ∈ map CombineArchiveAuthor.to_tuple authors).
      { rewrite <- (sorted_Permutation _ _ Hsorted). constructor. }
      apply list_elem_of_fmap in Hy as (a0 & -> & Ha0).
      cbn [py_insert] in Hinsert.
      destruct (py_lt (CombineArchiveAuthor.to_tuple a0) (CombineArchiveAuthor.to_tuple x))
        as [r|e] eqn:Hlt; [|done].
      apply py_lt_authors in Hlt. intros a Ha. by rewrite (IH a a0). }
    intros a b [->|Ha]%elem_of_cons [->|Hb]%elem_of_cons.
    + done.
    + symmetry. by apply Hx.
    + by apply Hx.
    + by apply IH.
Qed.

Lemma sorted_mixed_family_names (authors : list CombineArchiveAuthor.t) :
  mixed_family_names authors ->
  exists msg,
    sorted (map CombineArchiveAuthor.to_tuple authors) = Raise (TypeError msg).
Proof.
  intros (a & b & Ha & Hb & Hnone & [family Hsome]).
  destruct (sorted _) as [s|e] eqn:Hsorted.
  - pose proof (sorted_authors_uniform _ _ Hsorted a b Ha Hb) as Heq.
    rewrite !none_first_author, Hnone, Hsome in Heq. done.
  - apply sorted_TypeError in Hsorted as [msg ->]. by exists msg.
Qed.

Lemma mapM_result_Ok {A B} (f : A -> result B) (l : list A) (k : list B) :
  mapM f l = Ok k -> forall x, x ∈ l -> is_ok (f x) = true.
Proof.
  revert k. induction l as [|y l IH]; intros k; simpl.
  - intros _ x Hx. by apply elem_of_nil in Hx.
  - destruct (f y) as [b|e] eqn:Hy; simpl; [|done].
    destruct (mapM f l) as [k'|e]; simpl; [|done].
    intros _ x [->|Hx]%elem_of_cons; [by rewrite Hy|]. by eapply IH.
Qed.

Lemma mapM_result_Raise {A B} (f : A -> result B) (l : list A) (e : exn) :
  mapM f l = Raise e -> exists x, x ∈ l /\ f x = Raise e.
Proof.
  induction l as [|y l IH]; simpl; [done|].
  destruct (f y) as [b|e'] eqn:Hy; simpl.
  - destruct (mapM f l) as [k'|e']; simpl; [done|].
    intros [= <-]. destruct (IH eq_refl) as (x & Hx & Hfx).
    exists x. split; [by constructor|done].
  - intros [= <-]. exists y. split; [constructor|done].
Qed.

Lemma CombineArchiveContent_to_tuple_TypeError (c : CombineArchiveContent.t) (e : exn) :
  CombineArchiveContent.to_tuple c = Raise e -> exists msg, e = TypeError msg.
Proof.
  unfold CombineArchiveContent.to_tuple.
  destruct (sorted _) as [s|e'] eqn:Hsorted; simpl; [done|].
  intros [= <-]. by eapply sorted_TypeError.
Qed.

(** X3.  [to_tuple] is not defined on every content item and archive that
    [is_equal] accepts.  When one author of a content item has no family name
    and another has one, [to_tuple] of the item raises a [TypeError]: [sorted]
    compares [None] with a string.  It raises a [TypeError] for an archive
    too, when the authors of the archive, or those of one of its content
    items, are such. *)
Theorem to_tuple_of_mixed_family_names :
  (forall c : CombineArchiveContent.t,
     mixed_family_names (CombineArchiveContent.authors c) ->
     exists msg, CombineArchiveContent.to_tuple c = Raise (TypeError msg)) /\
  (forall archive : CombineArchive.t,
     mixed_family_names (CombineArchive.authors archive) \/
     (exists c, c ∈ CombineArchive.contents archive /\
                mixed_family_names (CombineArchiveContent.authors c)) ->
     exists msg, CombineArchive.to_tuple archive = Raise (TypeError msg)).
Proof.
  assert (Hcontent : forall c : CombineArchiveContent.t,
            mixed_family_names (CombineArchiveContent.authors c) ->
            exists msg, CombineArchiveContent.to_tuple c = Raise (TypeError msg)).
  { intros c [msg Hmsg]%sorted_mixed_family_names.
    exists msg. unfold CombineArchiveContent.to_tuple. by rewrite Hmsg. }
  split; [done|]. intros archive Hmixed. unfold CombineArchive.to_tuple.
  destruct (mapM _ _) as [tuples|e] eqn:Htuples; simpl.
  - destruct (sorted tuples) as [contents|e] eqn:Hcontents; simpl.
    + destruct Hmixed as [Hmixed|(c & Hc & Hmixed)].
      * apply sorted_mixed_family_names in Hmixed as [msg ->]. by exists msg.
      * apply Hcontent in Hmixed as [msg Hmsg].
        pose proof (mapM_result_Ok _ _ _ Htuples c Hc) as Hok.
        by rewrite Hmsg in Hok.
    + apply sorted_TypeError in Hcontents as [msg ->]. by exists msg.
  - apply mapM_result_Raise in Htuples as (c & _ & Hc).
    apply CombineArchiveContent_to_tuple_TypeError in Hc as [msg ->]. by exists msg.
Qed.

End CombineMore.

(** ** Consistency of [is_equal] and [to_tuple] over all classes *)

Module EntityFacts.

Import UtilsFacts SedmlFacts.


Lemma Output_same_class_iff (a b : Output.t Model.t) :
  Output.same_class a b = true <-> Output.class_name a = Output.class_name b.
Proof. destruct a, b; simpl; split; done. Qed.



Lemma to_tuple_is_equal (a b : Entity.t) :
  Entity.plain a = true -> Entity.plain b = true ->
  Entity.class_of a = Entity.class_of b -> Entity.to_tuple a = Entity.to_tuple b ->
  Entity.is_equal a b = true.
Proof.
  destruct a as [x|x|x|x|x|x|x|x|x|x|x|x|x|x], b as [y|y|y|y|y|y|y|y|y|y|y|y|y|y];
    cbn [Entity.is_equal Entity.to_tuple Entity.class_of Entity.plain];
    try (intros _ _ Hc; revert Hc; unfold Output.class_name;
         repeat match goal with
                | |- context [match ?z with _ => _ end] => destruct z
                end; done).
  - intros _ _ _. apply AlgorithmParameterChange_consistent.
  - intros _ _ _. apply Algorithm_consistent.
  - intros Hx Hy _ H. apply Simulation_to_tuple_is_equal; try done.
    by apply Simulation_to_tuple_same_class.
  - intros Hx Hy _. by apply ModelChange_to_tuple_is_equal.
  - intros Hx Hy _. by apply Model_to_tuple_is_equal.
  - intros Hx Hy _. by apply Task_to_tuple_is_equal.
  - intros Hx Hy _. by apply DataGeneratorVariable_to_tuple_is_equal.
  - intros Hx Hy _. by apply DataGeneratorParameter_to_tuple_is_equal.
  - intros Hx Hy _. by apply DataGenerator_to_tuple_is_equal.
  - intros Hx Hy _. by apply DataSet_to_tuple_is_equal.
  - intros Hx Hy _. by apply Curve_to_tuple_is_equal.
  - intros Hx Hy _. by apply Surface_to_tuple_is_equal.
  - intros Hx Hy Hc. apply Output_to_tuple_is_equal; try done.
    by apply Output_same_class_iff.
  - intros _ _ _. apply CombineArchiveAuthor_consistent.
Qed.

(** A plain entity is [is_equal] to itself. *)
Lemma is_equal_refl_plain (a : Entity.t) :
  Entity.plain a = true -> Entity.is_equal a a = true.
Proof. intros H. by apply to_tuple_is_equal. Qed.



(** It fails within one class as well.  A parameter whose value is a NaN
    has the tuple projection that it has, the NaN being one object, and is
    not [is_equal] to itself. *)
Lemma is_equal_to_tuple_NaN :
  let a := Entity.DataGeneratorParameter
             (DataGeneratorParameter.init (Some "p"%string) None (Some (NaN 0))) in
  Entity.class_of a = Entity.class_of a /\
  Entity.to_tuple a = Entity.to_tuple a /\
  Entity.is_equal a a = false.
Proof. repeat split. Qed.

(** Two model changes that differ in the [name] that one of them was given
    after its construction have one tuple projection and are not
    [is_equal]. *)
Lemma is_equal_to_tuple_name :
  let a := ModelChange.ModelAttributeChange (Some "/x") (Some "1")%string in
  let b := ModelChange.set_name (Some "k"%string) a in
  Entity.class_of (Entity.ModelChange a) = Entity.class_of (Entity.ModelChange b) /\
  Entity.to_tuple (Entity.ModelChange a) = Entity.to_tuple (Entity.ModelChange b) /\
  Entity.is_equal (Entity.ModelChange a) (Entity.ModelChange b) = false.
Proof. repeat split. Qed.

(** Two models that list the same changes in different orders: they are
    plain, have one tuple projection and are [is_equal]. *)
Lemma is_equal_to_tuple_models :
  let c1 := ModelChange.ModelAttributeChange (Some "/x") (Some "1")%string in
  let c2 := ModelChange.ModelAttributeChange (Some "/y") None%string in
  let a := Entity.Model (Model.init (Some "m"%string) None None None (Some [c1; c2])) in
  let b := Entity.Model (Model.init (Some "m"%string) None None None (Some [c2; c1])) in
  Entity.plain a = true /\ Entity.plain b = true /\
  Entity.to_tuple a = Entity.to_tuple b /\ Entity.is_equal a b = true.
Proof. repeat split. Qed.

(** The entities that the constructors make of numbers are plain. *)
Lemma constructed_entities_are_plain (target new_value id name : option string)
    (value : Z) :
  Entity.plain (Entity.ModelChange (ModelChange.ModelAttributeChange target new_value))
    = true /\
  Entity.plain (Entity.DataGeneratorParameter
                  (DataGeneratorParameter.init id name (Some (Num value)))) = true.
Proof. split; [by apply bool_decide_eq_true|done]. Qed.

(** A document is a different matter: [is_equal] still implies equal tuple
    projections, *)
Lemma SedDocument_is_equal_to_tuple {Meta : Type}
    (Metadata_to_tuple : Meta -> pyval)
    (Metadata_is_equal : Meta -> option Meta -> bool)
    (a b : SedDocument.t Model.t Meta) :
  (forall m o, Metadata_is_equal m o = true ->
     exists m', o = Some m' /\ Metadata_to_tuple m = Metadata_to_tuple m') ->
  SedDocument.is_equal Metadata_is_equal a b = true ->
  SedDocument.to_tuple Metadata_to_tuple a = SedDocument.to_tuple Metadata_to_tuple b.
Proof.
  intros Hmeta. unfold SedDocument.is_equal, SedDocument.to_tuple.
  rewrite !andb_true_iff, !bool_decide_eq_true.
  intros [[[[[[[-> ->] Hm] Hs] Ht] Hd] Ho] Hmd].
  rewrite (are_lists_equal_none_sorted _ Model.to_tuple
             Model_is_equal_to_tuple _ _ Hm).
  rewrite (are_lists_equal_none_sorted _ Simulation.to_tuple
             Simulation_is_equal_to_tuple _ _ Hs).
  rewrite (are_lists_equal_none_sorted _ Task.to_tuple
             Task_is_equal_to_tuple _ _ Ht).
  rewrite (are_lists_equal_none_sorted _ DataGenerator.to_tuple
             DataGenerator_is_equal_to_tuple _ _ Hd).
  rewrite (are_lists_equal_none_sorted _ Output.to_tuple
             Output_is_equal_to_tuple _ _ Ho).
  do 7 f_equal.
  destruct (SedDocument.metadata a) as [m|], (SedDocument.metadata b) as [m'|];
    simpl; try done.
  - apply Hmeta in Hmd as (? & [= <-] & ->). done.
  - by apply Hmeta in Hmd as (? & [=] & _).
Qed.

(** but not the other way round: a report and a plot that have no children
    and one [id] have one tuple projection, and so have two documents that
    differ in nothing else. *)
Lemma SedDocument_to_tuple_not_is_equal :
  let a : SedDocument.t Model.t unit :=
    SedDocument.init (Some 1%Z) (Some 3%Z) None None None None
      (Some [Output.Report_init (Some "r"%string) None None]) None in
  let b : SedDocument.t Model.t unit :=
    SedDocument.init (Some 1%Z) (Some 3%Z) None None None None
      (Some [Output.Plot2D_init (Some "r"%string) None None]) None in
  SedDocument.to_tuple (fun _ => VTuple []) a = SedDocument.to_tuple (fun _ => VTuple []) b /\
  SedDocument.is_equal (fun _ o => bool_decide (o = Some tt)) a b = false.
Proof. split; reflexivity. Qed.

End EntityFacts.

(** ** Constructors and their list-valued attributes *)

Module ConstructorFacts.

Import UtilsFacts Spec.

(** [x or []] is the list given, and a fresh empty list when the argument is
    left out or [None]. *)
Lemma or_empty_spec {A} (x : option (list A)) :
  or_empty x = match x with Some l => l | None => [] end.
Proof. by destruct x as [[|? ?]|]. Qed.

(** C10.  Every constructor that has list-valued arguments stores, for each
    of them, the list given, and an empty list when the argument is left out
    or is [None]; so a list-valued attribute is a list after construction.
    On entities constructed without arguments the operations that go through
    these lists return: [get_master_content] gives [None], [to_tuple] gives
    the tuple with empty children, [is_equal] gives [True]. *)
Theorem constructors_normalise_lists :
  (forall contents description authors created updated,
     CombineArchive.contents
       (CombineArchive.init contents description authors created updated)
       = default [] contents /\
     CombineArchive.authors
       (CombineArchive.init contents description authors created updated)
       = default [] authors) /\
  (forall location format master description authors created updated,
     CombineArchiveContent.authors
       (CombineArchiveContent.init location format master description authors
          created updated) = default [] authors) /\
  (forall (M Meta : Type) level version models simulations tasks data_generators
          outputs (metadata : option Meta),
     let doc : SedDocument.t M Meta :=
       SedDocument.init level version models simulations tasks data_generators
         outputs metadata in
     SedDocument.models doc = default [] models /\
     SedDocument.simulations doc = default [] simulations /\
     SedDocument.tasks doc = default [] tasks /\
     SedDocument.data_generators doc = default [] data_generators /\
     SedDocument.outputs doc = default [] outputs) /\
  (forall kisao_id changes,
     Algorithm.changes (Algorithm.init kisao_id changes) = default [] changes) /\
  (forall id name source language changes,
     Model.changes (Model.init id name source language changes) = default [] changes) /\
  (forall (M : Type) id name variables parameters math,
     DataGenerator.variables (@DataGenerator.init M id name variables parameters math)
       = default [] variables /\
     DataGenerator.parameters (@DataGenerator.init M id name variables parameters math)
       = default [] parameters) /\
  (forall (M : Type) id name data_sets,
     exists r, @Output.Report_init M id name data_sets = Output.Report r /\
               Output.data_sets r = default [] data_sets) /\
  (forall (M : Type) id name curves,
     exists p, @Output.Plot2D_init M id name curves = Output.Plot2D p /\
               Output.curves p = default [] curves) /\
  (forall (M : Type) id name surfaces,
     exists p, @Output.Plot3D_init M id name surfaces = Output.Plot3D p /\
               Output.surfaces p = default [] surfaces) /\
  CombineArchive.get_master_content CombineArchive_default
    = (CombineArchive_default, Ok None) /\
  CombineArchive.to_tuple CombineArchive_default
    = Ok (VTuple [VTuple []; VNone; VTuple []; VNone; VNone]) /\
  CombineArchive.is_equal CombineArchive_default CombineArchive_default = true /\
  (forall (Meta : Type) (Metadata_to_tuple : Meta -> pyval)
          (Metadata_is_equal : Meta -> option Meta -> bool),
     SedDocument.to_tuple Metadata_to_tuple SedDocument.default
       = VTuple [VInt 1; VInt 3; VTuple []; VTuple []; VTuple []; VTuple [];
                 VTuple []; VNone] /\
     SedDocument.is_equal Metadata_is_equal SedDocument.default SedDocument.default
       = true) /\
  DataGenerator.to_tuple DataGenerator_default
    = VTuple [VNone; VNone; VTuple []; VTuple []; VNone] /\
  DataGenerator.is_equal DataGenerator_default DataGenerator_default = true.
Proof.
  repeat split; intros; try apply or_empty_default; try reflexivity;
    eexists; (split; [reflexivity|apply or_empty_default]).
Qed.

End ConstructorFacts.

(** ** Properties of [exec_doc] *)

Module ExecFacts.

Import Exec Spec.

#[local] Set Warnings "-clear-no-such-hyp".

#[local] Existing Instance exec_ret.
#[local] Existing Instance exec_bind.

Section run.
Context {Meta : Type}.

Abbreviation W := (World Meta).
Abbreviation E := (exec Meta).
Abbreviation keeps := (Spec.keeps (Meta:=Meta)).
Abbreviation frame := (Spec.frame (Meta:=Meta)).
Abbreviation same_calls := (Spec.same_calls (Meta:=Meta)).

(** *** Running a computation *)

Lemma run_bind {A B} (c : E A) (k : A -> E B) (w : W) :
  (c ≫= k) w =
  match c w with
  | (w', Ok a) => k a w'
  | (w', Raise e) => (w', Raise e)
  end.
Proof. reflexivity. Qed.

Lemma run_for_each_app {A S} (body : S -> A -> E S) (s : S) (l1 l2 : list A) (w : W) :
  for_each body s (l1 ++ l2) w =
  match for_each body s l1 w with
  | (w', Ok s') => for_each body s' l2 w'
  | (w', Raise e) => (w', Raise e)
  end.
Proof.
  revert s w. induction l1 as [|x l1 IH]; intros s w; simpl; [done|].
  rewrite !run_bind. destruct (body s x w) as [w' [s'|e]]; [apply IH|done].
Qed.

Lemma for_each_pure_app {A S} (body : S -> A -> result S) (s : S) (l1 l2 : list A) :
  for_each_pure body s (l1 ++ l2) =
  match for_each_pure body s l1 with
  | Ok s' => for_each_pure body s' l2
  | Raise e => Raise e
  end.
Proof.
  revert s. induction l1 as [|x l1 IH]; intros s; simpl; [done|].
  destruct (body s x) as [s'|e]; simpl; [apply IH|done].
Qed.

Section keeps.
Context (R : relation W) `{!PreOrder R}.

Lemma keeps_ret {A} (a : A) : keeps R (mret a : E A).
Proof. intros w. simpl. done. Qed.

Lemma keeps_raise {A} (e : exn) : keeps R (raise e : E A).
Proof. intros w. simpl. done. Qed.

Lemma keeps_lift {A} (r : result A) : keeps R (lift r : E A).
Proof. intros w. simpl. done. Qed.

Lemma keeps_get {A} (f : W -> A) : keeps R (get f).
Proof. intros w. simpl. done. Qed.

Lemma keeps_modify (f : W -> W) : (forall w, R w (f w)) -> keeps R (modify f).
Proof. intros H w. apply H. Qed.

Lemma keeps_bind {A B} (c : E A) (k : A -> E B) :
  keeps R c -> (forall a, keeps R (k a)) -> keeps R (c ≫= k).
Proof.
  intros Hc Hk w. rewrite run_bind. specialize (Hc w).
  destruct (c w) as [w' [a|e]]; simpl in *; [|done].
  etrans; [done|apply Hk].
Qed.

Lemma keeps_for_each {A S} (body : S -> A -> E S) (l : list A) :
  (forall s x, x ∈ l -> keeps R (body s x)) ->
  forall s, keeps R (for_each body s l).
Proof.
  induction l as [|x l IH]; intros Hbody s; simpl.
  - apply keeps_ret.
  - apply keeps_bind.
    + apply Hbody, list_elem_of_here.
    + intros s'. apply IH. intros s'' y Hy. by apply Hbody, list_elem_of_further.
Qed.

Lemma keeps_get_model (l : loc) : keeps R (get_model l).
Proof. intros w. unfold get_model. by destruct (_ !! _). Qed.

Lemma keeps_get_doc (l : loc) : keeps R (get_doc (Meta:=Meta) l).
Proof. intros w. unfold get_doc. by destruct (_ !! _). Qed.

End keeps.

#[local] Instance frame_preorder (nm nd : nat) : PreOrder (frame nm nd).
Proof.
  split.
  - intros w. by split.
  - intros w1 w2 w3 [H1 H1'] [H2 H2']. split; eauto.
Qed.

Lemma frame_same_heap (nm nd : nat) (w w' : W) :
  heap_models w' = heap_models w -> heap_docs w' = heap_docs w -> frame nm nd w w'.
Proof. intros Hm Hd. split; intros; congruence. Qed.

(** One step of a proof that a computation keeps a relation. *)
Ltac keeps_step :=
  intros; cbv beta;
  lazymatch goal with
  | |- keeps _ (mret _) => apply keeps_ret; try apply _
  | |- keeps _ (raise _) => apply keeps_raise; try apply _
  | |- keeps _ (lift _) => apply keeps_lift; try apply _
  | |- keeps _ (get _) => apply keeps_get; try apply _
  | |- keeps _ (get_model _) => apply keeps_get_model; try apply _
  | |- keeps _ (get_doc _) => apply keeps_get_doc; try apply _
  | |- keeps _ (_ ≫= _) => apply keeps_bind; try apply _
  | |- keeps _ (for_each _ _ _) => apply keeps_for_each; try apply _
  | |- keeps _ (if ?b then _ else _) => destruct b
  | |- keeps _ (match ?x with _ => _ end) => destruct x
  end.

Section frame.
Context (env : Env Meta) (nm nd : nat).

Lemma frame_set_model_source (model : loc) (source : string) :
  nm <= model -> keeps (frame nm nd) (set_model_source model source).
Proof.
  intros Hle. unfold set_model_source. repeat keeps_step.
  intros. apply keeps_modify. intros w. split; [|done]. simpl.
  intros i m Hi Hm. rewrite list_lookup_insert_ne by lia. done.
Qed.

Lemma frame_do_mkstemp : keeps (frame nm nd) (do_mkstemp env).
Proof. intros w. by apply frame_same_heap. Qed.

Lemma frame_os_remove (name : string) : keeps (frame nm nd) (os_remove (Meta:=Meta) name).
Proof. intros w. unfold os_remove. destruct (decide _); by apply frame_same_heap. Qed.

Lemma frame_warn (message : string) (category : warning_category) :
  keeps (frame nm nd) (warn (Meta:=Meta) message category).
Proof. intros w. by apply frame_same_heap. Qed.

Lemma frame_call_task_executer (task_executer : TaskExecuter) task task_vars :
  keeps (frame nm nd) (call_task_executer (Meta:=Meta) task_executer task task_vars).
Proof. intros w. by apply frame_same_heap. Qed.

Lemma frame_apply_changes_to_model working_dir apply_xml_model_changes
    modified_model_filenames (model : loc) :
  nm <= model ->
  keeps (frame nm nd)
    (apply_changes_to_model env working_dir apply_xml_model_changes
       modified_model_filenames model).
Proof.
  intros Hle. unfold apply_changes_to_model.
  repeat (intros; first [apply frame_set_model_source; done
                        | apply frame_do_mkstemp | keeps_step]).
Qed.

Lemma frame_sort_tasks (doc : loc) :
  nd <= doc -> keeps (frame nm nd) (sort_tasks (Meta:=Meta) doc).
Proof.
  intros Hle. unfold sort_tasks. repeat keeps_step.
  intros. apply keeps_modify. intros w. split; [done|]. simpl.
  intros i d Hi Hd. rewrite list_lookup_insert_ne by lia. done.
Qed.

Lemma frame_execute_simulations (doc : loc) (task_executer : TaskExecuter) :
  nd <= doc -> keeps (frame nm nd) (execute_simulations env doc task_executer).
Proof.
  intros Hle. unfold execute_simulations, print_found_tasks, exec_task.
  repeat (intros; first [apply frame_sort_tasks; done
                        | apply frame_call_task_executer | keeps_step]).
Qed.

Lemma frame_calculate_data_generators (doc : loc) variable_results :
  keeps (frame nm nd) (calculate_data_generators env doc variable_results).
Proof.
  unfold calculate_data_generators, calc_data_generator. repeat keeps_step.
Qed.

Lemma frame_write_report output_df base_out_path rel_out_path id u report_format :
  keeps (frame nm nd)
    (write_report env output_df base_out_path rel_out_path id u report_format).
Proof.
  unfold write_report. repeat keeps_step.
  intros. apply keeps_modify. intros w. by apply frame_same_heap.
Qed.

Lemma frame_generate_outputs (doc : loc) data_gen_results report_formats
    base_out_path rel_out_path :
  keeps (frame nm nd)
    (generate_outputs env doc data_gen_results report_formats base_out_path
       rel_out_path).
Proof.
  unfold generate_outputs, exec_output, exec_report.
  repeat (intros; first [apply frame_warn | apply frame_write_report | keeps_step]).
Qed.

Lemma frame_cleanup_modified_models (modified_model_filenames : list string) :
  keeps (frame nm nd) (cleanup_modified_models (Meta:=Meta) modified_model_filenames).
Proof.
  unfold cleanup_modified_models.
  repeat (intros; first [apply frame_os_remove | keeps_step]).
Qed.

Lemma frame_apply_changes_to_models (doc : loc) working_dir apply_xml_model_changes
    (w : W) :
  (forall d, heap_docs w !! doc = Some d -> Forall (fun l => nm <= l) (SedDocument.models d)) ->
  frame nm nd w (apply_changes_to_models env doc working_dir apply_xml_model_changes w).1.
Proof.
  intros Hdoc. unfold apply_changes_to_models. rewrite run_bind. unfold get_doc.
  destruct (heap_docs w !! doc) as [d|] eqn:Hd; simpl; [|done].
  apply keeps_for_each; [apply _|].
  intros s l Hl. apply frame_apply_changes_to_model.
  specialize (Hdoc d eq_refl). rewrite Forall_forall in Hdoc. by apply Hdoc.
Qed.

(** What follows the changes to the models in [exec_doc]. *)
Lemma frame_after_models (doc : loc) task_executer report_formats base_out_path
    rel_out_path (modified_model_filenames : list string) :
  nd <= doc ->
  keeps (frame nm nd)
    (variable_results ← execute_simulations env doc task_executer;
     data_gen_results ← calculate_data_generators env doc variable_results;
     report_results ←
       generate_outputs env doc data_gen_results report_formats base_out_path
         rel_out_path;
     cleanup_modified_models modified_model_filenames;;
     mret (report_results, variable_results)).
Proof.
  intros Hle.
  repeat (intros; first [apply frame_execute_simulations; done
                        | apply frame_calculate_data_generators
                        | apply frame_generate_outputs
                        | apply frame_cleanup_modified_models
                        | keeps_step]).
Qed.

End frame.

(** *** Loading the document *)

Section load.
Context (env : Env Meta).

(** The references of the copy of a document are to copies of models, which
    are all new. *)
Lemma copy_loc_new (models : list Model.t) (d : SedDocument.t loc Meta) (l : loc) :
  l ∈ models_of_SedDocument d ->
  length models <= copy_loc (length models) (models_to_copy models d) l.
Proof.
  intros Hl. unfold copy_loc.
  destruct (list_find _ _) as [[i l']|] eqn:E; [lia|].
  apply list_find_None in E. rewrite Forall_forall in E.
  destruct (models !! l) as [m|] eqn:Hm.
  - exfalso. apply (E l); [|done]. unfold models_to_copy.
    apply elem_of_remove_dups, list_elem_of_filter. eauto.
  - by apply lookup_ge_None.
Qed.

Lemma deepcopy_run (l : loc) (w : W) :
  deepcopy l w =
  match heap_docs w !! l with
  | Some d =>
      let todo := models_to_copy (heap_models w) d in
      (set_heap_docs
         (heap_docs w ++ [relocate_SedDocument (copy_loc (length (heap_models w)) todo) d])
         (set_heap_models (heap_models w ++ omap (fun l => heap_models w !! l) todo) w),
       Ok (length (heap_docs w)))
  | None => (w, Raise (ReferenceError "no document at this location"))
  end.
Proof.
  unfold deepcopy. rewrite run_bind. unfold get_doc.
  by destruct (heap_docs w !! l).
Qed.

Lemma process_arguments_DocObject (l : loc) report_formats plot_formats (w : W) :
  let '(w1, r) := process_arguments env (DocObject l) report_formats plot_formats w in
  frame (length (heap_models w)) (length (heap_docs w)) w w1 /\
  match r with
  | Ok (doc, _, _) =>
      length (heap_docs w) <= doc /\
      forall d, heap_docs w1 !! doc = Some d ->
        Forall (fun l => length (heap_models w) <= l) (SedDocument.models d)
  | Raise _ => True
  end.
Proof.
  unfold process_arguments. rewrite run_bind, deepcopy_run.
  destruct (heap_docs w !! l) as [d|] eqn:Hd; cbn beta iota zeta; [|done].
  set (w1 := set_heap_docs _ _).
  assert (Hframe : frame (length (heap_models w)) (length (heap_docs w)) w w1).
  { split; intros i x Hi Hx; simpl; by apply lookup_app_l_Some. }
  assert (Hdoc : forall d', heap_docs w1 !! length (heap_docs w) = Some d' ->
            Forall (fun l => length (heap_models w) <= l) (SedDocument.models d')).
  { intros d'. simpl. rewrite list_lookup_middle by done. intros [= <-]. simpl.
    apply Forall_fmap, Forall_forall. intros l0 Hl0. simpl.
    apply copy_loc_new. unfold models_of_SedDocument. apply elem_of_app. by left. }
  rewrite !run_bind.
  destruct report_formats as [rf|]; [|destruct (default_report_formats env) as [rf|e]];
    simpl; try done;
    (destruct plot_formats as [pf|]; [|destruct (default_plot_formats env) as [pf|e']];
     simpl; done).
Qed.

End load.

(** C8.  Whatever [exec_doc] returns or raises when it is given a document of
    the store, every object that was in the store before the call is in it
    after the call as it was: the document the caller handed in, with its
    list of tasks in the order it had, every other document, and every model
    with its [source].  The updates of [exec_doc] go to the copies that
    [copy.deepcopy] makes. *)
Theorem exec_doc_leaves_the_callers_objects (env : Env Meta) (doc : loc)
    (working_dir : string) (task_executer : TaskExecuter) (base_out_path : string)
    (rel_out_path : option string) (apply_xml_model_changes : bool)
    (report_formats : option (list ReportFormat))
    (plot_formats : option (list PlotFormat)) (w : W) :
  let w' := (exec_doc env (DocObject doc) working_dir task_executer base_out_path
               rel_out_path apply_xml_model_changes report_formats plot_formats w).1 in
  (forall i d, heap_docs w !! i = Some d -> heap_docs w' !! i = Some d) /\
  (forall i m, heap_models w !! i = Some m -> heap_models w' !! i = Some m).
Proof.
  cbn zeta.
  cut (frame (length (heap_models w)) (length (heap_docs w)) w
         (exec_doc env (DocObject doc) working_dir task_executer base_out_path
            rel_out_path apply_xml_model_changes report_formats plot_formats w).1).
  { intros [Hm Hd]. split; intros i x Hx.
    - apply Hd; [|done]. by eapply lookup_lt_Some.
    - apply Hm; [|done]. by eapply lookup_lt_Some. }
  unfold exec_doc. rewrite run_bind.
  pose proof (process_arguments_DocObject env doc report_formats plot_formats w) as H.
  destruct (process_arguments _ _ _ _ w) as [w1 [[[l rfs] pfs]|e]]; [|apply H].
  destruct H as (Hframe & Hle & Hmodels).
  rewrite run_bind.
  pose proof (frame_apply_changes_to_models env _ (length (heap_docs w)) l working_dir
                apply_xml_model_changes w1 Hmodels) as H2.
  destruct (apply_changes_to_models _ _ _ _ w1) as [w2 [files|e]];
    simpl in H2; [|by etrans].
  etrans; [done|]. etrans; [done|].
  by apply frame_after_models.
Qed.

(** *** The calls of the task executor *)


Lemma insert_sorted_fmap {A B} (f : A -> B) (leb : A -> A -> bool)
    (leb' : B -> B -> bool) (x : A) (l : list A) :
  (forall x y, leb' (f x) (f y) = leb x y) ->
  insert_sorted leb' (f x) (f <$> l) = f <$> insert_sorted leb x l.
Proof.
  intros H. induction l as [|y l IH]; simpl; [done|].
  rewrite H. destruct (leb x y); simpl; [done|]. f_equal. apply IH.
Qed.

Lemma stable_sort_fmap {A B} (f : A -> B) (leb : A -> A -> bool)
    (leb' : B -> B -> bool) (l : list A) :
  (forall x y, leb' (f x) (f y) = leb x y) ->
  stable_sort leb' (f <$> l) = f <$> stable_sort leb l.
Proof.
  intros H. unfold stable_sort. induction l as [|x l IH]; csimpl; [done|].
  rewrite IH. by apply insert_sorted_fmap.
Qed.

#[local] Instance same_calls_preorder : PreOrder same_calls.
Proof.
  split.
  - intros w. by split.
  - intros w1 w2 w3 [H1 H1'] [H2 H2']. split; congruence.
Qed.

Section calls.
Context (env : Env Meta).

Lemma same_calls_set_model_source (model : loc) (source : string) :
  keeps same_calls (set_model_source (Meta:=Meta) model source).
Proof.
  unfold set_model_source. repeat keeps_step. intros. by apply keeps_modify.
Qed.

Lemma same_calls_apply_changes_to_models (doc : loc) working_dir
    apply_xml_model_changes :
  keeps same_calls
    (apply_changes_to_models env doc working_dir apply_xml_model_changes).
Proof.
  unfold apply_changes_to_models, apply_changes_to_model.
  repeat (intros; first [apply same_calls_set_model_source | keeps_step]).
  intros w. done.
Qed.

Lemma same_calls_calculate_data_generators (doc : loc) variable_results :
  keeps same_calls (calculate_data_generators env doc variable_results).
Proof.
  unfold calculate_data_generators, calc_data_generator. repeat keeps_step.
Qed.

Lemma same_calls_generate_outputs (doc : loc) data_gen_results report_formats
    base_out_path rel_out_path :
  keeps same_calls
    (generate_outputs env doc data_gen_results report_formats base_out_path
       rel_out_path).
Proof.
  unfold generate_outputs, exec_output, exec_report, write_report, warn.
  repeat (intros; first [by apply keeps_modify | keeps_step]).
Qed.

Lemma same_calls_cleanup_modified_models (modified_model_filenames : list string) :
  keeps same_calls (cleanup_modified_models (Meta:=Meta) modified_model_filenames).
Proof.
  unfold cleanup_modified_models. repeat (intros; keeps_step).
  intros s name _ w. unfold os_remove. by destruct (decide _).
Qed.

Lemma process_arguments_run (doc : doc_arg) report_formats plot_formats (w : W) :
  process_arguments env doc report_formats plot_formats w =
  match match doc with
        | DocPath path => read env path w
        | DocObject l => deepcopy l w
        end with
  | (w1, Ok l) =>
      (w1, match resolve_formats env report_formats plot_formats with
           | Ok (report_formats, plot_formats) => Ok (l, report_formats, plot_formats)
           | Raise e => Raise e
           end)
  | (w1, Raise e) => (w1, Raise e)
  end.
Proof.
  unfold process_arguments, resolve_formats. rewrite run_bind.
  destruct doc as [path|l0].
  - destruct (read env path w) as [w1 [l|e]]; [|done]. rewrite !run_bind.
    destruct report_formats as [rf|]; [|destruct (default_report_formats env) as [rf|e]];
      simpl; try done;
      (destruct plot_formats as [pf|]; [|destruct (default_plot_formats env) as [pf|e']];
       simpl; done).
  - destruct (deepcopy l0 w) as [w1 [l|e]]; [|done]. rewrite !run_bind.
    destruct report_formats as [rf|]; [|destruct (default_report_formats env) as [rf|e]];
      simpl; try done;
      (destruct plot_formats as [pf|]; [|destruct (default_plot_formats env) as [pf|e']];
       simpl; done).
Qed.

Lemma read_run (path : string) (w : W) :
  read env path w =
  match SedmlSimulationReader_run env path (heap_models w) with
  | Ok (new_models, d) =>
      (set_heap_docs (heap_docs w ++ [d])
         (set_heap_models (heap_models w ++ new_models) w),
       Ok (length (heap_docs w)))
  | Raise e => (w, Raise e)
  end.
Proof.
  unfold read. rewrite !run_bind. simpl.
  by destruct (SedmlSimulationReader_run env path (heap_models w)) as [[? ?]|?].
Qed.

(** Loading puts no call on record, and the document that is worked on has
    the tasks of the loaded document, id by id. *)
Lemma process_arguments_tasks (doc : doc_arg) report_formats plot_formats (w : W) :
  let '(w1, r) := process_arguments env doc report_formats plot_formats w in
  calls w1 = calls w /\
  match r with
  | Ok (l, _, _) =>
      exists d, heap_docs w1 !! l = Some d /\
                Task.id <$> SedDocument.tasks d = declared_task_ids env doc w
  | Raise _ => True
  end.
Proof.
  rewrite process_arguments_run. unfold declared_task_ids, loaded_document.
  destruct doc as [path|l].
  - rewrite read_run.
    destruct (SedmlSimulationReader_run env path (heap_models w))
      as [[new_models d]|e]; [|done].
    split; [done|]. destruct (resolve_formats _ _) as [[rfs pfs]|e]; [|done].
    exists d. simpl. by rewrite list_lookup_middle.
  - rewrite deepcopy_run. destruct (heap_docs w !! l) as [d|]; cbn beta iota zeta; [|done].
    split; [done|]. destruct (resolve_formats _ _) as [[rfs pfs]|e]; [|done].
    eexists. simpl. rewrite list_lookup_middle by done. split; [done|].
    simpl. by rewrite <- list_fmap_compose.
Qed.

(** What the sort leaves: the tasks of the document in ascending order. *)
Lemma sort_tasks_run (doc : loc) (d : SedDocument.t loc Meta) (w : W) :
  heap_docs w !! doc = Some d ->
  let '(w', r) := sort_tasks doc w in
  calls w' = calls w /\
  match r with
  | Ok _ => heap_docs w' !! doc
            = Some (set_tasks (stable_sort task_leb (SedDocument.tasks d)) d)
  | Raise _ => True
  end.
Proof.
  intros Hd. unfold sort_tasks. rewrite run_bind. unfold get_doc. rewrite Hd.
  destruct (_ && _); simpl; [done|]. split; [done|].
  apply list_lookup_insert_eq. by eapply lookup_lt_Some.
Qed.

(** The loop over the tasks calls the executor for the tasks in their order,
    as far as it gets; it gets through all of them when nothing is raised. *)
Lemma for_each_exec_task_calls (doc : loc) (task_executer : TaskExecuter)
    (tasks : list (Task.t loc)) variable_results (w : W) :
  let '(w', r) := for_each (exec_task env doc task_executer) variable_results tasks w in
  exists invoked,
    calls w' = calls w ++ invoked /\
    invoked.*1 `prefix_of` tasks /\
    (is_ok r = true -> invoked.*1 = tasks).
Proof.
  revert variable_results w. induction tasks as [|task tasks IH]; intros vr w; simpl.
  - exists []. rewrite app_nil_r. done.
  - rewrite run_bind. unfold exec_task at 1. rewrite run_bind. unfold get_doc.
    destruct (heap_docs w !! doc) as [d|] eqn:Hd.
    + rewrite run_bind. unfold call_task_executer at 1.
      set (task_vars := get_variables_for_task env d task).
      set (w1 := set_calls _ w).
      destruct (task_executer (heap_models w) task task_vars) as [m|e]; simpl.
      * destruct (for_each_pure _ vr task_vars) as [vr'|e]; simpl.
        -- specialize (IH vr' w1).
           destruct (for_each _ vr' tasks w1) as [w' r].
           destruct IH as (invoked & Hc & Hp & Hall).
           exists ((task, task_vars) :: invoked). simpl. split; [|split].
           ++ rewrite Hc. simpl. by rewrite <- app_assoc.
           ++ by apply prefix_cons.
           ++ intros Hr. f_equal. by apply Hall.
        -- exists [(task, task_vars)]. simpl. split; [done|].
           split; [|done]. apply prefix_cons, prefix_nil.
      * exists [(task, task_vars)]. simpl. split; [done|].
        split; [|done]. apply prefix_cons, prefix_nil.
    + exists []. rewrite app_nil_r. split; [done|]. split; [apply prefix_nil|done].
Qed.

Lemma execute_simulations_calls (doc : loc) (task_executer : TaskExecuter)
    (d : SedDocument.t loc Meta) (w : W) :
  heap_docs w !! doc = Some d ->
  let '(w', r) := execute_simulations env doc task_executer w in
  exists invoked,
    calls w' = calls w ++ invoked /\
    invoked.*1 `prefix_of` stable_sort task_leb (SedDocument.tasks d) /\
    (is_ok r = true -> invoked.*1 = stable_sort task_leb (SedDocument.tasks d)).
Proof.
  intros Hd. unfold execute_simulations. rewrite run_bind.
  pose proof (sort_tasks_run doc d w Hd) as Hsort.
  destruct (sort_tasks doc w) as [w1 [[]|e]]; destruct Hsort as [Hc1 Hd1].
  - rewrite run_bind. unfold print_found_tasks. rewrite run_bind. unfold get_doc.
    rewrite Hd1. simpl.
    destruct (existsb _ _); simpl.
    + exists []. rewrite app_nil_r. split; [done|]. split; [apply prefix_nil|done].
    + rewrite run_bind. unfold get_doc. rewrite Hd1. simpl.
      pose proof (for_each_exec_task_calls doc task_executer
                    (stable_sort task_leb (SedDocument.tasks d)) ∅ w1) as H.
      destruct (for_each _ _ _ w1) as [w' r]. by rewrite <- Hc1.
  - exists []. rewrite app_nil_r. split; [done|]. split; [apply prefix_nil|done].
Qed.

(** What follows the execution of the tasks in [exec_doc] puts no call on
    record. *)
Lemma same_calls_after_simulations (doc : loc) report_formats base_out_path
    rel_out_path (modified_model_filenames : list string) variable_results :
  keeps same_calls
    (data_gen_results ← calculate_data_generators env doc variable_results;
     report_results ←
       generate_outputs env doc data_gen_results report_formats base_out_path
         rel_out_path;
     cleanup_modified_models modified_model_filenames;;
     mret (report_results, variable_results)).
Proof.
  repeat (intros; first [apply same_calls_calculate_data_generators
                        | apply same_calls_generate_outputs
                        | apply same_calls_cleanup_modified_models
                        | keeps_step]).
Qed.

Lemma prefix_of_fmap {A B} (f : A -> B) (l1 l2 : list A) :
  l1 `prefix_of` l2 -> (f <$> l1) `prefix_of` (f <$> l2).
Proof. intros [k ->]. rewrite fmap_app. by eexists. Qed.

Lemma sorted_task_ids_of_tasks (tasks : list (Task.t loc)) :
  Task.id <$> stable_sort task_leb tasks = stable_sort id_leb (Task.id <$> tasks).
Proof. symmetry. by apply stable_sort_fmap. Qed.

End calls.

(** *** The run up to the loop over the tasks, and up to the loop over the
    outputs *)

Section stages.
Context (env : Env Meta).
Context (doc : doc_arg) (working_dir : string) (task_executer : TaskExecuter)
  (base_out_path : string) (rel_out_path : option string)
  (apply_xml_model_changes : bool) (report_formats : option (list ReportFormat))
  (plot_formats : option (list PlotFormat)).

Lemma exec_doc_before_tasks (w : W) :
  exec_doc env doc working_dir task_executer base_out_path rel_out_path
    apply_xml_model_changes report_formats plot_formats w =
  match before_tasks env doc working_dir apply_xml_model_changes report_formats
          plot_formats w with
  | (w1, Ok (l, rfs, filenames)) =>
      match heap_docs w1 !! l with
      | Some d =>
          match for_each (exec_task env l task_executer) ∅ (SedDocument.tasks d) w1 with
          | (w2, Ok variable_results) => after_tasks env base_out_path rel_out_path l rfs filenames variable_results w2
          | (w2, Raise e) => (w2, Raise e)
          end
      | None => (w1, Raise (ReferenceError "no document at this location"))
      end
  | (w1, Raise e) => (w1, Raise e)
  end.
Proof.
  unfold exec_doc, before_tasks, execute_simulations, after_tasks.
  rewrite !run_bind.
  destruct (process_arguments _ _ _ _ w) as [w1 [[[l rfs] pfs]|e]]; [|done].
  cbn beta iota zeta; rewrite ?run_bind.
  destruct (apply_changes_to_models _ _ _ _ w1) as [w2 [filenames|e]]; [|done].
  cbn beta iota zeta; rewrite ?run_bind.
  destruct (sort_tasks l w2) as [w3 [[]|e]]; [|done].
  cbn beta iota zeta; rewrite ?run_bind.
  destruct (print_found_tasks l w3) as [w4 [[]|e]]; [|done].
  cbn beta iota zeta; rewrite ?run_bind. unfold get_doc. simpl.
  destruct (heap_docs w4 !! l) as [d|]; [|done].
  cbn beta iota zeta; rewrite ?run_bind. done.
Qed.

Lemma exec_doc_before_outputs (w : W) :
  exec_doc env doc working_dir task_executer base_out_path rel_out_path
    apply_xml_model_changes report_formats plot_formats w =
  match before_outputs env doc working_dir task_executer apply_xml_model_changes
          report_formats plot_formats w with
  | (w1, Ok (l, rfs, filenames, variable_results, data_gen_results)) =>
      match heap_docs w1 !! l with
      | Some d =>
          match for_each (exec_output env data_gen_results rfs base_out_path rel_out_path)
                  ∅ (SedDocument.outputs d) w1 with
          | (w2, Ok report_results) =>
              match cleanup_modified_models filenames w2 with
              | (w3, Ok _) => (w3, Ok (report_results, variable_results))
              | (w3, Raise e) => (w3, Raise e)
              end
          | (w2, Raise e) => (w2, Raise e)
          end
      | None => (w1, Raise (ReferenceError "no document at this location"))
      end
  | (w1, Raise e) => (w1, Raise e)
  end.
Proof.
  unfold exec_doc, before_outputs, generate_outputs.
  rewrite !run_bind.
  destruct (process_arguments _ _ _ _ w) as [w1 [[[l rfs] pfs]|e]]; [|done].
  cbn beta iota zeta; rewrite ?run_bind.
  destruct (apply_changes_to_models _ _ _ _ w1) as [w2 [filenames|e]]; [|done].
  cbn beta iota zeta; rewrite ?run_bind.
  destruct (execute_simulations _ _ _ w2) as [w3 [variable_results|e]]; [|done].
  cbn beta iota zeta; rewrite ?run_bind.
  destruct (calculate_data_generators _ _ _ w3) as [w4 [data_gen_results|e]]; [|done].
  cbn beta iota zeta; rewrite ?run_bind. unfold get_doc. simpl.
  destruct (heap_docs w4 !! l) as [d|]; [|done].
  destruct (for_each _ _ _ w4) as [w5 [report_results|e]]; [|done].
  cbn beta iota zeta; rewrite ?run_bind.
  by destruct (cleanup_modified_models filenames w5) as [w6 [[]|e]].
Qed.

End stages.

(** *** The results of the variables of a task *)

Lemma names_intro (pre s post : string) : names (pre +:+ s +:+ post) s.
Proof. by exists pre, post. Qed.

Lemma string_app_cons (x : ascii) (a b : string) :
  String x a +:+ b = String x (a +:+ b).
Proof. reflexivity. Qed.

Lemma string_app_assoc (a b c : string) : (a +:+ b) +:+ c = a +:+ b +:+ c.
Proof.
  induction a as [|x a IH]; [done|]. rewrite !string_app_cons. f_equal. apply IH.
Qed.

Lemma string_app_nil_r (a : string) : a +:+ "" = a.
Proof.
  induction a as [|x a IH]; [done|]. rewrite string_app_cons. f_equal. apply IH.
Qed.

Lemma names_end (pre s : string) : names (pre +:+ s) s.
Proof. exists pre, ""%string. by rewrite string_app_nil_r. Qed.

Lemma missing_result_message_names (var : DataGeneratorVariable.t loc)
    (task : Task.t loc) :
  names (missing_result_message var task) (fmt (DataGeneratorVariable.id var)) /\
  names (missing_result_message var task) (fmt (Task.id task)).
Proof.
  unfold missing_result_message. split.
  - apply names_intro.
  - rewrite <- !string_app_assoc. apply names_end.
Qed.

#[local] Instance missing_dec task_variable_results var :
  Decision (missing task_variable_results var).
Proof. unfold missing. apply _. Defined.

Lemma record_variable_result_run (task : Task.t loc) task_variable_results
    variable_results (var : DataGeneratorVariable.t loc) :
  record_variable_result task task_variable_results variable_results var =
  match default None (task_variable_results !! DataGeneratorVariable.id var) with
  | None => Raise (ValueError (missing_result_message var task))
  | Some r =>
      Ok (<[DataGeneratorVariable.id var := Some r]> variable_results)
  end.
Proof.
  unfold record_variable_result. rewrite lookup_insert_eq. simpl.
  by destruct (default None _).
Qed.

(** The loop over the variables of a task: it raises for the first variable
    with no result, and it raises nothing when there is none. *)
Lemma record_variable_results_missing (task : Task.t loc) task_variable_results
    variable_results (vars1 vars2 : list (DataGeneratorVariable.t loc)) var :
  Forall (fun v => ~ missing task_variable_results v) vars1 ->
  missing task_variable_results var ->
  for_each_pure (record_variable_result task task_variable_results)
    variable_results (vars1 ++ var :: vars2)
  = Raise (ValueError (missing_result_message var task)).
Proof.
  intros Hvars1 Hvar. revert variable_results.
  induction Hvars1 as [|v vars1 Hv _ IH]; intros vr; simpl.
  - rewrite record_variable_result_run. unfold missing in Hvar. by rewrite Hvar.
  - rewrite record_variable_result_run. unfold missing in Hv.
    destruct (default None _) as [r|]; [apply IH|done].
Qed.

Lemma record_variable_results_complete (task : Task.t loc) task_variable_results
    variable_results (vars : list (DataGeneratorVariable.t loc)) :
  Forall (fun v => ~ missing task_variable_results v) vars ->
  exists variable_results',
    for_each_pure (record_variable_result task task_variable_results)
      variable_results vars = Ok variable_results'.
Proof.
  intros Hvars. revert variable_results.
  induction Hvars as [|v vars Hv _ IH]; intros vr; simpl; [by eexists|].
  rewrite record_variable_result_run. unfold missing in Hv.
  destruct (default None _) as [r|]; [apply IH|done].
Qed.

Lemma first_missing task_variable_results (vars : list (DataGeneratorVariable.t loc)) :
  (exists var, var ∈ vars /\ missing task_variable_results var) ->
  exists vars1 var vars2,
    vars = vars1 ++ var :: vars2 /\
    Forall (fun v => ~ missing task_variable_results v) vars1 /\
    missing task_variable_results var.
Proof.
  induction vars as [|v vars IH]; intros (var & Hin & Hvar).
  - by apply elem_of_nil in Hin.
  - destruct (decide (missing task_variable_results v)) as [Hv|Hv].
    + exists [], v, vars. done.
    + apply elem_of_cons in Hin as [->|Hin]; [done|].
      destruct IH as (vars1 & var' & vars2 & -> & H1 & H2); [by eauto|].
      exists (v :: vars1), var', vars2. split; [done|]. split; [|done].
      by constructor.
Qed.

Section missing_results.
Context (env : Env Meta).

Lemma exec_task_run (doc : loc) (task_executer : TaskExecuter) variable_results
    (task : Task.t loc) (d : SedDocument.t loc Meta) (w : W) :
  heap_docs w !! doc = Some d ->
  exec_task env doc task_executer variable_results task w =
  (set_calls (calls w ++ [(task, get_variables_for_task env d task)]) w,
   task_variable_results ←
     task_executer (heap_models w) task (get_variables_for_task env d task);
   for_each_pure (record_variable_result task task_variable_results)
     variable_results (get_variables_for_task env d task)).
Proof.
  intros Hd. unfold exec_task. rewrite run_bind. unfold get_doc. rewrite Hd.
  cbn beta iota zeta. rewrite run_bind. unfold call_task_executer.
  by destruct (task_executer _ _ _).
Qed.

(** The loop over the tasks leaves the store as it is. *)
Lemma for_each_exec_task_heap (doc : loc) (task_executer : TaskExecuter)
    (tasks : list (Task.t loc)) variable_results (w : W) :
  let w' := (for_each (exec_task env doc task_executer) variable_results tasks w).1 in
  heap_models w' = heap_models w /\ heap_docs w' = heap_docs w.
Proof.
  cbn zeta.
  assert (H : keeps (fun w w' : W => heap_models w' = heap_models w /\
                                      heap_docs w' = heap_docs w)
                (for_each (exec_task env doc task_executer) variable_results tasks)).
  { assert (PreOrder (fun w w' : W => heap_models w' = heap_models w /\
                                       heap_docs w' = heap_docs w)).
    { split; [by intros ?|]. intros ??? [??] [??]. split; congruence. }
    unfold exec_task, call_task_executer. repeat (intros; keeps_step).
    intros ?. done. }
  apply H.
Qed.

(** C3.  Let the run of [exec_doc] reach a task, whatever the order in which
    the document declares it, and let the task executor return a mapping for
    it.  If the mapping has no entry, or the entry [None], for a variable that
    is required from the task, [exec_doc] raises a [ValueError] whose message
    names the task and the first such variable; if the mapping has a result
    for each of these variables, the task raises nothing. *)
Theorem missing_variable_result (doc : doc_arg) (working_dir : string)
    (task_executer : TaskExecuter) (base_out_path : string)
    (rel_out_path : option string) (apply_xml_model_changes : bool)
    (report_formats : option (list ReportFormat))
    (plot_formats : option (list PlotFormat)) (w w1 w2 : W)
    (l : loc) (rfs : list ReportFormat) (filenames : list string)
    (d : SedDocument.t loc Meta) (before after : list (Task.t loc))
    (task : Task.t loc) variable_results task_variable_results :
  before_tasks env doc working_dir apply_xml_model_changes report_formats
    plot_formats w = (w1, Ok (l, rfs, filenames)) ->
  heap_docs w1 !! l = Some d ->
  SedDocument.tasks d = before ++ task :: after ->
  for_each (exec_task env l task_executer) ∅ before w1 = (w2, Ok variable_results) ->
  task_executer (heap_models w2) task (get_variables_for_task env d task)
    = Ok task_variable_results ->
  ((exists var, var ∈ get_variables_for_task env d task /\
                missing task_variable_results var) ->
   exists w' vars1 var vars2,
     get_variables_for_task env d task = vars1 ++ var :: vars2 /\
     Forall (fun v => ~ missing task_variable_results v) vars1 /\
     missing task_variable_results var /\
     exec_doc env doc working_dir task_executer base_out_path rel_out_path
       apply_xml_model_changes report_formats plot_formats w
     = (w', Raise (ValueError (missing_result_message var task))) /\
     names (missing_result_message var task) (fmt (DataGeneratorVariable.id var)) /\
     names (missing_result_message var task) (fmt (Task.id task))) /\
  ((forall var, var ∈ get_variables_for_task env d task ->
                ~ missing task_variable_results var) ->
   exists w' variable_results',
     exec_task env l task_executer variable_results task w2
     = (w', Ok variable_results')).
Proof.
  intros Hbefore Hd Htasks Hloop Hexec.
  pose proof (for_each_exec_task_heap l task_executer before ∅ w1) as Hheap.
  rewrite Hloop in Hheap. simpl in Hheap. destruct Hheap as [Hm2 Hd2].
  assert (Hd' : heap_docs w2 !! l = Some d) by congruence.
  split.
  - intros Hmissing.
    apply first_missing in Hmissing as (vars1 & var & vars2 & Hvars & H1 & H2).
    eexists _, vars1, var, vars2. split; [done|]. split; [done|]. split; [done|].
    split; [|apply missing_result_message_names].
    rewrite exec_doc_before_tasks, Hbefore, Hd, Htasks, run_for_each_app, Hloop.
    simpl. rewrite run_bind, (exec_task_run _ _ _ _ d) by done.
    rewrite Hexec. simpl. rewrite Hvars.
    by rewrite record_variable_results_missing.
  - intros Hcomplete. rewrite (exec_task_run _ _ _ _ d) by done.
    rewrite Hexec. simpl.
    destruct (record_variable_results_complete task task_variable_results
                variable_results (get_variables_for_task env d task))
      as [vr' Hvr']; [by apply Forall_forall|].
    rewrite Hvr'. by eexists _, _.
Qed.

End missing_results.

(** *** The reports *)

Lemma size_gt_1 `{Countable K} (X : gset K) :
  1 < size X <-> exists a b, a ∈ X /\ b ∈ X /\ a <> b.
Proof.
  split.
  - intros Hsize. destruct (size_pos_elem_of X) as [a Ha]; [lia|].
    destruct (size_pos_elem_of (X ∖ {[a]})) as [b Hb].
    { rewrite size_difference by set_solver. rewrite size_singleton. lia. }
    exists a, b. set_solver.
  - intros (a & b & Ha & Hb & Hab).
    assert (Hsub : ({[a]} ∪ {[b]} : gset K) ⊆ X) by set_solver.
    apply subseteq_size in Hsub.
    rewrite size_union, !size_singleton in Hsub by set_solver. lia.
Qed.

(** The loop over the data sets of a report gathers their labels, the results
    they are bound to, and the shapes of these. *)
Lemma collect_data_sets_bound data_gen_results (data_sets : list (DataSet.t loc))
    (results : list ndarray) labels0 results0 shapes0 :
  Forall2 (bound_result data_gen_results) data_sets results ->
  for_each_pure (collect_data_set data_gen_results) (labels0, results0, shapes0)
    data_sets
  = Ok (labels0 ++ (DataSet.label <$> data_sets), results0 ++ results,
        list_to_set (shape <$> results) ∪ shapes0).
Proof.
  intros Hbound. revert labels0 results0 shapes0.
  induction Hbound as [|data_set r data_sets results (dg & Hdg & Hr) _ IH];
    intros labels0 results0 shapes0; simpl.
  - rewrite !app_nil_r. f_equal. f_equal. set_solver.
  - rewrite Hdg. simpl. rewrite Hr. simpl. rewrite IH.
    rewrite <- !app_assoc. simpl. f_equal. f_equal. set_solver.
Qed.

Section reports.
Context (env : Env Meta).

Lemma exec_report_run data_gen_results report_formats base_out_path rel_out_path
    report_results (output : Output.report loc) (results : list ndarray) (w : W) :
  Forall2 (bound_result data_gen_results) (Output.data_sets output) results ->
  exec_report env data_gen_results report_formats base_out_path rel_out_path
    report_results output w =
  if bool_decide (1 < size (list_to_set (shape <$> results) : gset (list nat)))
  then (w, Raise (shape_error (Output.report_id output)))
  else write_table env report_formats base_out_path rel_out_path report_results output
         (DataSet.label <$> Output.data_sets output) results w.
Proof.
  intros Hbound. unfold exec_report, write_table. rewrite run_bind. unfold lift.
  rewrite (collect_data_sets_bound _ _ results) by done.
  cbn beta iota zeta. rewrite (right_id_L ∅ (∪)). simpl.
  rewrite run_bind. by case_bool_decide.
Qed.

Lemma shape_error_names (id : option string) :
  exists msg, shape_error id = ValueError msg /\ names msg (fmt id).
Proof. eexists. split; [done|]. apply names_intro. Qed.

(** C4.  Let the run of [exec_doc] reach a report whose data sets are bound
    to results of data generators.  If two of these results differ in shape,
    [exec_doc] raises a [ValueError] whose message names the report; if all
    of them have one shape (in particular if the report has no data set), the
    report raises no such error: its table is made and written. *)
Theorem report_shape_consistency (doc : doc_arg) (working_dir : string)
    (task_executer : TaskExecuter) (base_out_path : string)
    (rel_out_path : option string) (apply_xml_model_changes : bool)
    (report_formats : option (list ReportFormat))
    (plot_formats : option (list PlotFormat)) (w w1 w2 : W)
    (l : loc) (rfs : list ReportFormat) (filenames : list string)
    variable_results data_gen_results
    (d : SedDocument.t loc Meta) (before after : list (Output.t loc))
    (report : Output.report loc) report_results (results : list ndarray) :
  before_outputs env doc working_dir task_executer apply_xml_model_changes
    report_formats plot_formats w
    = (w1, Ok (l, rfs, filenames, variable_results, data_gen_results)) ->
  heap_docs w1 !! l = Some d ->
  SedDocument.outputs d = before ++ Output.Report report :: after ->
  for_each (exec_output env data_gen_results rfs base_out_path rel_out_path)
    ∅ before w1 = (w2, Ok report_results) ->
  Forall2 (bound_result data_gen_results) (Output.data_sets report) results ->
  ((exists a b, a ∈ results /\ b ∈ results /\ shape a <> shape b) ->
   exists msg,
     exec_doc env doc working_dir task_executer base_out_path rel_out_path
       apply_xml_model_changes report_formats plot_formats w
     = (w2, Raise (ValueError msg)) /\
     shape_error (Output.report_id report) = ValueError msg /\
     names msg (fmt (Output.report_id report))) /\
  ((forall a b, a ∈ results -> b ∈ results -> shape a = shape b) ->
   exec_output env data_gen_results rfs base_out_path rel_out_path report_results
     (Output.Report report) w2
   = write_table env rfs base_out_path rel_out_path report_results report
       (DataSet.label <$> Output.data_sets report) results w2).
Proof.
  intros Hbefore Hd Houtputs Hloop Hbound. split.
  - intros (a & b & Ha & Hb & Hab).
    destruct (shape_error_names (Output.report_id report)) as (msg & Hmsg & Hnames).
    exists msg. split; [|done].
    rewrite exec_doc_before_outputs, Hbefore, Hd, Houtputs, run_for_each_app, Hloop.
    simpl. rewrite run_bind, (exec_report_run _ _ _ _ _ _ results) by done.
    rewrite bool_decide_eq_true_2; [by rewrite Hmsg|].
    apply size_gt_1. exists (shape a), (shape b).
    rewrite !elem_of_list_to_set, !list_elem_of_fmap. eauto 10.
  - intros Hsame. simpl. rewrite (exec_report_run _ _ _ _ _ _ results) by done.
    rewrite bool_decide_eq_false_2; [done|].
    rewrite size_gt_1. intros (x & y & Hx & Hy & Hxy).
    apply elem_of_list_to_set, list_elem_of_fmap in Hx as (a & -> & Ha).
    apply elem_of_list_to_set, list_elem_of_fmap in Hy as (b & -> & Hb).
    by apply Hxy, Hsame.
Qed.

(** *** The writing of a table *)

(** The table is written once in every format. *)
Lemma write_reports_run output_df base_out_path rel_out_path id path
    (report_formats : list ReportFormat) (w : W) :
  report_path env rel_out_path id = Ok path ->
  Forall (fun report_format =>
            ReportWriter_run env output_df base_out_path path report_format = Ok tt)
    report_formats ->
  for_each (write_report env output_df base_out_path rel_out_path id) tt
    report_formats w
  = (set_written
       (written w ++ ((fun report_format =>
                         (output_df, base_out_path, path, report_format))
                      <$> report_formats)) w,
     Ok tt).
Proof.
  intros Hpath Hformats. revert w.
  induction Hformats as [|report_format report_formats Hrun _ IH]; intros w; simpl.
  - rewrite app_nil_r. by destruct w.
  - rewrite run_bind. unfold write_report at 1. rewrite !run_bind. unfold lift.
    rewrite Hpath. cbn beta iota zeta. rewrite run_bind, Hrun. simpl.
    rewrite IH. simpl. by rewrite <- app_assoc.
Qed.

End reports.

End run.
End ExecFacts.

(** ** More properties of [exec_doc] *)

Module ExecMore.

Import Exec Spec ExecSpec ExecFacts.

#[local] Set Warnings "-clear-no-such-hyp".

#[local] Existing Instance exec_ret.
#[local] Existing Instance exec_bind.

Section run.
Context {Meta : Type}.

Abbreviation W := (World Meta).
Abbreviation E := (exec Meta).
Abbreviation keeps := (Spec.keeps (Meta:=Meta)).
Abbreviation same_calls := (Spec.same_calls (Meta:=Meta)).

#[local] Instance same_preorder {A} (part : W -> A) : PreOrder (same part).
Proof.
  split.
  - intros w. reflexivity.
  - intros w1 w2 w3 H1 H2. unfold same in *. congruence.
Qed.

#[local] Instance quiet_preorder : PreOrder (quiet (Meta:=Meta)).
Proof.
  split.
  - intros w. by split.
  - intros w1 w2 w3 [H1 H1'] [H2 H2']. split; congruence.
Qed.

#[local] Instance same_calls_preorder' : PreOrder same_calls.
Proof.
  split.
  - intros w. by split.
  - intros w1 w2 w3 [H1 H1'] [H2 H2']. split; congruence.
Qed.

(** One step of a proof that a computation keeps a relation. *)
Ltac keeps_step :=
  intros; cbv beta;
  lazymatch goal with
  | |- keeps _ (mret _) => apply keeps_ret; try apply _
  | |- keeps _ (raise _) => apply keeps_raise; try apply _
  | |- keeps _ (lift _) => apply keeps_lift; try apply _
  | |- keeps _ (get _) => apply keeps_get; try apply _
  | |- keeps _ (get_model _) => apply keeps_get_model; try apply _
  | |- keeps _ (get_doc _) => apply keeps_get_doc; try apply _
  | |- keeps _ (_ ≫= _) => apply keeps_bind; try apply _
  | |- keeps _ (for_each _ _ _) => apply keeps_for_each; try apply _
  | |- keeps _ (if ?b then _ else _) => destruct b
  | |- keeps _ (match ?x with _ => _ end) => destruct x
  end.

(** A stage of the run that only reads or updates the part of the world that
    a relation does not look at keeps the relation. *)
Ltac keeps_all :=
  repeat (intros; first [ by apply keeps_modify | keeps_step ]).

Lemma keeps_call_task_executer (R : relation W) (task_executer : TaskExecuter)
    task task_vars :
  (forall w v, R w (set_calls v w)) ->
  keeps R (call_task_executer task_executer task task_vars).
Proof. intros H w. apply H. Qed.

Lemma keeps_do_mkstemp (R : relation W) (env : Env Meta) :
  (forall w v, R w (set_files v w)) -> keeps R (do_mkstemp env).
Proof. intros H w. apply H. Qed.

Lemma keeps_os_remove (R : relation W) `{!Reflexive R} (name : string) :
  (forall w v, R w (set_files v w)) -> keeps R (os_remove name).
Proof. intros H w. unfold os_remove. destruct (decide _); [apply H|done]. Qed.

(** A computation keeps a relation that does not look at the parts of the
    world which the computation updates. *)
Ltac keeps_world :=
  repeat (intros;
          first [ apply keeps_modify; intros ?; by unfold same, quiet
                | apply keeps_call_task_executer; intros; by unfold same, quiet
                | apply keeps_do_mkstemp; intros; by unfold same, quiet
                | apply keeps_os_remove; [apply _|intros; by unfold same, quiet]
                | keeps_step ]).

Section stages.
Context (env : Env Meta).

(** *** The stages of a run, and the parts of the world they leave alone *)

Lemma keeps_process_arguments {A} (part : W -> A) doc report_formats plot_formats :
  (forall v w, part (set_heap_models v w) = part w) ->
  (forall v w, part (set_heap_docs v w) = part w) ->
  keeps (same part) (process_arguments env doc report_formats plot_formats).
Proof.
  intros Hm Hd. unfold process_arguments, read, deepcopy.
  repeat (intros; first [ apply keeps_modify; intros w; unfold same; by rewrite ?Hm, ?Hd
                        | keeps_step ]).
Qed.

(** What loading leaves: the document that is worked on, and the formats. *)
Lemma process_arguments_returns doc report_formats plot_formats (w wa : W)
    (l : loc) rfs pfs :
  process_arguments env doc report_formats plot_formats w = (wa, Ok (l, rfs, pfs)) ->
  resolve_formats env report_formats plot_formats = Ok (rfs, pfs) /\
  exists d d0, loaded_document env doc w = Some d /\ copy_of d d0 /\
               heap_docs wa !! l = Some d0.
Proof.
  rewrite process_arguments_run. unfold loaded_document.
  destruct doc as [path|l0].
  - rewrite read_run.
    destruct (SedmlSimulationReader_run env path (heap_models w))
      as [[new_models d]|e]; [|done].
    destruct (resolve_formats _ _ _) as [[rfs' pfs']|e]; [|done].
    intros [= <- <- <- <-]. split; [done|]. exists d, d. split; [done|].
    split; [by left|]. simpl. by rewrite list_lookup_middle.
  - rewrite deepcopy_run. destruct (heap_docs w !! l0) as [d|]; [|done].
    cbn beta iota zeta.
    destruct (resolve_formats _ _ _) as [[rfs' pfs']|e]; [|done].
    intros [= <- <- <- <-]. split; [done|]. eexists d, _. split; [done|].
    split; [right; by eexists|]. simpl. by rewrite list_lookup_middle.
Qed.

(** The stages of [before_tasks] when it returns. *)
Lemma before_tasks_returns doc working_dir apply_xml_model_changes report_formats
    plot_formats (w w1 : W) (l : loc) rfs fns :
  before_tasks env doc working_dir apply_xml_model_changes report_formats
    plot_formats w = (w1, Ok (l, rfs, fns)) ->
  exists wa wb pfs,
    process_arguments env doc report_formats plot_formats w = (wa, Ok (l, rfs, pfs)) /\
    apply_changes_to_models env l working_dir apply_xml_model_changes wa
      = (wb, Ok fns) /\
    sort_tasks l wb = (w1, Ok tt) /\
    print_found_tasks l w1 = (w1, Ok tt).
Proof.
  unfold before_tasks. rewrite run_bind.
  destruct (process_arguments _ _ _ _ w) as [wa [[[l' rfs'] pfs]|e]]; [|done].
  cbn beta iota zeta; rewrite ?run_bind.
  destruct (apply_changes_to_models _ _ _ _ wa) as [wb [fns'|e]] eqn:Hmodels; [|done].
  cbn beta iota zeta; rewrite ?run_bind.
  destruct (sort_tasks l' wb) as [wc [[]|e]] eqn:Hsort; [|done].
  cbn beta iota zeta; rewrite ?run_bind.
  destruct (print_found_tasks l' wc) as [wd [[]|e]] eqn:Hprint; [|done].
  simpl. intros [= <- <- <- <-].
  assert (wd = wc) as ->.
  { revert Hprint. unfold print_found_tasks. rewrite run_bind. unfold get_doc.
    destruct (heap_docs wc !! l'); [|done].
    destruct (existsb _ _); [done|]. by intros [= ->]. }
  by exists wa, wb, pfs.
Qed.

(** The document that the run works on once its tasks are sorted. *)
Lemma before_tasks_document doc working_dir apply_xml_model_changes report_formats
    plot_formats (w w1 : W) (l : loc) rfs fns :
  before_tasks env doc working_dir apply_xml_model_changes report_formats
    plot_formats w = (w1, Ok (l, rfs, fns)) ->
  exists d d0,
    loaded_document env doc w = Some d /\ copy_of d d0 /\
    heap_docs w1 !! l
    = Some (set_tasks (stable_sort task_leb (SedDocument.tasks d0)) d0) /\
    Forall (fun task => has_no_id task = false) (SedDocument.tasks d0).
Proof.
  intros (wa & wb & pfs & Hload & Hmodels & Hsort & Hprint)%before_tasks_returns.
  apply process_arguments_returns in Hload as (_ & d & d0 & Hd & Hcopy & Hd0).
  exists d, d0. split; [done|]. split; [done|].
  pose proof (same_calls_apply_changes_to_models env l working_dir
                apply_xml_model_changes wa) as [_ Hdocs].
  rewrite Hmodels in Hdocs. simpl in Hdocs.
  pose proof (sort_tasks_run l d0 wb) as Hs. rewrite Hdocs, Hsort in Hs.
  destruct (Hs Hd0) as [_ Hd1]. split; [done|].
  revert Hprint. unfold print_found_tasks. rewrite run_bind. unfold get_doc.
  rewrite Hd1. cbn beta iota zeta.
  destruct (existsb _ _) eqn:Hex; [done|]. intros _.
  apply Forall_forall. intros task Htask.
  destruct (has_no_id task) eqn:Hno; [|done]. exfalso.
  assert (existsb has_no_id (stable_sort task_leb (SedDocument.tasks d0)) = true);
    [|simpl in Hex; congruence].
  apply existsb_exists. exists task. split; [|done].
  apply list_elem_of_In. by rewrite (PyOrderFacts.stable_sort_Permutation task_leb).
Qed.

Lemma keeps_calc_data_generators {A} (part : W -> A) variable_results
    (data_gens : list (DataGenerator.t loc)) data_gen_results :
  keeps (same part)
    (for_each (calc_data_generator env variable_results) data_gen_results data_gens).
Proof. unfold calc_data_generator. keeps_all. Qed.

(** The stages of [exec_doc] when it returns. *)
Lemma exec_doc_returns (doc : doc_arg) (working_dir : string)
    (task_executer : TaskExecuter) (base_out_path : string)
    (rel_out_path : option string) (apply_xml_model_changes : bool)
    (report_formats : option (list ReportFormat))
    (plot_formats : option (list PlotFormat)) (w w' : W)
    (report_results : OutputResults) (variable_results : DataGeneratorVariableResults) :
  exec_doc env doc working_dir task_executer base_out_path rel_out_path
    apply_xml_model_changes report_formats plot_formats w
  = (w', Ok (report_results, variable_results)) ->
  exists (w1 w2 w3 w4 : W) l rfs fns d (data_gen_results : DataGeneratorResults),
    before_tasks env doc working_dir apply_xml_model_changes report_formats
      plot_formats w = (w1, Ok (l, rfs, fns)) /\
    heap_docs w1 !! l = Some d /\
    for_each (exec_task env l task_executer) ∅ (SedDocument.tasks d) w1
      = (w2, Ok variable_results) /\
    for_each (calc_data_generator env variable_results) ∅
      (SedDocument.data_generators d) w2 = (w3, Ok data_gen_results) /\
    for_each (exec_output env data_gen_results rfs base_out_path rel_out_path) ∅
      (SedDocument.outputs d) w3 = (w4, Ok report_results) /\
    cleanup_modified_models fns w4 = (w', Ok tt).
Proof.
  rewrite exec_doc_before_tasks.
  destruct (before_tasks _ _ _ _ _ _ w) as [w1 [[[l rfs] fns]|e]] eqn:Hbefore; [|done].
  destruct (heap_docs w1 !! l) as [d|] eqn:Hd; [|done].
  pose proof (for_each_exec_task_heap env l task_executer (SedDocument.tasks d) ∅ w1)
    as Hheap.
  destruct (for_each _ _ _ w1) as [w2 [vr|e]] eqn:Htasks; [|done].
  simpl in Hheap. destruct Hheap as [_ Hd2].
  unfold after_tasks. rewrite run_bind. unfold calculate_data_generators.
  rewrite run_bind. unfold get_doc. rewrite Hd2, Hd. cbn beta iota zeta.
  pose proof (keeps_calc_data_generators heap_docs vr (SedDocument.data_generators d)
                ∅ w2) as Hd3. unfold same in Hd3.
  destruct (for_each _ _ _ w2) as [w3 [dgr|e]] eqn:Hcalc; [|done].
  simpl in Hd3. cbn beta iota zeta. rewrite run_bind. unfold generate_outputs.
  rewrite run_bind. unfold get_doc. rewrite Hd3, Hd2, Hd. cbn beta iota zeta.
  destruct (for_each _ _ _ w3) as [w4 [rr|e]] eqn:Houtputs; [|done].
  cbn beta iota zeta. rewrite run_bind.
  destruct (cleanup_modified_models fns w4) as [w5 [[]|e]] eqn:Hcleanup; [|done].
  simpl. intros [= <- <- <-].
  by exists w1, w2, w3, w4, l, rfs, fns, d, dgr.
Qed.

(** *** Temporary files *)

Lemma files_process_arguments doc report_formats plot_formats :
  keeps (same files) (process_arguments env doc report_formats plot_formats).
Proof. by apply keeps_process_arguments. Qed.

Lemma files_sort_and_print (l : loc) :
  keeps (same files) (sort_tasks l;; print_found_tasks (Meta:=Meta) l).
Proof. unfold sort_tasks, print_found_tasks. keeps_world. Qed.

Lemma files_tasks (l : loc) (task_executer : TaskExecuter) variable_results
    (tasks : list (Task.t loc)) :
  keeps (same files) (for_each (exec_task env l task_executer) variable_results tasks).
Proof. unfold exec_task. keeps_world. Qed.

Lemma files_outputs data_gen_results rfs base_out_path rel_out_path report_results
    (outputs : list (Output.t loc)) :
  keeps (same files)
    (for_each (exec_output env data_gen_results rfs base_out_path rel_out_path)
       report_results outputs).
Proof. unfold exec_output, exec_report, write_report, warn. keeps_world. Qed.

Lemma set_model_source_run (model : loc) (source : string) (w : W) :
  set_model_source model source w =
  match heap_models w !! model with
  | Some m =>
      (set_heap_models (<[model := Model.set_source (Some source) m]> (heap_models w)) w,
       Ok tt)
  | None => (w, Raise (ReferenceError "no model at this location"))
  end.
Proof.
  unfold set_model_source. rewrite run_bind. unfold get_model.
  by destruct (heap_models w !! model).
Qed.

Lemma files_set_model_source (model : loc) (source : string) :
  keeps (same files) (set_model_source (Meta:=Meta) model source).
Proof. unfold set_model_source. keeps_world. Qed.

(** One turn of the loop over the models makes at most one temporary file,
    and puts its name on record. *)
Lemma apply_changes_to_model_files working_dir apply_xml_model_changes
    (names names' : list string) (model : loc) (w w' : W) :
  apply_changes_to_model env working_dir apply_xml_model_changes names model w
    = (w', Ok names') ->
  (names' = names /\ files w' = files w) \/
  (apply_xml_model_changes = true /\
   names' = names ++ [mkstemp env (files w)] /\
   files w' = {[mkstemp env (files w)]} ∪ files w).
Proof.
  unfold apply_changes_to_model. rewrite run_bind. unfold get_model.
  destruct (heap_models w !! model) as [m|]; [|done]. cbn beta iota zeta.
  rewrite run_bind.
  destruct (Model.source m) as [source|]; [|done].
  unfold mret at 1, exec_ret at 1. cbn beta iota zeta. rewrite run_bind.
  assert (Hsource : exists w1 r,
    (if isabs env source then mret source
     else set_model_source model (path_join env working_dir source);;
          mret (path_join env working_dir source)) w = (w1, r) /\ files w1 = files w).
  { destruct (isabs env source); [by eexists _, _|].
    rewrite run_bind.
    pose proof (files_set_model_source model (path_join env working_dir source) w) as H.
    destruct (set_model_source _ _ w) as [w1 [[]|e]]; by eexists _, _. }
  destruct Hsource as (w1 & r & -> & Hfiles1). destruct r as [source'|e]; [|done].
  destruct apply_xml_model_changes; simpl; [|intros [= <- <-]; by left].
  case_bool_decide; simpl; [|intros [= <- <-]; by left].
  rewrite run_bind. unfold do_mkstemp at 1. cbn beta iota zeta. rewrite run_bind.
  unfold lift at 1.
  destruct (apply_changes_to_xml_model env _ _ _) as [[]|e]; [|done].
  cbn beta iota zeta. rewrite run_bind.
  match goal with |- context [set_model_source ?a ?b ?c] =>
    pose proof (files_set_model_source a b c) as Hfiles2;
    destruct (set_model_source a b c) as [w2 [[]|e]]; [|done] end.
  simpl. intros [= <- <-]. right. unfold same in Hfiles2. simpl in Hfiles2.
  rewrite Hfiles1 in *. done.
Qed.

(** The loop over the models: the names on record are those of the temporary
    files it made, which are new and distinct when [mkstemp] makes a file
    that does not exist yet. *)
Lemma apply_changes_to_models_files working_dir apply_xml_model_changes
    (models : list loc) (names names' : list string) (w w' : W) :
  (forall existing, mkstemp env existing ∉ existing) ->
  for_each (apply_changes_to_model env working_dir apply_xml_model_changes) names
    models w = (w', Ok names') ->
  exists new,
    names' = names ++ new /\ NoDup new /\
    files w' = list_to_set new ∪ files w /\
    (forall name, name ∈ new -> name ∉ files w).
Proof.
  intros Hfresh. revert names w.
  induction models as [|model models IH]; intros names w; simpl.
  - intros [= <- <-]. exists []. rewrite app_nil_r. split; [done|].
    split; [constructor|]. split; set_solver.
  - rewrite run_bind.
    destruct (apply_changes_to_model _ _ _ names model w) as [w1 [names1|e]] eqn:Hstep;
      [|done].
    intros Hrest. apply IH in Hrest as (new & -> & Hnodup & Hfiles & Hnew).
    apply apply_changes_to_model_files in Hstep as [[-> Hfiles1]|(_ & -> & Hfiles1)].
    + exists new. rewrite Hfiles, Hfiles1. split; [done|]. split; [done|].
      split; [done|]. intros name Hname. rewrite <- Hfiles1. by apply Hnew.
    + exists (mkstemp env (files w) :: new). rewrite <- app_assoc. split; [done|].
      split; [|split].
      * constructor; [|done]. intros Hin. apply Hnew in Hin. set_solver.
      * rewrite Hfiles, Hfiles1. set_solver.
      * intros name [->|Hname]%elem_of_cons; [apply Hfresh|].
        apply Hnew in Hname. set_solver.
Qed.

(** Without [apply_xml_model_changes] the loop makes no file. *)
Lemma apply_changes_to_models_no_files working_dir (models : list loc)
    (names : list string) (w : W) :
  let '(w', r) := for_each (apply_changes_to_model env working_dir false) names
                    models w in
  files w' = files w /\ (forall names', r = Ok names' -> names' = names).
Proof.
  revert names w. induction models as [|model models IH]; intros names w; simpl.
  - split; [done|]. by intros ? [= <-].
  - rewrite run_bind.
    assert (Hkeeps : keeps (same files)
              (apply_changes_to_model env working_dir false names model)).
    { unfold apply_changes_to_model, set_model_source. simpl. keeps_world. }
    specialize (Hkeeps w). unfold same in Hkeeps.
    destruct (apply_changes_to_model _ _ _ names model w) as [w1 [names1|e]] eqn:Hstep;
      simpl in Hkeeps; [|done].
    apply apply_changes_to_model_files in Hstep as [[-> _]|(? & _)]; [|done].
    specialize (IH names w1). destruct (for_each _ _ _ w1) as [w' r].
    destruct IH as [IH1 IH2]. split; [congruence|done].
Qed.

(** The loop that removes the temporary files: each of the files is there,
    and is removed. *)
Lemma cleanup_modified_models_run (names : list string) (w : W) :
  NoDup names -> (forall name, name ∈ names -> name ∈ files w) ->
  exists w', cleanup_modified_models names w = (w', Ok tt) /\
             files w' = files w ∖ list_to_set names.
Proof.
  unfold cleanup_modified_models. intros Hnodup. revert w.
  induction Hnodup as [|name names Hname Hnodup IH]; intros w Hin; simpl.
  - eexists. split; [done|]. set_solver.
  - rewrite run_bind. unfold os_remove at 1.
    rewrite decide_True by (apply Hin; constructor).
    destruct (IH (set_files (files w ∖ {[name]}) w)) as (w' & -> & Hfiles').
    { intros name' Hname'. simpl. apply elem_of_difference. split.
      - apply Hin. by constructor.
      - intros ->%elem_of_singleton. done. }
    exists w'. split; [done|]. rewrite Hfiles'. simpl. set_solver.
Qed.

Lemma files_before_tasks doc working_dir apply_xml_model_changes report_formats
    plot_formats (w w1 : W) (l : loc) rfs fns :
  (forall existing, mkstemp env existing ∉ existing) ->
  before_tasks env doc working_dir apply_xml_model_changes report_formats
    plot_formats w = (w1, Ok (l, rfs, fns)) ->
  NoDup fns /\ files w1 = list_to_set fns ∪ files w /\
  (forall name, name ∈ fns -> name ∉ files w).
Proof.
  intros Hfresh (wa & wb & pfs & Hload & Hmodels & Hsort & Hprint)%before_tasks_returns.
  pose proof (files_process_arguments doc report_formats plot_formats w) as Ha.
  rewrite Hload in Ha. unfold same in Ha. simpl in Ha.
  revert Hmodels. unfold apply_changes_to_models. rewrite run_bind. unfold get_doc.
  destruct (heap_docs wa !! l) as [d|]; [|done]. cbn beta iota zeta.
  intros (new & -> & Hnodup & Hfiles & Hnew)%apply_changes_to_models_files; [|done].
  pose proof (files_sort_and_print l wb) as Hb. unfold same in Hb.
  rewrite run_bind, Hsort, Hprint in Hb. simpl in Hb.
  rewrite Hb, Hfiles, Ha. simpl. split; [done|]. split; [done|].
  intros name Hname. rewrite <- Ha. by apply Hnew.
Qed.

(** X4.  When [tempfile.mkstemp] makes a file that did not exist and
    [exec_doc] returns, every temporary file that was made for a changed model
    has been removed: the files that exist are those that existed before the
    call. *)
Theorem temporary_files_removed_on_return (doc : doc_arg) (working_dir : string)
    (task_executer : TaskExecuter) (base_out_path : string)
    (rel_out_path : option string) (apply_xml_model_changes : bool)
    (report_formats : option (list ReportFormat))
    (plot_formats : option (list PlotFormat)) (w w' : W)
    (report_results : OutputResults) (variable_results : DataGeneratorVariableResults) :
  (forall existing, mkstemp env existing ∉ existing) ->
  exec_doc env doc working_dir task_executer base_out_path rel_out_path
    apply_xml_model_changes report_formats plot_formats w
  = (w', Ok (report_results, variable_results)) ->
  files w' = files w.
Proof.
  intros Hfresh (w1 & w2 & w3 & w4 & l & rfs & fns & d & dgr & Hbefore & Hd & Htasks
                 & Hcalc & Houtputs & Hcleanup)%exec_doc_returns.
  apply files_before_tasks in Hbefore as (Hnodup & Hfiles1 & Hnew); [|done].
  pose proof (files_tasks l task_executer ∅ (SedDocument.tasks d) w1) as H2.
  rewrite Htasks in H2.
  pose proof (keeps_calc_data_generators files variable_results
                (SedDocument.data_generators d) ∅ w2) as H3.
  rewrite Hcalc in H3.
  pose proof (files_outputs dgr rfs base_out_path rel_out_path ∅
                (SedDocument.outputs d) w3) as H4.
  rewrite Houtputs in H4. unfold same in *. simpl in *.
  destruct (cleanup_modified_models_run fns w4) as (w5 & Hrun & Hfiles5); [done|..].
  { intros name Hname. rewrite H4, H3, H2, Hfiles1. set_solver. }
  rewrite Hrun in Hcleanup. injection Hcleanup as <-.
  rewrite Hfiles5, H4, H3, H2, Hfiles1. set_solver.
Qed.

(** X5.  Without [apply_xml_model_changes], [exec_doc] makes and removes no
    temporary file, whatever it returns or raises. *)
Theorem no_temporary_file_without_model_changes (doc : doc_arg)
    (working_dir : string) (task_executer : TaskExecuter) (base_out_path : string)
    (rel_out_path : option string) (report_formats : option (list ReportFormat))
    (plot_formats : option (list PlotFormat)) (w : W) :
  files (exec_doc env doc working_dir task_executer base_out_path rel_out_path
           false report_formats plot_formats w).1 = files w.
Proof.
  unfold exec_doc. rewrite run_bind.
  pose proof (files_process_arguments doc report_formats plot_formats w) as Ha.
  destruct (process_arguments _ _ _ _ w) as [wa [[[l rfs] pfs]|e]]; [|done].
  unfold same in Ha. simpl in Ha. rewrite <- Ha.
  cbn beta iota zeta. rewrite run_bind. unfold apply_changes_to_models at 1.
  rewrite run_bind. unfold get_doc at 1.
  destruct (heap_docs wa !! l) as [d|]; [|done]. cbn beta iota zeta.
  pose proof (apply_changes_to_models_no_files working_dir (SedDocument.models d) [] wa)
    as Hb.
  destruct (for_each _ _ _ wa) as [wb [fns|e]]; destruct Hb as [Hb Hfns]; [|done].
  rewrite (Hfns fns eq_refl), <- Hb.
  assert (Hrest : keeps (same files)
    (variable_results ← execute_simulations env l task_executer;
     data_gen_results ← calculate_data_generators env l variable_results;
     report_results ←
       generate_outputs env l data_gen_results rfs base_out_path rel_out_path;
     cleanup_modified_models [];;
     mret (report_results, variable_results))).
  { unfold execute_simulations, sort_tasks, print_found_tasks, exec_task,
      calculate_data_generators, calc_data_generator, generate_outputs, exec_output,
      exec_report, write_report, warn, cleanup_modified_models.
    keeps_world. }
  apply Hrest.
Qed.

(** *** What comes before the outputs *)

Lemma copy_of_task_ids (d d0 : SedDocument.t loc Meta) :
  copy_of d d0 -> Task.id <$> SedDocument.tasks d0 = Task.id <$> SedDocument.tasks d.
Proof.
  intros [->|[f ->]]; [done|]. simpl. by rewrite <- list_fmap_compose.
Qed.

Lemma quiet_before_tasks doc working_dir apply_xml_model_changes report_formats
    plot_formats :
  keeps quiet (before_tasks env doc working_dir apply_xml_model_changes
                 report_formats plot_formats).
Proof.
  unfold before_tasks, process_arguments, read, deepcopy, apply_changes_to_models,
    apply_changes_to_model, set_model_source, sort_tasks, print_found_tasks.
  keeps_world.
Qed.

Lemma calls_before_tasks doc working_dir apply_xml_model_changes report_formats
    plot_formats :
  keeps (same calls) (before_tasks env doc working_dir apply_xml_model_changes
                        report_formats plot_formats).
Proof.
  unfold before_tasks, process_arguments, read, deepcopy, apply_changes_to_models,
    apply_changes_to_model, set_model_source, sort_tasks, print_found_tasks.
  keeps_world.
Qed.

Lemma quiet_tasks (l : loc) (task_executer : TaskExecuter) variable_results
    (tasks : list (Task.t loc)) :
  keeps quiet (for_each (exec_task env l task_executer) variable_results tasks).
Proof. unfold exec_task. keeps_world. Qed.





(** X6.  [exec_doc] generates outputs only once every task has been executed:
    if a call has written a report or issued a warning, then the task executor
    has been called for all the tasks of the document, in ascending order of
    their ids. *)
Theorem outputs_follow_the_tasks (doc : doc_arg) (working_dir : string)
    (task_executer : TaskExecuter) (base_out_path : string)
    (rel_out_path : option string) (apply_xml_model_changes : bool)
    (report_formats : option (list ReportFormat))
    (plot_formats : option (list PlotFormat)) (w : W) :
  let '(w', r) := exec_doc env doc working_dir task_executer base_out_path
                    rel_out_path apply_xml_model_changes report_formats
                    plot_formats w in
  exists invoked,
    calls w' = calls w ++ invoked /\
    (written w' <> written w \/ warnings w' <> warnings w ->
     Task.id <$> invoked.*1 = sorted_task_ids env doc w).
Proof.
  rewrite exec_doc_before_tasks.
  pose proof (quiet_before_tasks doc working_dir apply_xml_model_changes
                report_formats plot_formats w) as Hq1.
  pose proof (calls_before_tasks doc working_dir apply_xml_model_changes
                report_formats plot_formats w) as Hc1. unfold same in Hc1.
  destruct (before_tasks _ _ _ _ _ _ w) as [w1 [[[l rfs] fns]|e]] eqn:Hbefore;
    simpl in Hq1, Hc1; destruct Hq1 as [Hw1 Hn1].
  2:{ exists []. rewrite app_nil_r. split; [done|]. intros [?|?]; congruence. }
  apply before_tasks_document in Hbefore as (d & d0 & Hd & Hcopy & Hd1 & _).
  rewrite Hd1. cbn [SedDocument.tasks set_tasks].
  pose proof (quiet_tasks l task_executer ∅ (stable_sort task_leb (SedDocument.tasks d0))
                w1) as Hq2.
  pose proof (for_each_exec_task_calls env l task_executer
                (stable_sort task_leb (SedDocument.tasks d0)) ∅ w1) as Hc2.
  destruct (for_each _ _ _ w1) as [w2 [variable_results|e]];
    destruct Hq2 as [Hw2 Hn2]; destruct Hc2 as (invoked & Hc2 & _ & Hall);
    simpl in Hw2, Hn2.
  2:{ exists invoked. split; [congruence|]. intros [?|?]; congruence. }
  pose proof (same_calls_after_simulations env l rfs base_out_path rel_out_path
                fns variable_results w2) as [Hc3 _].
  unfold after_tasks.
  match type of Hc3 with calls (?c).1 = _ => destruct c as [w3 r] end.
  simpl in Hc3. exists invoked. split; [congruence|]. intros _.
  rewrite (Hall eq_refl), sorted_task_ids_of_tasks.
  unfold sorted_task_ids, declared_task_ids. rewrite Hd. simpl.
  by rewrite (copy_of_task_ids d d0).
Qed.

(** X7.  A task with no id is an error: when the document has a task whose
    [id] is [None], [exec_doc] raises, and it does so before the task
    executor is called for any task. *)
Theorem task_without_id_is_an_error (doc : doc_arg) (working_dir : string)
    (task_executer : TaskExecuter) (base_out_path : string)
    (rel_out_path : option string) (apply_xml_model_changes : bool)
    (report_formats : option (list ReportFormat))
    (plot_formats : option (list PlotFormat)) (w : W) :
  None ∈ declared_task_ids env doc w ->
  let '(w', r) := exec_doc env doc working_dir task_executer base_out_path
                    rel_out_path apply_xml_model_changes report_formats
                    plot_formats w in
  is_ok r = false /\ calls w' = calls w.
Proof.
  intros Hnone. rewrite exec_doc_before_tasks.
  pose proof (calls_before_tasks doc working_dir apply_xml_model_changes
                report_formats plot_formats w) as Hc1. unfold same in Hc1.
  destruct (before_tasks _ _ _ _ _ _ w) as [w1 [[[l rfs] fns]|e]] eqn:Hbefore;
    [exfalso|done].
  apply before_tasks_document in Hbefore as (d & d0 & Hd & Hcopy & _ & Hids).
  unfold declared_task_ids in Hnone. rewrite Hd in Hnone. simpl in Hnone.
  rewrite <- (copy_of_task_ids d d0) in Hnone by done.
  apply list_elem_of_fmap in Hnone as (task & Hid & Htask).
  rewrite Forall_forall in Hids. specialize (Hids task Htask).
  unfold has_no_id in Hids. by rewrite bool_decide_eq_true_2 in Hids.
Qed.

(** *** The results of the variables *)

(** The loop over the variables of a task records, for each of them, the
    result that the task executor returned. *)
Lemma record_variable_results_returns (task : Task.t loc)
    (task_variable_results variable_results variable_results'
       : DataGeneratorVariableResults)
    (vars : list (DataGeneratorVariable.t loc)) :
  for_each_pure (record_variable_result task task_variable_results)
    variable_results vars = Ok variable_results' ->
  forall k v, variable_results' !! k = Some v ->
    variable_results !! k = Some v \/
    (k ∈ DataGeneratorVariable.id <$> vars /\
     task_variable_results !! k = Some v /\ is_Some v).
Proof.
  revert variable_results. induction vars as [|var vars IH]; intros vr; simpl.
  - intros [= <-] k v Hk. by left.
  - rewrite record_variable_result_run.
    destruct (task_variable_results !! DataGeneratorVariable.id var) as [[r|]|] eqn:Hr;
      simpl; [|done..].
    intros Hrest k v Hk. destruct (IH _ Hrest k v Hk) as [Hk'|(Hin & Hv & Hsome)].
    + destruct (decide (DataGeneratorVariable.id var = k)) as [<-|Hne].
      * rewrite lookup_insert_eq in Hk'. injection Hk' as <-. right.
        split; [constructor|]. by split.
      * rewrite lookup_insert_ne in Hk' by done. by left.
    + right. split; [by constructor|]. by split.
Qed.

(** The loop over the tasks: a result on record is one that the task executor
    returned in one of its calls. *)
Lemma for_each_exec_task_returns (l : loc) (task_executer : TaskExecuter)
    (d : SedDocument.t loc Meta) (tasks : list (Task.t loc))
    (variable_results variable_results' : DataGeneratorVariableResults) (w w' : W) :
  heap_docs w !! l = Some d ->
  for_each (exec_task env l task_executer) variable_results tasks w
    = (w', Ok variable_results') ->
  forall k v, variable_results' !! k = Some v ->
    variable_results !! k = Some v \/
    exists task vars returned,
      (task, vars) ∈ calls w' /\ task ∈ tasks /\
      vars = get_variables_for_task env d task /\
      k ∈ DataGeneratorVariable.id <$> vars /\
      task_executer (heap_models w) task vars = Ok returned /\
      returned !! k = Some v /\ is_Some v.
Proof.
  intros Hd. revert variable_results w Hd.
  induction tasks as [|task tasks IH]; intros vr w Hd; simpl.
  - intros [= <- <-] k v Hk. by left.
  - rewrite run_bind, (exec_task_run env l task_executer vr task d w Hd).
    destruct (task_executer _ _ _) as [returned|e] eqn:Hexec; [|done]. simpl.
    destruct (for_each_pure _ vr _) as [vr1|e] eqn:Hrecord; [|done].
    set (w1 := set_calls _ w). intros Hrest.
    pose proof (for_each_exec_task_calls env l task_executer tasks vr1 w1) as Hcalls.
    rewrite Hrest in Hcalls. destruct Hcalls as (invoked & Hcalls & _).
    intros k v Hk.
    destruct (IH vr1 w1 Hd Hrest k v Hk)
      as [Hk'|(task' & vars & returned' & Hin & Htask' & Hvars & Hkin & Hexec' & Hv)].
    + destruct (record_variable_results_returns _ _ _ _ _ Hrecord k v Hk')
        as [?|(Hkin & Hv & Hsome)]; [by left|].
      right. exists task, (get_variables_for_task env d task), returned.
      split; [|split; [constructor|done]].
      rewrite Hcalls. subst w1. simpl. set_solver.
    + right. exists task', vars, returned'.
      split; [done|]. split; [by constructor|done].
Qed.

(** X8.  When [exec_doc] returns, every result of a variable that it returns
    was returned by the task executor, for that variable, in a call for a task
    of the document, and it is a result indeed: none of them is [None]. *)
Theorem returned_variable_results (doc : doc_arg) (working_dir : string)
    (task_executer : TaskExecuter) (base_out_path : string)
    (rel_out_path : option string) (apply_xml_model_changes : bool)
    (report_formats : option (list ReportFormat))
    (plot_formats : option (list PlotFormat)) (w w' : W)
    (report_results : OutputResults) (variable_results : DataGeneratorVariableResults) :
  exec_doc env doc working_dir task_executer base_out_path rel_out_path
    apply_xml_model_changes report_formats plot_formats w
  = (w', Ok (report_results, variable_results)) ->
  forall k v, variable_results !! k = Some v ->
    is_Some v /\
    exists task vars returned,
      (task, vars) ∈ calls w' /\
      k ∈ DataGeneratorVariable.id <$> vars /\
      task_executer (heap_models w') task vars = Ok returned /\
      returned !! k = Some v.
Proof.
  intros (w1 & w2 & w3 & w4 & l & rfs & fns & d & dgr & Hbefore & Hd & Htasks
          & Hcalc & Houtputs & Hcleanup)%exec_doc_returns k v Hk.
  destruct (for_each_exec_task_returns l task_executer d _ _ _ _ _ Hd Htasks k v Hk)
    as [Hk'|(task & vars & returned & Hin & _ & _ & Hkin & Hexec & Hv & Hsome)];
    [by rewrite lookup_empty in Hk'|].
  split; [done|]. exists task, vars, returned.
  pose proof (for_each_exec_task_heap env l task_executer (SedDocument.tasks d) ∅ w1)
    as Hheap.
  rewrite Htasks in Hheap. simpl in Hheap. destruct Hheap as [Hm2 _].
  assert (Hafter : same heap_models w2 w' /\ same calls w2 w').
  { pose proof (keeps_calc_data_generators heap_models variable_results
                  (SedDocument.data_generators d) ∅ w2) as Hm3.
    pose proof (keeps_calc_data_generators calls variable_results
                  (SedDocument.data_generators d) ∅ w2) as Hc3.
    rewrite Hcalc in Hm3, Hc3.
    assert (Hout : forall {A} (part : W -> A),
              (forall v w, part (set_warnings v w) = part w) ->
              (forall v w, part (set_written v w) = part w) ->
              same part w3 w4).
    { intros A part H1 H2.
      assert (Hk4 : keeps (same part)
                (for_each (exec_output env dgr rfs base_out_path rel_out_path) ∅
                   (SedDocument.outputs d))).
      { unfold exec_output, exec_report, write_report, warn.
        repeat (intros; first [ apply keeps_modify; intros ?; unfold same;
                                by rewrite ?H1, ?H2
                              | keeps_step ]). }
      specialize (Hk4 w3). by rewrite Houtputs in Hk4. }
    assert (Hclean : forall {A} (part : W -> A),
              (forall v w, part (set_files v w) = part w) -> same part w4 w').
    { intros A part H1.
      assert (Hk5 : keeps (same part) (cleanup_modified_models (Meta:=Meta) fns)).
      { unfold cleanup_modified_models.
        repeat (intros; first [ apply keeps_os_remove;
                                [apply _|intros; unfold same; by rewrite H1]
                              | keeps_step ]). }
      specialize (Hk5 w4). by rewrite Hcleanup in Hk5. }
    split.
    - etrans; [exact Hm3|]. etrans; [by apply Hout|by apply Hclean].
    - etrans; [exact Hc3|]. etrans; [by apply Hout|by apply Hclean]. }
  destruct Hafter as [Hm Hc]. unfold same in Hm, Hc.
  rewrite Hc, Hm, Hm2. done.
Qed.

(** *** The results of the data generators *)

Lemma calc_data_generators_returns (variable_results : DataGeneratorVariableResults)
    (data_gens : list (DataGenerator.t loc))
    (data_gen_results data_gen_results' : DataGeneratorResults) (w w' : W) :
  for_each (calc_data_generator env variable_results) data_gen_results data_gens w
    = (w', Ok data_gen_results') ->
  w' = w /\
  dom data_gen_results'
  = dom data_gen_results ∪ list_to_set (DataGenerator.id <$> data_gens) /\
  forall k r, data_gen_results' !! k = Some r ->
    data_gen_results !! k = Some r \/
    exists data_gen, data_gen ∈ data_gens /\ DataGenerator.id data_gen = k /\
                     calc_data_generator_results env data_gen variable_results = Ok r.
Proof.
  revert data_gen_results w.
  induction data_gens as [|data_gen data_gens IH]; intros dgr w; simpl.
  - intros [= <- <-]. split; [done|]. split; [set_solver|]. intros k r Hk. by left.
  - rewrite run_bind. unfold calc_data_generator at 1. rewrite run_bind. unfold lift.
    destruct (calc_data_generator_results env data_gen variable_results) as [r0|e]
      eqn:Hcalc; [|done].
    cbn beta iota zeta. unfold mret at 1, exec_ret at 1.
    intros (-> & Hdom & Hval)%IH. split; [done|]. split.
    + rewrite Hdom, dom_insert_L. set_solver.
    + intros k r Hk. destruct (Hval k r Hk) as [Hk'|(dg & Hin & Hid & Hr)].
      * destruct (decide (DataGenerator.id data_gen = k)) as [<-|Hne].
        -- rewrite lookup_insert_eq in Hk'. injection Hk' as <-. right.
           exists data_gen. split; [constructor|done].
        -- rewrite lookup_insert_ne in Hk' by done. by left.
      * right. exists dg. split; [by constructor|done].
Qed.

(** The stages of [before_outputs] when it returns. *)
Lemma before_outputs_returns (doc : doc_arg) (working_dir : string)
    (task_executer : TaskExecuter) (apply_xml_model_changes : bool)
    (report_formats : option (list ReportFormat))
    (plot_formats : option (list PlotFormat)) (w w3 : W) (l : loc)
    (rfs : list ReportFormat) (fns : list string)
    (variable_results : DataGeneratorVariableResults)
    (data_gen_results : DataGeneratorResults) :
  before_outputs env doc working_dir task_executer apply_xml_model_changes
    report_formats plot_formats w
  = (w3, Ok (l, rfs, fns, variable_results, data_gen_results)) ->
  exists (w1 w2 : W) d,
    before_tasks env doc working_dir apply_xml_model_changes report_formats
      plot_formats w = (w1, Ok (l, rfs, fns)) /\
    heap_docs w1 !! l = Some d /\ heap_docs w3 !! l = Some d /\
    for_each (exec_task env l task_executer) ∅ (SedDocument.tasks d) w1
      = (w2, Ok variable_results) /\
    for_each (calc_data_generator env variable_results) ∅
      (SedDocument.data_generators d) w2 = (w3, Ok data_gen_results).
Proof.
  unfold before_outputs, before_tasks, execute_simulations. rewrite !run_bind.
  destruct (process_arguments _ _ _ _ w) as [wa [[[l' rfs'] pfs]|e]]; [|done].
  cbn beta iota zeta; rewrite ?run_bind.
  destruct (apply_changes_to_models _ _ _ _ wa) as [wb [fns'|e]]; [|done].
  cbn beta iota zeta; rewrite ?run_bind.
  destruct (sort_tasks l' wb) as [wc [[]|e]]; [|done].
  cbn beta iota zeta; rewrite ?run_bind.
  destruct (print_found_tasks l' wc) as [w1 [[]|e]]; [|done].
  cbn beta iota zeta; rewrite ?run_bind. unfold get_doc at 1.
  destruct (heap_docs w1 !! l') as [d|] eqn:Hd; [|done].
  cbn beta iota zeta.
  pose proof (for_each_exec_task_heap env l' task_executer (SedDocument.tasks d) ∅ w1)
    as Hheap.
  destruct (for_each _ _ _ w1) as [w2 [vr|e]] eqn:Htasks; [|done].
  simpl in Hheap. destruct Hheap as [_ Hd2].
  cbn beta iota zeta; rewrite ?run_bind. unfold calculate_data_generators.
  rewrite run_bind. unfold get_doc. rewrite Hd2, Hd. cbn beta iota zeta.
  destruct (for_each _ _ _ w2) as [w3' [dgr|e]] eqn:Hcalc; [|done].
  simpl. intros [= <- <- <- <- <- <-].
  exists w1, w2, d. apply calc_data_generators_returns in Hcalc as Hw. 
  destruct Hw as [-> _]. rewrite Hd2. done.
Qed.

(** X9.  When the run of [exec_doc] gets to the outputs, the results of the
    data generators are those of the data generators of the document, by
    their ids: every id of a data generator has a result, and every result is
    what [calc_data_generator_results] makes of a data generator of this id
    and of the results of the variables. *)
Theorem data_generator_results (doc : doc_arg) (working_dir : string)
    (task_executer : TaskExecuter) (apply_xml_model_changes : bool)
    (report_formats : option (list ReportFormat))
    (plot_formats : option (list PlotFormat)) (w w1 : W) (l : loc)
    (rfs : list ReportFormat) (fns : list string)
    (variable_results : DataGeneratorVariableResults)
    (data_gen_results : DataGeneratorResults) (d : SedDocument.t loc Meta) :
  before_outputs env doc working_dir task_executer apply_xml_model_changes
    report_formats plot_formats w
  = (w1, Ok (l, rfs, fns, variable_results, data_gen_results)) ->
  heap_docs w1 !! l = Some d ->
  dom data_gen_results
  = list_to_set (DataGenerator.id <$> SedDocument.data_generators d) /\
  forall k r, data_gen_results !! k = Some r ->
    exists data_gen,
      data_gen ∈ SedDocument.data_generators d /\ DataGenerator.id data_gen = k /\
      calc_data_generator_results env data_gen variable_results = Ok r.
Proof.
  intros (w0 & w2 & d' & _ & _ & Hd' & _ & Hcalc)%before_outputs_returns Hd.
  assert (d' = d) as -> by congruence.
  apply calc_data_generators_returns in Hcalc as (_ & Hdom & Hval).
  split; [rewrite Hdom; set_solver|].
  intros k r Hk. destruct (Hval k r Hk) as [Hk'|?]; [|done].
  by rewrite lookup_empty in Hk'.
Qed.

(** *** The reports *)

(** The loop over the data sets of a report, when it gets through. *)
Lemma collect_data_sets_returns (data_gen_results : DataGeneratorResults)
    (data_sets : list (DataSet.t loc)) labels0 results0 shapes0 labels results shapes :
  for_each_pure (collect_data_set data_gen_results) (labels0, results0, shapes0)
    data_sets = Ok (labels, results, shapes) ->
  exists new,
    Forall2 (bound_result data_gen_results) data_sets new /\
    labels = labels0 ++ (DataSet.label <$> data_sets) /\
    results = results0 ++ new.
Proof.
  revert labels0 results0 shapes0.
  induction data_sets as [|data_set data_sets IH]; intros labels0 results0 shapes0;
    simpl.
  - intros [= <- <- <-]. exists []. rewrite !app_nil_r. by split; [constructor|].
  - destruct (DataSet.data_generator data_set) as [dg|] eqn:Hdg; [|done]. simpl.
    destruct (data_gen_results !! DataGenerator.id dg) as [r|] eqn:Hr; [|done]. simpl.
    intros (new & Hbound & -> & ->)%IH. exists (r :: new).
    rewrite <- !app_assoc. split; [|done]. constructor; [|done]. by exists dg.
Qed.

(** The loop over the formats of a report, when it gets through. *)
Lemma write_reports_returns (output_df : DataFrame) (base_out_path : string)
    (rel_out_path : option string) (id : option string)
    (report_formats : list ReportFormat) (w w' : W) :
  for_each (write_report env output_df base_out_path rel_out_path id) tt
    report_formats w = (w', Ok tt) ->
  warnings w' = warnings w /\
  exists new,
    written w' = written w ++ new /\
    Forall2 (fun '(df, base, path, format) report_format =>
               df = output_df /\ base = base_out_path /\
               report_path env rel_out_path id = Ok path /\
               format = report_format) new report_formats.
Proof.
  revert w. induction report_formats as [|report_format report_formats IH];
    intros w; simpl.
  - intros [= <-]. split; [done|]. exists []. rewrite app_nil_r. by split; [|constructor].
  - rewrite run_bind. unfold write_report at 1. rewrite !run_bind. unfold lift.
    destruct (report_path env rel_out_path id) as [path|e] eqn:Hpath; [|done].
    cbn beta iota zeta. rewrite run_bind.
    destruct (ReportWriter_run env _ _ _ _) as [[]|e]; [|done]. simpl.
    intros (Hwarn & new & Hnew & Hall)%IH. simpl in Hwarn, Hnew. split; [done|].
    exists ((output_df, base_out_path, path, report_format) :: new).
    rewrite Hnew, <- app_assoc. split; [done|]. by constructor.
Qed.

(** What a report leaves when it raises nothing: its table in the results,
    the warning for labels that are not unique, and a call of the report
    writer for every format. *)
Lemma exec_report_returns (data_gen_results : DataGeneratorResults)
    (report_formats : list ReportFormat) (base_out_path : string)
    (rel_out_path : option string) (report_results report_results' : OutputResults)
    (report : Output.report loc) (w w' : W) :
  exec_report env data_gen_results report_formats base_out_path rel_out_path
    report_results report w = (w', Ok report_results') ->
  exists output_df,
    table_of env data_gen_results report output_df /\
    report_results' = <[Output.report_id report := output_df]> report_results /\
    warnings w' = warnings w ++ option_list (warning_of (Output.Report report)) /\
    exists new,
      written w' = written w ++ new /\
      Forall2 (written_as env data_gen_results base_out_path rel_out_path) new
        ((fun report_format => (report, report_format)) <$> report_formats).
Proof.
  unfold exec_report. rewrite run_bind. unfold lift at 1.
  destruct (for_each_pure _ _ _) as [[[labels results] shapes]|e] eqn:Hcollect; [|done].
  apply collect_data_sets_returns in Hcollect as (new & Hbound & -> & ->).
  cbn beta iota zeta. rewrite run_bind.
  case_bool_decide; [done|]. unfold mret at 1, exec_ret at 1. cbn beta iota zeta.
  rewrite run_bind. simpl app.
  set (w1 := (if has_duplicates (DataSet.label <$> Output.data_sets report)
              then set_warnings (warnings w ++ [duplicate_labels_warning]) w else w)).
  assert (Hwarn : (if has_duplicates (DataSet.label <$> Output.data_sets report)
                   then warn "To facilitate machine interpretation, data sets should have unique ids"
                          IllogicalSedmlWarning
                   else mret tt) w = (w1, Ok tt)).
  { subst w1. by destruct (has_duplicates _). }
  rewrite !app_nil_l, Hwarn. cbn beta iota zeta. rewrite run_bind. unfold lift at 1.
  destruct (pandas_DataFrame env new _) as [output_df|e] eqn:Hdf; [|done].
  cbn beta iota zeta. rewrite run_bind.
  destruct (for_each _ tt report_formats w1) as [w2 [[]|e]] eqn:Hwrite; [|done].
  simpl. intros [= <- <-].
  apply write_reports_returns in Hwrite as (Hwarn2 & calls & Hcalls & Hall).
  assert (Htable : table_of env data_gen_results report output_df) by by exists new.
  exists output_df. split; [done|]. split; [done|]. split.
  - rewrite Hwarn2. subst w1. simpl. destruct (has_duplicates _); simpl; [done|].
    by rewrite app_nil_r.
  - exists calls. split.
    + rewrite Hcalls. subst w1. by destruct (has_duplicates _).
    + apply Forall2_fmap_r. eapply Forall2_impl; [done|].
      intros [[[df base] path] format] report_format (-> & H2 & H3 & H4). done.
Qed.

(** The loop over the outputs, when it gets through. *)
Lemma exec_outputs_returns (data_gen_results : DataGeneratorResults)
    (report_formats : list ReportFormat) (base_out_path : string)
    (rel_out_path : option string) (outputs : list (Output.t loc))
    (report_results report_results' : OutputResults) (w w' : W) :
  for_each (exec_output env data_gen_results report_formats base_out_path
              rel_out_path) report_results outputs w = (w', Ok report_results') ->
  dom report_results'
  = dom report_results ∪ list_to_set (Output.report_id <$> omap report_of outputs) /\
  (forall id output_df, report_results' !! id = Some output_df ->
     report_results !! id = Some output_df \/
     exists report, report ∈ omap report_of outputs /\ Output.report_id report = id /\
                    table_of env data_gen_results report output_df) /\
  warnings w' = warnings w ++ omap warning_of outputs /\
  exists new,
    written w' = written w ++ new /\
    Forall2 (written_as env data_gen_results base_out_path rel_out_path) new
      (report ← omap report_of outputs;
       (fun report_format => (report, report_format)) <$> report_formats).
Proof.
  revert report_results w.
  induction outputs as [|output outputs IH]; intros rr w; simpl.
  - intros [= <- <-]. split; [set_solver|]. split; [by left|].
    rewrite app_nil_r. split; [done|]. exists []. rewrite app_nil_r.
    by split; [|constructor].
  - rewrite run_bind.
    destruct (exec_output _ _ _ _ _ rr output w) as [w1 [rr1|e]] eqn:Hstep; [|done].
    intros (Hdom & Hval & Hwarn & new & Hnew & Hall)%IH.
    destruct output as [report|plot|plot]; simpl in Hstep.
    + apply exec_report_returns
        in Hstep as (output_df & Htable & -> & Hwarn1 & new1 & Hnew1 & Hall1).
      split; [|split; [|split]].
      * rewrite Hdom, dom_insert_L. simpl. set_solver.
      * intros id df Hid. destruct (Hval id df Hid) as [Hid'|(r & Hin & Hr & Ht)].
        -- destruct (decide (Output.report_id report = id)) as [<-|Hne].
           ++ rewrite lookup_insert_eq in Hid'. injection Hid' as <-. right.
              exists report. split; [constructor|done].
           ++ rewrite lookup_insert_ne in Hid' by done. by left.
        -- right. exists r. split; [by constructor|done].
      * rewrite Hwarn, Hwarn1. cbn [omap]. 
        destruct (warning_of (Output.Report report)); simpl;
          by rewrite <- app_assoc.
      * exists (new1 ++ new). rewrite Hnew, Hnew1, <- app_assoc. split; [done|].
        cbn [omap report_of]. rewrite bind_cons. by apply Forall2_app.
    + rewrite run_bind in Hstep. simpl in Hstep. injection Hstep as <- <-.
      split; [done|]. split; [done|]. split.
      * rewrite Hwarn. simpl. by rewrite <- app_assoc.
      * by exists new.
    + rewrite run_bind in Hstep. simpl in Hstep. injection Hstep as <- <-.
      split; [done|]. split; [done|]. split.
      * rewrite Hwarn. simpl. by rewrite <- app_assoc.
      * by exists new.
Qed.

(** Copies have the reports of the original, by their ids, and give rise to
    the same warnings. *)
Lemma warning_of_relocate (f : loc -> loc) (output : Output.t loc) :
  warning_of (relocate_Output f output) = warning_of output.
Proof.
  destruct output as [r|p|p]; simpl; [|done..].
  by rewrite <- list_fmap_compose.
Qed.

Lemma report_id_relocate (f : loc -> loc) (outputs : list (Output.t loc)) :
  Output.report_id <$> omap report_of (relocate_Output f <$> outputs)
  = Output.report_id <$> omap report_of outputs.
Proof.
  induction outputs as [|[r|p|p] outputs IH]; [done|..].
  - rewrite fmap_cons. cbn [omap list_omap relocate_Output report_of].
    rewrite !fmap_cons. f_equal. apply IH.
  - rewrite fmap_cons. cbn [omap list_omap relocate_Output report_of]. apply IH.
  - rewrite fmap_cons. cbn [omap list_omap relocate_Output report_of]. apply IH.
Qed.

Lemma copy_of_report_ids (d d0 : SedDocument.t loc Meta) :
  copy_of d d0 -> Output.report_id <$> reports d0 = Output.report_id <$> reports d.
Proof. intros [->|[f ->]]; [done|]. apply report_id_relocate. Qed.

Lemma copy_of_warnings (d d0 : SedDocument.t loc Meta) :
  copy_of d d0 ->
  omap warning_of (SedDocument.outputs d0) = omap warning_of (SedDocument.outputs d).
Proof.
  intros [->|[f ->]]; [done|]. cbn [SedDocument.outputs relocate_SedDocument].
  induction (SedDocument.outputs d) as [|output outputs IH]; [done|].
  rewrite fmap_cons. cbn [omap list_omap]. rewrite warning_of_relocate.
  destruct (warning_of output); [f_equal|]; apply IH.
Qed.

(** What is left of the world by the stages that follow the tasks, but for
    the loop over the outputs. *)
Lemma cleanup_modified_models_quiet (fns : list string) :
  keeps quiet (cleanup_modified_models (Meta:=Meta) fns).
Proof. unfold cleanup_modified_models. keeps_world. Qed.

(** A run that returns, seen from its outputs. *)
Lemma exec_doc_returns_outputs (doc : doc_arg) (working_dir : string)
    (task_executer : TaskExecuter) (base_out_path : string)
    (rel_out_path : option string) (apply_xml_model_changes : bool)
    (report_formats : option (list ReportFormat))
    (plot_formats : option (list PlotFormat)) (w w' : W)
    (report_results : OutputResults) (variable_results : DataGeneratorVariableResults) :
  exec_doc env doc working_dir task_executer base_out_path rel_out_path
    apply_xml_model_changes report_formats plot_formats w
  = (w', Ok (report_results, variable_results)) ->
  exists d d0 rfs pfs (data_gen_results : DataGeneratorResults) (w3 w4 : W),
    loaded_document env doc w = Some d /\ copy_of d d0 /\
    resolve_formats env report_formats plot_formats = Ok (rfs, pfs) /\
    for_each (exec_output env data_gen_results rfs base_out_path rel_out_path) ∅
      (SedDocument.outputs d0) w3 = (w4, Ok report_results) /\
    quiet w w3 /\ quiet w4 w' /\
    forall k r, data_gen_results !! k = Some r ->
      exists data_gen,
        data_gen ∈ SedDocument.data_generators d0 /\ DataGenerator.id data_gen = k /\
        calc_data_generator_results env data_gen variable_results = Ok r.
Proof.
  intros (w1 & w2 & w3 & w4 & l & rfs & fns & d1 & dgr & Hbefore & Hd1 & Htasks
          & Hcalc & Houtputs & Hcleanup)%exec_doc_returns.
  pose proof (quiet_before_tasks doc working_dir apply_xml_model_changes
                report_formats plot_formats w) as Hq1.
  rewrite Hbefore in Hq1. simpl in Hq1.
  pose proof (quiet_tasks l task_executer ∅ (SedDocument.tasks d1) w1) as Hq2.
  rewrite Htasks in Hq2. simpl in Hq2.
  pose proof (cleanup_modified_models_quiet fns w4) as Hq5.
  rewrite Hcleanup in Hq5. simpl in Hq5.
  apply before_tasks_returns in Hbefore as Hstages.
  destruct Hstages as (wa & wb & pfs & [Hformats _]%process_arguments_returns & _).
  apply before_tasks_document in Hbefore as (d & d0 & Hd & Hcopy & Hd1' & _).
  rewrite Hd1' in Hd1. injection Hd1 as <-. simpl in Hcalc, Houtputs.
  apply calc_data_generators_returns in Hcalc as (-> & _ & Hval).
  exists d, d0, rfs, pfs, dgr, w2, w4.
  split; [done|]. split; [done|]. split; [done|]. split; [done|].
  split; [by etrans|]. split; [done|].
  intros k r Hk. destruct (Hval k r Hk) as [Hk'|?]; [|done].
  by rewrite lookup_empty in Hk'.
Qed.

(** X10.  When [exec_doc] returns, the results of the reports that it returns
    have a table for the id of each report of the document, and for nothing
    else: plots have no result. *)
Theorem returned_reports (doc : doc_arg) (working_dir : string)
    (task_executer : TaskExecuter) (base_out_path : string)
    (rel_out_path : option string) (apply_xml_model_changes : bool)
    (report_formats : option (list ReportFormat))
    (plot_formats : option (list PlotFormat)) (w w' : W)
    (report_results : OutputResults) (variable_results : DataGeneratorVariableResults)
    (d : SedDocument.t loc Meta) :
  exec_doc env doc working_dir task_executer base_out_path rel_out_path
    apply_xml_model_changes report_formats plot_formats w
  = (w', Ok (report_results, variable_results)) ->
  loaded_document env doc w = Some d ->
  dom report_results = list_to_set (Output.report_id <$> reports d).
Proof.
  intros (d' & d0 & rfs & pfs & dgr & w3 & w4 & Hd' & Hcopy & _ & Houtputs & _)
         %exec_doc_returns_outputs Hd.
  assert (d' = d) as -> by congruence.
  apply exec_outputs_returns in Houtputs as (Hdom & _).
  rewrite Hdom, <- (copy_of_report_ids d d0) by done. unfold reports. set_solver.
Qed.

(** X11.  When [exec_doc] returns, each table that it returns is the table of
    a report of the document that it worked on (the document read from the
    file, or the copy of the document handed in): the table that
    [pandas.DataFrame] makes of one row for each data set of the report, in
    the order of the data sets, with the labels of the data sets as its index.
    The row of a data set is what [calc_data_generator_results] makes of the
    returned results of the variables for a data generator of the document
    with the id of the data generator of the data set. *)
Theorem returned_tables (doc : doc_arg) (working_dir : string)
    (task_executer : TaskExecuter) (base_out_path : string)
    (rel_out_path : option string) (apply_xml_model_changes : bool)
    (report_formats : option (list ReportFormat))
    (plot_formats : option (list PlotFormat)) (w w' : W)
    (report_results : OutputResults) (variable_results : DataGeneratorVariableResults)
    (d : SedDocument.t loc Meta) :
  exec_doc env doc working_dir task_executer base_out_path rel_out_path
    apply_xml_model_changes report_formats plot_formats w
  = (w', Ok (report_results, variable_results)) ->
  loaded_document env doc w = Some d ->
  exists d0, copy_of d d0 /\
    forall id output_df, report_results !! id = Some output_df ->
      exists report rows,
        report ∈ reports d0 /\ Output.report_id report = id /\
        Forall2 (row_of env d0 variable_results) (Output.data_sets report) rows /\
        pandas_DataFrame env rows (DataSet.label <$> Output.data_sets report)
          = Ok output_df.
Proof.
  intros (d' & d0 & rfs & pfs & dgr & w3 & w4 & Hd' & Hcopy & _ & Houtputs & _ & _
          & Hdgr)%exec_doc_returns_outputs Hd.
  assert (d' = d) as -> by congruence.
  exists d0. split; [done|]. intros id output_df Hid.
  apply exec_outputs_returns in Houtputs as (_ & Hval & _).
  destruct (Hval id output_df Hid) as [Hid'|(report & Hin & Hrid & rows & Hrows & Hdf)];
    [by rewrite lookup_empty in Hid'|].
  exists report, rows. split; [done|]. split; [done|]. split; [|done].
  eapply Forall2_impl; [done|].
  intros data_set r (referred & Hreferred & Hr).
  destruct (Hdgr _ _ Hr) as (data_gen & Hdg & Hdgid & Hcalc).
  by exists referred, data_gen.
Qed.

(** X12.  When [exec_doc] returns, the report writer has been called exactly
    once for each report of the document and each report format, report by
    report in the order of the document and, for a report, in the order of
    the formats, each time for [base_out_path] and the path of the report
    ([rel_out_path] joined with its id, or the id alone). *)
Theorem reports_written_once_per_format (doc : doc_arg) (working_dir : string)
    (task_executer : TaskExecuter) (base_out_path : string)
    (rel_out_path : option string) (apply_xml_model_changes : bool)
    (report_formats : option (list ReportFormat))
    (plot_formats : option (list PlotFormat)) (w w' : W)
    (report_results : OutputResults) (variable_results : DataGeneratorVariableResults)
    (d : SedDocument.t loc Meta) (rfs : list ReportFormat) (pfs : list PlotFormat) :
  exec_doc env doc working_dir task_executer base_out_path rel_out_path
    apply_xml_model_changes report_formats plot_formats w
  = (w', Ok (report_results, variable_results)) ->
  loaded_document env doc w = Some d ->
  resolve_formats env report_formats plot_formats = Ok (rfs, pfs) ->
  exists new,
    written w' = written w ++ new /\
    Forall2 (written_at env base_out_path rel_out_path) new
      (id ← Output.report_id <$> reports d;
       (fun report_format => (id, report_format)) <$> rfs).
Proof.
  intros (d' & d0 & rfs' & pfs' & dgr & w3 & w4 & Hd' & Hcopy & Hformats' & Houtputs
          & [Hw3 _] & [Hw' _] & _)%exec_doc_returns_outputs Hd Hformats.
  assert (d' = d) as -> by congruence.
  assert (rfs' = rfs) as -> by congruence.
  apply exec_outputs_returns in Houtputs as (_ & _ & _ & new & Hnew & Hall).
  exists new. split; [congruence|].
  rewrite <- (copy_of_report_ids d d0) by done. unfold reports.
  revert Hall. generalize (omap report_of (SedDocument.outputs d0)). clear.
  intros rs. revert new. induction rs as [|r rs IH]; intros new.
  - intros ->%Forall2_nil_inv_r. constructor.
  - rewrite fmap_cons, !bind_cons. intros (new1 & new2 & H1 & H2 & ->)%Forall2_app_inv_r.
    apply Forall2_app; [|by apply IH].
    rewrite Forall2_fmap_r in H1. rewrite Forall2_fmap_r.
    eapply Forall2_impl; [exact H1|].
    intros [[[df base] path] format] report_format (_ & ? & ? & ?). done.
Qed.

(** X13.  When [exec_doc] returns, the warnings that it has issued are, in the
    order of the outputs of the document: one for each plot, which is
    skipped, and one for each report whose data sets do not have distinct
    labels; it has issued no other warning. *)
Theorem warnings_issued (doc : doc_arg) (working_dir : string)
    (task_executer : TaskExecuter) (base_out_path : string)
    (rel_out_path : option string) (apply_xml_model_changes : bool)
    (report_formats : option (list ReportFormat))
    (plot_formats : option (list PlotFormat)) (w w' : W)
    (report_results : OutputResults) (variable_results : DataGeneratorVariableResults)
    (d : SedDocument.t loc Meta) :
  exec_doc env doc working_dir task_executer base_out_path rel_out_path
    apply_xml_model_changes report_formats plot_formats w
  = (w', Ok (report_results, variable_results)) ->
  loaded_document env doc w = Some d ->
  warnings w' = warnings w ++ omap warning_of (SedDocument.outputs d).
Proof.
  intros (d' & d0 & rfs & pfs & dgr & w3 & w4 & Hd' & Hcopy & _ & Houtputs
          & [_ Hn3] & [_ Hn'] & _)%exec_doc_returns_outputs Hd.
  assert (d' = d) as -> by congruence.
  apply exec_outputs_returns in Houtputs as (_ & _ & Hwarn & _).
  by rewrite Hn', Hwarn, Hn3, (copy_of_warnings d d0).
Qed.

(** *** Warnings that are no errors *)

#[local] Instance grows_preorder : PreOrder (grows (Meta:=Meta)).
Proof.
  split.
  - intros w. by split.
  - intros w1 w2 w3 [H1 H1'] [H2 H2']. split; by etrans.
Qed.

(** From an output on, warnings and written reports are only added. *)
Lemma grows_remaining_outputs data_gen_results rfs base_out_path rel_out_path
    fns variable_results report_results (outputs : list (Output.t loc)) :
  keeps grows (remaining_outputs env data_gen_results rfs base_out_path rel_out_path
                 fns variable_results report_results outputs).
Proof.
  unfold remaining_outputs, exec_output, exec_report, write_report, warn,
    cleanup_modified_models.
  repeat (intros;
          first [ apply keeps_modify; intros ?; split; simpl;
                  first [done | by apply prefix_app_r]
                | apply keeps_os_remove; [apply _|intros; by split]
                | keeps_step ]).
Qed.

(** The run of [exec_doc], seen from one of its outputs. *)
Lemma exec_doc_at_output (doc : doc_arg) (working_dir : string)
    (task_executer : TaskExecuter) (base_out_path : string)
    (rel_out_path : option string) (apply_xml_model_changes : bool)
    (report_formats : option (list ReportFormat))
    (plot_formats : option (list PlotFormat)) (w w1 w2 : W)
    (l : loc) (rfs : list ReportFormat) (fns : list string)
    variable_results data_gen_results
    (d : SedDocument.t loc Meta) (before after : list (Output.t loc))
    report_results :
  before_outputs env doc working_dir task_executer apply_xml_model_changes
    report_formats plot_formats w
    = (w1, Ok (l, rfs, fns, variable_results, data_gen_results)) ->
  heap_docs w1 !! l = Some d ->
  SedDocument.outputs d = before ++ after ->
  for_each (exec_output env data_gen_results rfs base_out_path rel_out_path)
    ∅ before w1 = (w2, Ok report_results) ->
  exec_doc env doc working_dir task_executer base_out_path rel_out_path
    apply_xml_model_changes report_formats plot_formats w
  = remaining_outputs env data_gen_results rfs base_out_path rel_out_path fns
      variable_results report_results after w2.
Proof.
  intros Hbefore Hd Houtputs Hloop.
  rewrite exec_doc_before_outputs, Hbefore, Hd, Houtputs, run_for_each_app, Hloop.
  unfold remaining_outputs. rewrite run_bind.
  destruct (for_each _ report_results after w2) as [w3 [rr|e]]; [|done].
  rewrite run_bind. by destruct (cleanup_modified_models fns w3) as [w4 [[]|e]].
Qed.

Lemma remaining_outputs_cons data_gen_results rfs base_out_path rel_out_path
    fns variable_results report_results (output : Output.t loc)
    (outputs : list (Output.t loc)) (w w' : W) report_results' :
  exec_output env data_gen_results rfs base_out_path rel_out_path report_results
    output w = (w', Ok report_results') ->
  remaining_outputs env data_gen_results rfs base_out_path rel_out_path fns
    variable_results report_results (output :: outputs) w
  = remaining_outputs env data_gen_results rfs base_out_path rel_out_path fns
      variable_results report_results' outputs w'.
Proof.
  intros Hstep. unfold remaining_outputs. rewrite !run_bind. simpl.
  by rewrite run_bind, Hstep.
Qed.

(** C7.  Let the run of [exec_doc] reach an output of the document.  If the
    output is a [Plot2D] or a [Plot3D], it raises nothing: the warning that
    it is skipped is issued, nothing is recorded for it in the results and
    nothing is written, and [exec_doc] goes on with the outputs that follow,
    the warning staying on record whatever these do.  If the output is a
    report whose data sets do not have distinct labels, whose data sets are
    bound to results of one shape and whose table the collaborators make and
    write without error, the labels raise nothing: the warning for them is
    issued, the table is recorded in the results under the id of the report
    and written once in every report format, and [exec_doc] goes on with the
    outputs that follow, the warning and the written tables staying on
    record whatever these do. *)
Theorem plots_and_duplicate_labels_are_warnings (doc : doc_arg)
    (working_dir : string) (task_executer : TaskExecuter) (base_out_path : string)
    (rel_out_path : option string) (apply_xml_model_changes : bool)
    (report_formats : option (list ReportFormat))
    (plot_formats : option (list PlotFormat)) (w w1 w2 : W)
    (l : loc) (rfs : list ReportFormat) (fns : list string)
    (variable_results : DataGeneratorVariableResults)
    (data_gen_results : DataGeneratorResults)
    (d : SedDocument.t loc Meta) (before after : list (Output.t loc))
    (output : Output.t loc) (report_results : OutputResults) :
  before_outputs env doc working_dir task_executer apply_xml_model_changes
    report_formats plot_formats w
    = (w1, Ok (l, rfs, fns, variable_results, data_gen_results)) ->
  heap_docs w1 !! l = Some d ->
  SedDocument.outputs d = before ++ output :: after ->
  for_each (exec_output env data_gen_results rfs base_out_path rel_out_path)
    ∅ before w1 = (w2, Ok report_results) ->
  ((exists p, output = Output.Plot2D p) \/ (exists p, output = Output.Plot3D p) ->
   let w3 := set_warnings (warnings w2 ++ [skipped_warning output]) w2 in
   exec_output env data_gen_results rfs base_out_path rel_out_path report_results
     output w2 = (w3, Ok report_results) /\
   exec_doc env doc working_dir task_executer base_out_path rel_out_path
     apply_xml_model_changes report_formats plot_formats w
   = remaining_outputs env data_gen_results rfs base_out_path rel_out_path fns
       variable_results report_results after w3 /\
   grows w3
     (exec_doc env doc working_dir task_executer base_out_path rel_out_path
        apply_xml_model_changes report_formats plot_formats w).1) /\
  (forall (report : Output.report loc) (results : list ndarray)
          (output_df : DataFrame) (path : option string),
     output = Output.Report report ->
     has_duplicates (DataSet.label <$> Output.data_sets report) = true ->
     Forall2 (bound_result data_gen_results) (Output.data_sets report) results ->
     (forall a b, a ∈ results -> b ∈ results -> shape a = shape b) ->
     pandas_DataFrame env results (DataSet.label <$> Output.data_sets report)
       = Ok output_df ->
     report_path env rel_out_path (Output.report_id report) = Ok path ->
     Forall (fun report_format =>
               ReportWriter_run env output_df base_out_path path report_format
               = Ok tt) rfs ->
     let w3 :=
       set_written
         (written w2 ++ ((fun report_format =>
                            (output_df, base_out_path, path, report_format)) <$> rfs))
         (set_warnings (warnings w2 ++ [duplicate_labels_warning]) w2) in
     exec_output env data_gen_results rfs base_out_path rel_out_path report_results
       output w2
     = (w3, Ok (<[Output.report_id report := output_df]> report_results)) /\
     exec_doc env doc working_dir task_executer base_out_path rel_out_path
       apply_xml_model_changes report_formats plot_formats w
     = remaining_outputs env data_gen_results rfs base_out_path rel_out_path fns
         variable_results (<[Output.report_id report := output_df]> report_results)
         after w3 /\
     grows w3
       (exec_doc env doc working_dir task_executer base_out_path rel_out_path
          apply_xml_model_changes report_formats plot_formats w).1).
Proof.
  intros Hbefore Hd Houtputs Hloop.
  pose proof (exec_doc_at_output doc working_dir task_executer base_out_path
                rel_out_path apply_xml_model_changes report_formats plot_formats
                w w1 w2 l rfs fns variable_results data_gen_results d before
                (output :: after) report_results Hbefore Hd Houtputs Hloop) as Hrun.
  assert (Hgoes : forall w3 report_results',
    exec_output env data_gen_results rfs base_out_path rel_out_path report_results
      output w2 = (w3, Ok report_results') ->
    exec_output env data_gen_results rfs base_out_path rel_out_path report_results
      output w2 = (w3, Ok report_results') /\
    exec_doc env doc working_dir task_executer base_out_path rel_out_path
      apply_xml_model_changes report_formats plot_formats w
    = remaining_outputs env data_gen_results rfs base_out_path rel_out_path fns
        variable_results report_results' after w3 /\
    grows w3
      (exec_doc env doc working_dir task_executer base_out_path rel_out_path
         apply_xml_model_changes report_formats plot_formats w).1).
  { intros w3 rr' Hstep. split; [done|].
    rewrite Hrun, (remaining_outputs_cons _ _ _ _ _ _ _ _ _ _ _ _ Hstep).
    split; [done|]. apply grows_remaining_outputs. }
  split.
  - intros Hplot. cbn zeta. apply Hgoes.
    destruct Hplot as [[p ->]|[p ->]]; simpl; by rewrite run_bind.
  - intros report results output_df path -> Hdup Hbound Hsame Hdf Hpath Hformats.
    cbn zeta. apply Hgoes. simpl.
    rewrite (exec_report_run _ _ _ _ _ _ _ results) by done.
    rewrite bool_decide_eq_false_2.
    + unfold write_table. rewrite Hdup, run_bind. simpl.
      rewrite run_bind. unfold lift. rewrite Hdf. cbn beta iota zeta.
      rewrite run_bind, (write_reports_run _ _ _ _ _ path) by done.
      done.
    + rewrite size_gt_1. intros (x & y & Hx & Hy & Hxy).
      apply elem_of_list_to_set, list_elem_of_fmap in Hx as (a & -> & Ha).
      apply elem_of_list_to_set, list_elem_of_fmap in Hy as (b & -> & Hb).
      by apply Hxy, Hsame.
Qed.

(** The loop over the data sets of a report stops at the first data set whose
    data generator has no result. *)
Lemma collect_data_sets_unknown (data_gen_results : DataGeneratorResults)
    (data_sets1 data_sets2 : list (DataSet.t loc)) (data_set : DataSet.t loc)
    (referred : DataGenerator.t loc) labels0 results0 shapes0 :
  Forall (fun data_set => exists r, bound_result data_gen_results data_set r)
    data_sets1 ->
  DataSet.data_generator data_set = Some referred ->
  data_gen_results !! DataGenerator.id referred = None ->
  for_each_pure (collect_data_set data_gen_results) (labels0, results0, shapes0)
    (data_sets1 ++ data_set :: data_sets2)
  = Raise (KeyError (DataGenerator.id referred)).
Proof.
  intros Hbound Hreferred Hnone. revert labels0 results0 shapes0.
  induction Hbound as [|data_set1 data_sets1 (r & dg & Hdg & Hr) _ IH];
    intros labels0 results0 shapes0; simpl.
  - by rewrite Hreferred; simpl; rewrite Hnone.
  - rewrite Hdg. simpl. rewrite Hr. simpl. apply IH.
Qed.

(** X14.  Let the run of [exec_doc] reach a report.  If a data set of the
    report refers to a data generator whose id is not the id of any data
    generator of the document, while the data sets before it refer to data
    generators of the document, then [exec_doc] raises a [KeyError] for this
    id; the report is not written. *)
Theorem unknown_data_generator (doc : doc_arg) (working_dir : string)
    (task_executer : TaskExecuter) (base_out_path : string)
    (rel_out_path : option string) (apply_xml_model_changes : bool)
    (report_formats : option (list ReportFormat))
    (plot_formats : option (list PlotFormat)) (w w1 w2 : W)
    (l : loc) (rfs : list ReportFormat) (fns : list string)
    (variable_results : DataGeneratorVariableResults)
    (data_gen_results : DataGeneratorResults)
    (d : SedDocument.t loc Meta) (before after : list (Output.t loc))
    (report : Output.report loc) (report_results : OutputResults)
    (data_sets1 data_sets2 : list (DataSet.t loc)) (data_set : DataSet.t loc)
    (referred : DataGenerator.t loc) :
  before_outputs env doc working_dir task_executer apply_xml_model_changes
    report_formats plot_formats w
    = (w1, Ok (l, rfs, fns, variable_results, data_gen_results)) ->
  heap_docs w1 !! l = Some d ->
  SedDocument.outputs d = before ++ Output.Report report :: after ->
  for_each (exec_output env data_gen_results rfs base_out_path rel_out_path)
    ∅ before w1 = (w2, Ok report_results) ->
  Output.data_sets report = data_sets1 ++ data_set :: data_sets2 ->
  Forall (refers_to_data_generator_of d) data_sets1 ->
  DataSet.data_generator data_set = Some referred ->
  DataGenerator.id referred ∉ DataGenerator.id <$> SedDocument.data_generators d ->
  exec_doc env doc working_dir task_executer base_out_path rel_out_path
    apply_xml_model_changes report_formats plot_formats w
  = (w2, Raise (KeyError (DataGenerator.id referred))).
Proof.
  intros Hbefore Hd Houtputs Hloop Hsets Hsets1 Hreferred Hunknown.
  destruct (data_generator_results _ _ _ _ _ _ _ _ _ _ _ _ _ _ Hbefore Hd)
    as [Hdom _].
  rewrite exec_doc_before_outputs, Hbefore, Hd, Houtputs, run_for_each_app, Hloop.
  simpl. rewrite run_bind. unfold exec_report. rewrite run_bind. unfold lift at 1.
  rewrite Hsets, (collect_data_sets_unknown _ _ _ _ referred); [done| |done|].
  - eapply Forall_impl; [done|]. intros data_set1 (dg & Hdg & Hin).
    assert (Hsome : is_Some (data_gen_results !! DataGenerator.id dg)).
    { apply elem_of_dom. rewrite Hdom. by apply elem_of_list_to_set. }
    destruct Hsome as [r Hr]. exists r, dg. done.
  - apply not_elem_of_dom. rewrite Hdom. by rewrite elem_of_list_to_set.
Qed.

(** *** The sources of the models *)

Lemma omap_lookup_total {A B} (f : A -> option B) (l : list A) (i : nat) (x : A) :
  Forall (fun x => is_Some (f x)) l -> l !! i = Some x -> omap f l !! i = f x.
Proof.
  intros Hall. revert i. induction Hall as [|y l [b Hb] _ IH]; intros i; [done|].
  cbn [omap list_omap]. rewrite Hb. destruct i as [|i]; simpl.
  - by intros [= ->].
  - apply IH.
Qed.

(** The copy of a model that [copy.deepcopy] makes is the model. *)
Lemma deepcopy_model (models : list Model.t) (d : SedDocument.t loc Meta)
    (model : loc) (m : Model.t) :
  model ∈ models_of_SedDocument d -> models !! model = Some m ->
  (models ++ omap (fun l => models !! l) (models_to_copy models d))
    !! copy_loc (length models) (models_to_copy models d) model = Some m.
Proof.
  intros Hin Hm. set (todo := models_to_copy models d).
  assert (Htodo : model ∈ todo).
  { apply elem_of_remove_dups, list_elem_of_filter. split; [by rewrite Hm|done]. }
  unfold copy_loc.
  destruct (list_find (fun l' => l' = model) todo) as [[i l']|] eqn:Hfind.
  - apply list_find_Some in Hfind as (Hi & -> & _).
    rewrite lookup_app_r by lia. replace (length models + i - length models) with i by lia.
    rewrite (omap_lookup_total _ _ _ model); [done| |done].
    apply Forall_forall. intros x Hx. subst todo. unfold models_to_copy in Hx.
    by apply elem_of_remove_dups, list_elem_of_filter in Hx as [? _].
  - apply list_find_None in Hfind. rewrite Forall_forall in Hfind.
    by destruct (Hfind model Htodo).
Qed.

(** A model with no source stops the loop over the models. *)
Lemma apply_changes_to_models_no_source working_dir apply_xml_model_changes
    (models : list loc) (names : list string) (model : loc) (m : Model.t) (w : W) :
  model ∈ models -> heap_models w !! model = Some m -> Model.source m = None ->
  is_ok (for_each (apply_changes_to_model env working_dir apply_xml_model_changes)
           names models w).2 = false.
Proof.
  intros Hin. revert names m w.
  induction models as [|model' models IH]; intros names m w Hm Hsource;
    [by apply elem_of_nil in Hin|].
  simpl. rewrite run_bind.
  destruct (decide (model' = model)) as [->|Hne].
  - unfold apply_changes_to_model at 1. rewrite run_bind. unfold get_model.
    rewrite Hm. cbn beta iota zeta. rewrite run_bind, Hsource. done.
  - apply elem_of_cons in Hin as [->|Hin]; [done|].
    assert (Hkeeps : keeps (fun w w' : W => forall m, heap_models w !! model = Some m ->
                              heap_models w' !! model = Some m)
              (apply_changes_to_model env working_dir apply_xml_model_changes names
                 model')).
    { assert (PreOrder (fun w w' : W => forall m, heap_models w !! model = Some m ->
                          heap_models w' !! model = Some m)).
      { split; [by intros ?|]. intros ??? H1 H2 ??. by apply H2, H1. }
      unfold apply_changes_to_model, set_model_source.
      repeat (intros;
              first [ apply keeps_modify; intros ? ? ?; simpl;
                      by rewrite list_lookup_insert_ne
                    | apply keeps_do_mkstemp; by intros
                    | keeps_step ]). }
    specialize (Hkeeps w).
    destruct (apply_changes_to_model _ _ _ names model' w) as [w1 [names1|e]]; [|done].
    simpl in Hkeeps. by apply (IH Hin names1 m w1); [apply Hkeeps|].
Qed.

(** X15.  A model with no source is an error: when a model of the document
    handed in has [source] [None], [exec_doc] raises, and it does so before
    the task executor is called for any task. *)
Theorem model_without_source_is_an_error (doc : loc) (working_dir : string)
    (task_executer : TaskExecuter) (base_out_path : string)
    (rel_out_path : option string) (apply_xml_model_changes : bool)
    (report_formats : option (list ReportFormat))
    (plot_formats : option (list PlotFormat)) (w : W)
    (d : SedDocument.t loc Meta) (model : loc) (m : Model.t) :
  heap_docs w !! doc = Some d ->
  model ∈ SedDocument.models d ->
  heap_models w !! model = Some m ->
  Model.source m = None ->
  let '(w', r) := exec_doc env (DocObject doc) working_dir task_executer
                    base_out_path rel_out_path apply_xml_model_changes
                    report_formats plot_formats w in
  is_ok r = false /\ calls w' = calls w.
Proof.
  intros Hd Hin Hm Hsource. rewrite exec_doc_before_tasks.
  pose proof (calls_before_tasks (DocObject doc) working_dir apply_xml_model_changes
                report_formats plot_formats w) as Hc1. unfold same in Hc1.
  destruct (before_tasks _ _ _ _ _ _ w) as [w1 [[[l rfs] fns]|e]] eqn:Hbefore;
    [exfalso|done].
  apply before_tasks_returns in Hbefore as (wa & wb & pfs & Hload & Hmodels & _).
  revert Hload. rewrite process_arguments_run, deepcopy_run, Hd. cbn beta iota zeta.
  destruct (resolve_formats _ _ _) as [[rfs' pfs']|e]; [|done].
  intros [= <- <- <- <-].
  revert Hmodels. unfold apply_changes_to_models. rewrite run_bind. unfold get_doc.
  cbn [heap_docs set_heap_docs set_heap_models]. rewrite list_lookup_middle by done.
  cbn beta iota zeta. intros Hloop.
  match type of Hloop with for_each ?body ?names ?models ?w0 = _ =>
    assert (Hno : is_ok (for_each body names models w0).2 = false)
  end.
  { apply (apply_changes_to_models_no_source _ _ _ _
             (copy_loc (length (heap_models w))
                (models_to_copy (heap_models w) d) model) m); [|simpl|done].
    - cbn [SedDocument.models relocate_SedDocument].
      apply list_elem_of_fmap. by exists model.
    - apply deepcopy_model; [|done].
      unfold models_of_SedDocument. apply elem_of_app. by left. }
  by rewrite Hloop in Hno.
Qed.

Lemma set_source_same (m : Model.t) (source : string) :
  Model.source m = Some source -> Model.set_source (Some source) m = m.
Proof. destruct m. simpl. by intros ->. Qed.

(** One turn of the loop over the models, without changes to apply: the
    source of the model is resolved, and nothing else is touched. *)
Lemma apply_changes_to_model_source working_dir (names names' : list string)
    (model : loc) (w w' : W) :
  apply_changes_to_model env working_dir false names model w = (w', Ok names') ->
  exists m source,
    heap_models w !! model = Some m /\ Model.source m = Some source /\
    heap_models w'
    = <[model := Model.set_source (Some (resolved_source env working_dir source)) m]>
        (heap_models w).
Proof.
  unfold apply_changes_to_model, resolved_source. rewrite run_bind. unfold get_model.
  destruct (heap_models w !! model) as [m|] eqn:Hm; [|done]. cbn beta iota zeta.
  rewrite run_bind.
  destruct (Model.source m) as [source|] eqn:Hsource; [|done].
  unfold mret at 1, exec_ret at 1. cbn beta iota zeta. rewrite run_bind.
  destruct (isabs env source) eqn:Habs.
  - simpl. intros [= <- <-]. exists m, source. split; [done|]. split; [done|].
    by rewrite Habs, set_source_same, list_insert_id.
  - rewrite run_bind, set_model_source_run, Hm. simpl. intros [= <- <-].
    exists m, source. by rewrite Habs.
Qed.

Lemma apply_changes_to_models_sources working_dir (models : list loc)
    (names names' : list string) (w w' : W) :
  NoDup models ->
  for_each (apply_changes_to_model env working_dir false) names models w
    = (w', Ok names') ->
  (forall model, model ∈ models -> resolved_copy env working_dir w w' model model) /\
  (forall i, i ∉ models -> heap_models w' !! i = heap_models w !! i).
Proof.
  intros Hnodup. revert names w.
  induction Hnodup as [|model models Hnotin Hnodup IH]; intros names w; simpl.
  - intros [= <- <-]. split; [|done]. intros model Hin. by apply elem_of_nil in Hin.
  - rewrite run_bind.
    destruct (apply_changes_to_model _ _ _ names model w) as [w1 [names1|e]] eqn:Hstep;
      [|done].
    apply apply_changes_to_model_source in Hstep as (m & source & Hm & Hsource & Hw1).
    intros (Hrest & Hother)%IH. split.
    + intros model' [->|Hin]%elem_of_cons.
      * exists m, source. split; [done|]. split; [done|].
        rewrite (Hother _ Hnotin), Hw1. apply list_lookup_insert_eq.
        by eapply lookup_lt_Some.
      * destruct (Hrest model' Hin) as (m' & source' & Hm' & Hsource' & Hw').
        exists m', source'. split; [|done].
        rewrite Hw1, list_lookup_insert_ne in Hm'; [done|]. by intros ->.
    + intros i Hi. rewrite Hother by set_solver. rewrite Hw1.
      apply list_lookup_insert_ne. set_solver.
Qed.

Lemma copy_loc_inj (models : list Model.t) (d : SedDocument.t loc Meta) (l1 l2 : loc) :
  l1 ∈ models_to_copy models d -> l2 ∈ models_to_copy models d ->
  copy_loc (length models) (models_to_copy models d) l1
  = copy_loc (length models) (models_to_copy models d) l2 -> l1 = l2.
Proof.
  intros H1 H2. unfold copy_loc.
  destruct (list_find (fun l' => l' = l1) _) as [[i1 x1]|] eqn:Hfind1.
  2:{ apply list_find_None in Hfind1. rewrite Forall_forall in Hfind1.
      by destruct (Hfind1 l1 H1). }
  destruct (list_find (fun l' => l' = l2) _) as [[i2 x2]|] eqn:Hfind2.
  2:{ apply list_find_None in Hfind2. rewrite Forall_forall in Hfind2.
      by destruct (Hfind2 l2 H2). }
  apply list_find_Some in Hfind1 as (Hi1 & -> & _).
  apply list_find_Some in Hfind2 as (Hi2 & -> & _).
  intros Heq. assert (i1 = i2) as -> by lia. congruence.
Qed.

(** X16.  Let the document handed in list each of its models once, each of
    them an object of the store.  Without changes to apply, the models that
    the task executor sees are copies of the models of this document, with
    their sources resolved: the source of a copy is the source of the model
    when this is an absolute path, and the working directory joined with it
    otherwise; nothing else of a model differs. *)
Theorem model_sources_are_resolved (doc : loc) (working_dir : string)
    (report_formats : option (list ReportFormat))
    (plot_formats : option (list PlotFormat)) (w w1 : W)
    (l : loc) (rfs : list ReportFormat) (fns : list string)
    (d : SedDocument.t loc Meta) :
  heap_docs w !! doc = Some d ->
  NoDup (SedDocument.models d) ->
  Forall (fun model => is_Some (heap_models w !! model)) (SedDocument.models d) ->
  before_tasks env (DocObject doc) working_dir false report_formats plot_formats w
    = (w1, Ok (l, rfs, fns)) ->
  exists d1,
    heap_docs w1 !! l = Some d1 /\
    Forall2 (resolved_copy env working_dir w w1)
      (SedDocument.models d) (SedDocument.models d1).
Proof.
  intros Hd Hnodup Hheap Hbefore.
  apply before_tasks_returns in Hbefore as (wa & wb & pfs & Hload & Hmodels & Hsort & _).
  revert Hload. rewrite process_arguments_run, deepcopy_run, Hd. cbn beta iota zeta.
  destruct (resolve_formats _ _ _) as [[rfs' pfs']|e]; [|done].
  intros [= <- <- <- <-].
  set (todo := models_to_copy (heap_models w) d) in *.
  set (f := copy_loc (length (heap_models w)) todo) in *.
  match type of Hmodels with ?c ?wa = _ =>
    pose proof (same_calls_apply_changes_to_models env (length (heap_docs w))
                  working_dir false wa) as [_ Hdocs]
  end.
  rewrite Hmodels in Hdocs. cbn [fst heap_docs set_heap_docs set_heap_models] in Hdocs.
  pose proof (sort_tasks_run (length (heap_docs w)) (relocate_SedDocument f d) wb) as Hs.
  rewrite Hsort in Hs. destruct Hs as [_ Hd1].
  { rewrite Hdocs. by apply list_lookup_middle. }
  eexists. split; [done|]. cbn [SedDocument.models set_tasks relocate_SedDocument].
  revert Hmodels. unfold apply_changes_to_models. rewrite run_bind. unfold get_doc.
  cbn [heap_docs set_heap_docs set_heap_models]. rewrite list_lookup_middle by done.
  cbn beta iota zeta. cbn [SedDocument.models relocate_SedDocument].
  assert (Htodo : forall model, model ∈ SedDocument.models d -> model ∈ todo).
  { intros model Hin. apply elem_of_remove_dups, list_elem_of_filter. split.
    - rewrite Forall_forall in Hheap. by apply Hheap.
    - unfold models_of_SedDocument. apply elem_of_app. by left. }
  intros [Hsources _]%apply_changes_to_models_sources.
  2:{ apply NoDup_fmap_2_strong; [|done].
      intros x y Hx Hy. apply copy_loc_inj; by apply Htodo. }
  assert (Hmodels1 : heap_models w1 = heap_models wb).
  { assert (Hk : keeps (same heap_models) (sort_tasks (Meta:=Meta) (length (heap_docs w)))).
    { unfold sort_tasks. keeps_world. }
    specialize (Hk wb). by rewrite Hsort in Hk. }
  apply Forall2_fmap_r, Forall_Forall2_diag, Forall_forall.
  intros model Hin.
  destruct (Hsources (f model)) as (m & source & Hm & Hsource & Hm1);
    [apply list_elem_of_fmap; by exists model|].
  exists m, source. split; [|split; [done|by rewrite Hmodels1]].
  rewrite Forall_forall in Hheap. destruct (Hheap model Hin) as [m' Hm'].
  simpl in Hm. subst f todo.
  rewrite (deepcopy_model _ _ _ m') in Hm; [congruence| |done].
  unfold models_of_SedDocument. apply elem_of_app. by left.
Qed.

End stages.

End run.
End ExecMore.

(** ** Runs of [exec_doc] on concrete documents *)

Module ExecExamples.

Import Exec Spec Examples ExecFacts.


(** C2 fails on this run: the temporary file that was made for the changed
    model is still there when [exec_doc] raises. *)
Lemma temporary_file_left_behind :
  files world0 = ∅ /\
  run0.2 = Raise (ValueError "Variable x must be generated for task a") /\
  elements (files run0.1) = ["/tmp/tmp0.xml"%string].
Proof. repeat split; vm_compute; reflexivity. Qed.

(** A witness of C3: the run above reaches the task [a]. *)
Lemma missing_variable_result_witness :
  ((exists var, var ∈ get_variables_for_task example_env doc1 (task_a 1) /\
                missing ∅ var) ->
   exists w' vars1 var vars2,
     get_variables_for_task example_env doc1 (task_a 1) = vars1 ++ var :: vars2 /\
     Forall (fun v => ~ missing ∅ v) vars1 /\
     missing ∅ var /\
     exec_doc example_env (DocObject 0) "/work" silent_executer "/out" None true
       None None world0
     = (w', Raise (ValueError (missing_result_message var (task_a 1)))) /\
     names (missing_result_message var (task_a 1)) (fmt (DataGeneratorVariable.id var)) /\
     names (missing_result_message var (task_a 1)) (fmt (Task.id (task_a 1)))) /\
  ((forall var, var ∈ get_variables_for_task example_env doc1 (task_a 1) ->
                ~ missing ∅ var) ->
   exists w' variable_results',
     exec_task example_env 1 silent_executer ∅ (task_a 1) world1
     = (w', Ok variable_results')).
Proof.
  apply (missing_variable_result example_env (DocObject 0) "/work" silent_executer
           "/out" None true None None world0 world1 world1 1 ["csv"; "h5"]%string
           ["/tmp/tmp0.xml"%string] doc1 [] [task_b 1] (task_a 1) ∅ ∅).
  - vm_compute. reflexivity.
  - reflexivity.
  - reflexivity.
  - reflexivity.
  - reflexivity.
Defined.

(** A witness of C4: the run reaches the report [r], whose two data sets are
    bound to results of the shapes [(3,)] and [(4,)]. *)
Lemma report_shape_consistency_witness :
  ((exists a b, a ∈ [array3; array4] /\ b ∈ [array3; array4] /\ shape a <> shape b) ->
   exists msg,
     exec_doc example_env (DocObject 0) "/work" xy_executer "/out" None false
       None None world_r
     = (world_r2, Raise (ValueError msg)) /\
     shape_error (Output.report_id (report_r 1)) = ValueError msg /\
     names msg (fmt (Output.report_id (report_r 1)))) /\
  ((forall a b, a ∈ [array3; array4] -> b ∈ [array3; array4] -> shape a = shape b) ->
   exec_output example_env data_gen_results_xy ["csv"; "h5"]%string "/out" None ∅
     (Output.Report (report_r 1)) world_r2
   = write_table example_env ["csv"; "h5"]%string "/out" None ∅ (report_r 1)
       (DataSet.label <$> Output.data_sets (report_r 1)) [array3; array4] world_r2).
Proof.
  apply (report_shape_consistency example_env (DocObject 0) "/work" xy_executer
           "/out" None false None None world_r world_r1 world_r2 1
           ["csv"; "h5"]%string [] variable_results_xy data_gen_results_xy
           (doc_r 1) [plot_p] [] (report_r 1) ∅ [array3; array4]).
  - vm_compute. reflexivity.
  - reflexivity.
  - reflexivity.
  - vm_compute. reflexivity.
  - repeat constructor; eexists; (split; [reflexivity|]); vm_compute; reflexivity.
Defined.

(** The shapes differ indeed: [exec_doc] raises the error that names [r]. *)
Example report_shape_mismatch :
  (exec_doc example_env (DocObject 0) "/work" xy_executer "/out" None false
     None None world_r).2
  = Raise (ValueError "Data generators for report r must have consistent shapes").
Proof. vm_compute. reflexivity. Qed.

End ExecExamples.

(** ** Properties of [get_config] *)

Module ConfigFacts.

Import Config.

(** *** Characters *)

Lemma lower_char_idemp (c : ascii) : lower_char (lower_char c) = lower_char c.
Proof. destruct c as [[] [] [] [] [] [] [] []]; vm_compute; reflexivity. Qed.

Lemma is_space_lower_char (c : ascii) : is_space (lower_char c) = is_space c.
Proof. destruct c as [[] [] [] [] [] [] [] []]; vm_compute; reflexivity. Qed.

Lemma lower_char_comma (c : ascii) : Ascii.eqb (lower_char c) "," = Ascii.eqb c ",".
Proof. destruct c as [[] [] [] [] [] [] [] []]; vm_compute; reflexivity. Qed.

(** *** [lower] and [strip] *)

Lemma str_lower_idemp (s : string) : str_lower (str_lower s) = str_lower s.
Proof. induction s as [|c s IH]; simpl; [done|]. by rewrite lower_char_idemp, IH. Qed.

Lemma str_lstrip_lower (s : string) :
  str_lstrip (str_lower s) = str_lower (str_lstrip s).
Proof.
  induction s as [|c s IH]; simpl; [done|]. rewrite is_space_lower_char.
  by destruct (is_space c).
Qed.

Lemma str_rstrip_lower (s : string) :
  str_rstrip (str_lower s) = str_lower (str_rstrip s).
Proof.
  induction s as [|c s IH]; simpl; [done|]. rewrite IH, is_space_lower_char.
  destruct (str_rstrip s); simpl; [|done]. by destruct (is_space c).
Qed.

Lemma str_strip_lower (s : string) : str_strip (str_lower s) = str_lower (str_strip s).
Proof. unfold str_strip. by rewrite str_lstrip_lower, str_rstrip_lower. Qed.

Lemma str_rstrip_idemp (s : string) : str_rstrip (str_rstrip s) = str_rstrip s.
Proof.
  induction s as [|c s IH]; simpl; [done|].
  destruct (str_rstrip s) as [|c' r] eqn:Hr.
  - destruct (is_space c) eqn:Hc; simpl; [done|]. by rewrite Hc.
  - change (str_rstrip (String c (String c' r))) with
      (match str_rstrip (String c' r) with
       | EmptyString => if is_space c then EmptyString else String c EmptyString
       | String c'' r' => String c (String c'' r')
       end).
    by rewrite IH.
Qed.

Lemma str_lstrip_head (s : string) :
  str_lstrip s = EmptyString \/
  exists c s', str_lstrip s = String c s' /\ is_space c = false.
Proof.
  induction s as [|c s IH]; simpl; [by left|].
  destruct (is_space c) eqn:Hc; [done|]. right. by exists c, s.
Qed.

Lemma str_rstrip_head (c : ascii) (s : string) :
  is_space c = false -> exists r, str_rstrip (String c s) = String c r.
Proof.
  intros Hc. simpl. destruct (str_rstrip s); [|by eexists].
  rewrite Hc. by eexists.
Qed.

Lemma str_strip_idemp (s : string) : str_strip (str_strip s) = str_strip s.
Proof.
  unfold str_strip.
  destruct (str_lstrip_head s) as [->|(c & s' & -> & Hc)]; [done|].
  destruct (str_rstrip_head c s' Hc) as [r Hr]. rewrite Hr.
  cbn [str_lstrip]. rewrite Hc, <- Hr. apply str_rstrip_idemp.
Qed.

(** *** Occurrences of a character *)

Lemma occurs_lower_comma (s : string) : occurs "," (str_lower s) = occurs "," s.
Proof. induction s as [|c s IH]; simpl; [done|]. by rewrite lower_char_comma, IH. Qed.

Lemma occurs_lstrip (c : ascii) (s : string) :
  occurs c s = false -> occurs c (str_lstrip s) = false.
Proof.
  induction s as [|c' s IH]; simpl; [done|].
  intros [H1 H2]%orb_false_iff. destruct (is_space c'); [by apply IH|].
  simpl. by rewrite H1, H2.
Qed.

Lemma occurs_rstrip (c : ascii) (s : string) :
  occurs c s = false -> occurs c (str_rstrip s) = false.
Proof.
  induction s as [|c' s IH]; simpl; [done|].
  intros [H1 H2]%orb_false_iff. specialize (IH H2).
  destruct (str_rstrip s) as [|c'' r].
  - destruct (is_space c'); simpl; [done|]. by rewrite H1.
  - simpl in *. by rewrite H1, IH.
Qed.

(** *** [split] *)

Lemma str_split_not_nil (sep : ascii) (s : string) : str_split sep s <> [].
Proof.
  destruct s as [|c s]; simpl; [done|].
  destruct (Ascii.eqb c sep); [done|]. by destruct (str_split sep s).
Qed.

(** No part has the separator in it. *)
Lemma str_split_occurs (sep : ascii) (s : string) :
  Forall (fun part => occurs sep part = false) (str_split sep s).
Proof.
  induction s as [|c s IH]; simpl; [by repeat constructor|].
  destruct (Ascii.eqb c sep) eqn:Hc; [by constructor|].
  destruct (str_split sep s) as [|part parts]; [by repeat constructor; simpl; rewrite Hc|].
  apply Forall_cons in IH as [Hpart Hparts].
  constructor; [|done]. simpl. by rewrite Hc, Hpart.
Qed.

Lemma str_split_no_sep (sep : ascii) (s : string) :
  occurs sep s = false -> str_split sep s = [s].
Proof.
  induction s as [|c s IH]; simpl; [done|].
  intros [H1 H2]%orb_false_iff. by rewrite H1, (IH H2).
Qed.

Lemma str_split_app (sep : ascii) (s s' : string) :
  occurs sep s = false ->
  str_split sep (s +:+ String sep s') = s :: str_split sep s'.
Proof.
  induction s as [|c s IH]; simpl.
  - intros _. by rewrite Ascii.eqb_refl.
  - intros [H1 H2]%orb_false_iff. by rewrite H1, (IH H2).
Qed.

(** The parts of the strings that [', '.join] makes. *)
Lemma str_split_join (parts : list string) (part : string) :
  Forall (fun part => occurs "," part = false) (part :: parts) ->
  str_split "," (str_join ", " (part :: parts)) = part :: (String " " <$> parts).
Proof.
  revert part. induction parts as [|part' parts IH]; intros part.
  - intros [H _]%Forall_cons. simpl. by apply str_split_no_sep.
  - intros [H Hparts]%Forall_cons.
    change (str_join ", " (part :: part' :: parts))
      with (part +:+ String "," (String " " (str_join ", " (part' :: parts)))).
    rewrite str_split_app by done.
    change (str_split "," (String " " ?s)) with
      (match str_split "," s with
       | p :: ps => String " " p :: ps
       | [] => [String " " EmptyString]
       end).
    by rewrite (IH part' Hparts).
Qed.

(** *** The formats of the configuration *)

Lemma formats_normalised (value : string) :
  formats value <> [] /\ Forall normalised (formats value).
Proof.
  unfold formats. split.
  - intros H%fmap_nil_inv. by apply str_split_not_nil in H.
  - apply Forall_fmap. eapply Forall_impl; [apply str_split_occurs|].
    intros part Hpart. simpl. split; [|split].
    + rewrite occurs_lower_comma. unfold str_strip.
      by apply occurs_rstrip, occurs_lstrip.
    + by rewrite str_strip_lower, str_strip_idemp.
    + apply str_lower_idemp.
Qed.

Lemma formats_join (parts : list string) :
  parts <> [] -> Forall normalised parts -> formats (str_join ", " parts) = parts.
Proof.
  destruct parts as [|part parts]; [done|]. intros _ Hparts. unfold formats.
  rewrite str_split_join.
  2:{ eapply Forall_impl; [done|]. by intros ? [? _]. }
  rewrite fmap_cons, <- list_fmap_compose.
  apply Forall_cons in Hparts as [(_ & H1 & H2) Hparts]. rewrite H1, H2. f_equal.
  rewrite <- (list_fmap_id parts) at 2. apply Forall_fmap_ext.
  eapply Forall_impl; [done|]. intros format (_ & H1' & H2'). simpl.
  unfold str_strip in *. change (str_lstrip (String " " format)) with (str_lstrip format).
  by rewrite H1', H2'.
Qed.

(** X17.  Whatever the environment, the lists [REPORT_FORMATS] and
    [PLOT_FORMATS] of the configuration are not empty, and each of their
    entries is a name with no comma in it, no white space around it and no
    upper-case letter.  In particular a variable that is set to the empty
    string gives the list of the empty name, not the empty list. *)
Theorem formats_of_the_configuration (env : environ) :
  REPORT_FORMATS (get_config env) <> [] /\
  Forall normalised (REPORT_FORMATS (get_config env)) /\
  PLOT_FORMATS (get_config env) <> [] /\
  Forall normalised (PLOT_FORMATS (get_config env)) /\
  (env !! "REPORT_FORMATS"%string = Some EmptyString ->
   REPORT_FORMATS (get_config env) = [EmptyString]).
Proof.
  simpl.
  destruct (formats_normalised (environ_get env "REPORT_FORMATS" "csv, h5")) as [H1 H2].
  destruct (formats_normalised (environ_get env "PLOT_FORMATS" "pdf")) as [H3 H4].
  repeat (split; [done|]). unfold environ_get. by intros ->.
Qed.

(** X18.  Names of formats that are written to the environment come back as
    they are: when [REPORT_FORMATS] (or [PLOT_FORMATS]) is set to one or more
    names, joined by a comma and a space, each with no comma in it, no white
    space around it and no upper-case letter, the configuration has the list
    of these names. *)
Theorem formats_round_trip (env : environ) (names : list string) :
  names <> [] -> Forall normalised names ->
  (env !! "REPORT_FORMATS"%string = Some (str_join ", " names) ->
   REPORT_FORMATS (get_config env) = names) /\
  (env !! "PLOT_FORMATS"%string = Some (str_join ", " names) ->
   PLOT_FORMATS (get_config env) = names).
Proof.
  intros Hnames Hnormalised. simpl. unfold environ_get.
  split; intros ->; simpl; by apply formats_join.
Qed.

End ConfigFacts.

(** ** Properties of [get_xpp_input_configuration_from_directory] *)

Module XppFacts.

Import Xpp ExecFacts.

Lemma names_app_l (a b s : string) : names a s -> names (a +:+ b) s.
Proof.
  intros (pre & post & ->). exists pre, (post +:+ b).
  by rewrite !string_app_assoc.
Qed.

Lemma names_app_r (a b s : string) : names b s -> names (a +:+ b) s.
Proof.
  intros (pre & post & ->). exists (a +:+ pre), post.
  by rewrite !string_app_assoc.
Qed.

Lemma names_self (s : string) : names s s.
Proof. exists ""%string, ""%string. by rewrite string_app_nil_r. Qed.

(** What is joined occurs in the result. *)
Lemma join_names (sep : string) (parts : list string) (part : string) :
  part ∈ parts -> names (join sep parts) part.
Proof.
  induction parts as [|p parts IH]; [by intros ?%elem_of_nil|].
  intros [->|Hin]%elem_of_cons.
  - destruct parts; [apply names_self|]. cbn [join]. apply names_app_l, names_self.
  - destruct parts as [|p' parts]; [by apply elem_of_nil in Hin|].
    change (join sep (p :: p' :: parts)) with (p +:+ sep +:+ join sep (p' :: parts)).
    by apply names_app_r, names_app_r, IH.
Qed.

Section directory.
Context (glob : string -> list string) (path_join : string -> string -> string).

Abbreviation ode_files dirname := (glob (path_join dirname "*.ode")).
Abbreviation set_files dirname := (glob (path_join dirname "*.set")).
Abbreviation par_files dirname := (glob (path_join dirname "*.par")).
Abbreviation ic_files dirname := (glob (path_join dirname "*.ic")).

(** X19.  [get_xpp_input_configuration_from_directory] returns exactly when
    the directory has one [.ode] file and at most one [.set], one [.par] and
    one [.ic] file; it then returns the [.ode] file and, for each of the
    other kinds, the file of this kind, or [None] when there is none. *)
Theorem directory_configuration (dirname ode_filename : string)
    (set_filename parameter_filename initial_conditions_filename : option string) :
  get_xpp_input_configuration_from_directory glob path_join dirname
  = Ok (ode_filename, set_filename, parameter_filename, initial_conditions_filename)
  <->
  ode_files dirname = [ode_filename] /\
  set_files dirname = option_list set_filename /\
  par_files dirname = option_list parameter_filename /\
  ic_files dirname = option_list initial_conditions_filename.
Proof.
  unfold get_xpp_input_configuration_from_directory.
  destruct (ode_files dirname) as [|ode [|ode' odes]];
    destruct (set_files dirname) as [|set [|set' sets]];
    destruct (par_files dirname) as [|par [|par' pars]];
    destruct (ic_files dirname) as [|ic [|ic' ics]];
    repeat case_bool_decide; simpl in *; try lia;
    (split;
     [ intros Hok; try discriminate Hok; injection Hok as <- <- <- <-; done
     | intros (Hode & Hset & Hpar & Hic);
       destruct set_filename, parameter_filename, initial_conditions_filename;
       simpl in *; try discriminate; congruence ]).
Qed.

Lemma get_xpp_input_configuration_from_directory_problems (dirname : string) :
  problems glob path_join dirname <> [] ->
  get_xpp_input_configuration_from_directory glob path_join dirname
  = Raise (invalid dirname (problems glob path_join dirname)).
Proof.
  unfold get_xpp_input_configuration_from_directory, problems, only_one.
  destruct (ode_files dirname) as [|ode [|ode' odes]];
    destruct (set_files dirname) as [|set [|set' sets]];
    destruct (par_files dirname) as [|par [|par' pars]];
    destruct (ic_files dirname) as [|ic [|ic' ics]];
    repeat case_bool_decide; simpl in *; try lia; done.
Qed.

(** X20.  When something is wrong with the files of the directory,
    [get_xpp_input_configuration_from_directory] raises a [ValueError] whose
    message names the directory and all that is wrong, not only the first
    problem met: more than one [.ode] file or none, and more than one file of
    another kind. *)
Theorem directory_problems_are_all_reported (dirname : string) :
  problems glob path_join dirname <> [] ->
  exists msg,
    get_xpp_input_configuration_from_directory glob path_join dirname
    = Raise (ValueError msg) /\
    names msg dirname /\
    (forall problem, problem ∈ problems glob path_join dirname -> names msg problem) /\
    (1 < length (ode_files dirname) ->
     names msg "Only 1 ODE file can be used at a time.") /\
    (ode_files dirname = [] -> names msg "The directory must contain an ODE file.") /\
    (1 < length (set_files dirname) ->
     names msg "Only 1 set file can be used at a time.") /\
    (1 < length (par_files dirname) ->
     names msg "Only 1 parameter file can be used at a time.") /\
    (1 < length (ic_files dirname) ->
     names msg "Only 1 initial conditions file can be used at a time.").
Proof.
  intros Hproblems. eexists. split.
  { by apply get_xpp_input_configuration_from_directory_problems. }
  assert (Hall : forall problem, problem ∈ problems glob path_join dirname ->
            names ("`" +:+ dirname
                   +:+ "` does not contain a valid set of XPP files:" +:+ LF
                   +:+ "  - " +:+ join (LF +:+ "  - ") (problems glob path_join dirname))
              problem).
  { intros problem Hin. do 5 apply names_app_r. by apply join_names. }
  split; [apply names_app_r, names_app_l, names_self|]. split; [done|].
  unfold problems, only_one in Hall.
  repeat split; intros H; apply Hall.
  - rewrite bool_decide_eq_true_2 by done. set_solver.
  - rewrite (bool_decide_eq_true_2 (_ = [])) by done. set_solver.
  - rewrite (bool_decide_eq_true_2 (1 < length (set_files dirname))) by done. set_solver.
  - rewrite (bool_decide_eq_true_2 (1 < length (par_files dirname))) by done. set_solver.
  - rewrite (bool_decide_eq_true_2 (1 < length (ic_files dirname))) by done. set_solver.
Qed.

End directory.

End XppFacts.

(** ** More runs of [exec_doc] on concrete documents *)

Module MoreExecExamples.

Import Exec Spec ExecSpec Examples MoreExamples ExecFacts ExecMore.

(** The run of [doc_r] returns the table of the report [r] and the results of
    [x] and [y]; on its way it made the temporary file [/tmp/tmp]. *)
Example run_ok_returns :
  run_ok.2 = Ok (report_results_ok, variable_results_ok) /\
  (apply_changes_to_models tmp_env 1 "/work" true
     (process_arguments tmp_env (DocObject 0) None None world_ok).1).2
  = Ok ["/tmp/tmp"%string].
Proof. split; vm_compute; reflexivity. Qed.

(** A witness: the temporary file of the run is gone when it returns. *)
Lemma temporary_files_removed_on_return_witness :
  files run_ok.1 = files world_ok.
Proof.
  apply (temporary_files_removed_on_return tmp_env (DocObject 0) "/work" xx_executer
           "/out" (Some "sim"%string) true None None world_ok run_ok.1
           report_results_ok variable_results_ok).
  - intros existing. apply fresh_string_of_set_fresh.
  - vm_compute. reflexivity.
Defined.

(** A witness: the document has one task, which has no id. *)
Lemma task_without_id_is_an_error_witness :
  let '(w', r) := exec_doc tmp_env (DocObject 0) "/work" xx_executer "/out" None
                    false None None world_anonymous in
  is_ok r = false /\ calls w' = calls world_anonymous.
Proof.
  apply (task_without_id_is_an_error tmp_env (DocObject 0) "/work" xx_executer "/out"
           None false None None world_anonymous).
  vm_compute. constructor.
Defined.

(** A witness: the result of [x] that the run returns. *)
Lemma returned_variable_results_witness :
  is_Some (Some array3) /\
  exists task vars returned,
    (task, vars) ∈ calls run_ok.1 /\
    Some "x"%string ∈ DataGeneratorVariable.id <$> vars /\
    xx_executer (heap_models run_ok.1) task vars = Ok returned /\
    returned !! Some "x"%string = Some (Some array3).
Proof.
  apply (returned_variable_results tmp_env (DocObject 0) "/work" xx_executer
           "/out" (Some "sim"%string) true None None world_ok run_ok.1
           report_results_ok variable_results_ok).
  - vm_compute. reflexivity.
  - vm_compute. reflexivity.
Defined.

(** A witness: the results of the data generators [dg_x] and [dg_y]. *)
Lemma data_generator_results_witness :
  dom data_gen_results_ok
  = list_to_set (DataGenerator.id <$> SedDocument.data_generators (doc_r 1)) /\
  forall k r, data_gen_results_ok !! k = Some r ->
    exists data_gen,
      data_gen ∈ SedDocument.data_generators (doc_r 1) /\
      DataGenerator.id data_gen = k /\
      calc_data_generator_results tmp_env data_gen variable_results_ok = Ok r.
Proof.
  apply (data_generator_results tmp_env (DocObject 0) "/work" xx_executer false
           None None world_ok run_before_outputs.1 1 ["csv"; "h5"]%string []
           variable_results_ok data_gen_results_ok (doc_r 1)).
  - vm_compute. reflexivity.
  - vm_compute. reflexivity.
Defined.

(** A witness: the run returns a table for [r] and none for the plot [p]. *)
Lemma returned_reports_witness :
  dom report_results_ok = list_to_set (Output.report_id <$> reports (doc_r 0)).
Proof.
  apply (returned_reports tmp_env (DocObject 0) "/work" xx_executer
           "/out" (Some "sim"%string) true None None world_ok run_ok.1
           report_results_ok variable_results_ok (doc_r 0)).
  - vm_compute. reflexivity.
  - reflexivity.
Defined.

(** A witness: the table of [r] that the run returns. *)
Lemma returned_tables_witness :
  exists d0, copy_of (doc_r 0) d0 /\
    forall id output_df, report_results_ok !! id = Some output_df ->
      exists report rows,
        report ∈ reports d0 /\ Output.report_id report = id /\
        Forall2 (row_of tmp_env d0 variable_results_ok) (Output.data_sets report) rows /\
        pandas_DataFrame tmp_env rows (DataSet.label <$> Output.data_sets report)
          = Ok output_df.
Proof.
  apply (returned_tables tmp_env (DocObject 0) "/work" xx_executer
           "/out" (Some "sim"%string) true None None world_ok run_ok.1
           report_results_ok variable_results_ok (doc_r 0)).
  - vm_compute. reflexivity.
  - reflexivity.
Defined.

(** A witness: the report [r] is written as [sim/r], in the formats [csv] and
    [h5] of the configuration. *)
Lemma reports_written_once_per_format_witness :
  exists new,
    written run_ok.1 = written world_ok ++ new /\
    Forall2 (written_at tmp_env "/out" (Some "sim"%string)) new
      (id ← Output.report_id <$> reports (doc_r 0);
       (fun report_format => (id, report_format)) <$> ["csv"; "h5"]%string).
Proof.
  apply (reports_written_once_per_format tmp_env (DocObject 0) "/work" xx_executer
           "/out" (Some "sim"%string) true None None world_ok run_ok.1
           report_results_ok variable_results_ok (doc_r 0) ["csv"; "h5"]%string
           ["pdf"]%string).
  - vm_compute. reflexivity.
  - reflexivity.
  - reflexivity.
Defined.

Example report_written_as_sim_r :
  (fun call => (call.1.2, call.2)) <$> written run_ok.1
  = [(Some "sim/r", "csv"); (Some "sim/r", "h5")]%string.
Proof. vm_compute. reflexivity. Qed.

(** A witness: the run warns of the plot [p], which it skips. *)
Lemma warnings_issued_witness :
  warnings run_ok.1
  = warnings world_ok ++ omap warning_of (SedDocument.outputs (doc_r 0)).
Proof.
  apply (warnings_issued tmp_env (DocObject 0) "/work" xx_executer
           "/out" (Some "sim"%string) true None None world_ok run_ok.1
           report_results_ok variable_results_ok (doc_r 0)).
  - vm_compute. reflexivity.
  - reflexivity.
Defined.

(** A witness: the second data set of the report refers to [dg_y]. *)
Lemma unknown_data_generator_witness :
  exec_doc tmp_env (DocObject 0) "/work" xx_executer "/out" None false None None
    world_unknown
  = (run_unknown_before_outputs.1, Raise (KeyError (Some "dg_y"%string))).
Proof.
  apply (unknown_data_generator tmp_env (DocObject 0) "/work" xx_executer "/out" None
           false None None world_unknown run_unknown_before_outputs.1
           run_unknown_before_outputs.1 1 ["csv"; "h5"]%string []
           (<[Some "x"%string := Some array3]> ∅)
           (<[Some "dg_x"%string := array3]> ∅) (doc_unknown 1)
           [] [] (report_r 1) ∅ [data_set_x 1] [] (data_set_y 1) (dg_y 1)).
  - vm_compute. reflexivity.
  - vm_compute. reflexivity.
  - reflexivity.
  - reflexivity.
  - reflexivity.
  - repeat constructor. exists (dg_x 1). split; [reflexivity|]. vm_compute. constructor.
  - reflexivity.
  - vm_compute. intros Hin. apply list_elem_of_singleton in Hin. discriminate Hin.
Defined.

(** A witness of C7: the run of [doc_xx] at its first plot, and at its report
    of two data sets with one label. *)
Lemma plots_and_duplicate_labels_are_warnings_witness :
  (exec_output example_env data_gen_results_x ["csv"; "h5"]%string "/out" None ∅
     plot_p world_xx1 = (world_xx2, Ok ∅) /\
   exec_doc example_env (DocObject 0) "/work" xy_executer "/out" None false None None
     world_xx
   = remaining_outputs example_env data_gen_results_x ["csv"; "h5"]%string "/out"
       None [] variable_results_x ∅ [Output.Report (report_xx 1); plot_q] world_xx2 /\
   grows world_xx2
     (exec_doc example_env (DocObject 0) "/work" xy_executer "/out" None false None
        None world_xx).1) /\
  (exec_output example_env data_gen_results_x ["csv"; "h5"]%string "/out" None ∅
     (Output.Report (report_xx 1)) world_xx2
   = (world_xx3, Ok (<[Some "r"%string := table_xx]> ∅)) /\
   exec_doc example_env (DocObject 0) "/work" xy_executer "/out" None false None None
     world_xx
   = remaining_outputs example_env data_gen_results_x ["csv"; "h5"]%string "/out"
       None [] variable_results_x (<[Some "r"%string := table_xx]> ∅) [plot_q]
       world_xx3 /\
   grows world_xx3
     (exec_doc example_env (DocObject 0) "/work" xy_executer "/out" None false None
        None world_xx).1).
Proof.
  split.
  - assert (H1 : before_outputs example_env (DocObject 0) "/work" xy_executer false
                   None None world_xx
                 = (world_xx1, Ok (1, ["csv"; "h5"]%string, [], variable_results_x,
                                   data_gen_results_x)))
      by (vm_compute; reflexivity).
    assert (H2 : heap_docs world_xx1 !! 1 = Some (doc_xx 1)) by reflexivity.
    assert (H3 : SedDocument.outputs (doc_xx 1)
                 = [] ++ plot_p :: [Output.Report (report_xx 1); plot_q])
      by reflexivity.
    assert (H4 : for_each (exec_output example_env data_gen_results_x
                             ["csv"; "h5"]%string "/out" None) ∅ [] world_xx1
                 = (world_xx1, Ok ∅)) by reflexivity.
    apply (proj1 (plots_and_duplicate_labels_are_warnings example_env (DocObject 0)
                    "/work" xy_executer "/out" None false None None world_xx
                    world_xx1 world_xx1 1 ["csv"; "h5"]%string [] variable_results_x
                    data_gen_results_x (doc_xx 1) []
                    [Output.Report (report_xx 1); plot_q] plot_p ∅ H1 H2 H3 H4)).
    left. eexists. reflexivity.
  - assert (H1 : before_outputs example_env (DocObject 0) "/work" xy_executer false
                   None None world_xx
                 = (world_xx1, Ok (1, ["csv"; "h5"]%string, [], variable_results_x,
                                   data_gen_results_x)))
      by (vm_compute; reflexivity).
    assert (H2 : heap_docs world_xx1 !! 1 = Some (doc_xx 1)) by reflexivity.
    assert (H3 : SedDocument.outputs (doc_xx 1)
                 = [plot_p] ++ Output.Report (report_xx 1) :: [plot_q])
      by reflexivity.
    assert (H4 : for_each (exec_output example_env data_gen_results_x
                             ["csv"; "h5"]%string "/out" None) ∅ [plot_p] world_xx1
                 = (world_xx2, Ok ∅)) by (vm_compute; reflexivity).
    apply (proj2 (plots_and_duplicate_labels_are_warnings example_env (DocObject 0)
                    "/work" xy_executer "/out" None false None None world_xx
                    world_xx1 world_xx2 1 ["csv"; "h5"]%string [] variable_results_x
                    data_gen_results_x (doc_xx 1) [plot_p] [plot_q]
                    (Output.Report (report_xx 1)) ∅ H1 H2 H3 H4)
             (report_xx 1) [array3; array3] table_xx (Some "r"%string)).
    + reflexivity.
    + vm_compute. reflexivity.
    + repeat constructor; eexists; (split; [reflexivity|]); vm_compute; reflexivity.
    + intros a b Ha Hb.
      apply elem_of_cons in Ha as [->|Ha]; [|apply list_elem_of_singleton in Ha as ->];
        (apply elem_of_cons in Hb as [->|Hb];
         [|apply list_elem_of_singleton in Hb as ->]);
        reflexivity.
    + reflexivity.
    + reflexivity.
    + repeat constructor.
Defined.

(** The run of [doc_xx] returns: the two plots and the labels of the report
    have given three warnings, the table of the report is in the results and
    has been written in both formats. *)
Example run_xx_returns :
  let '(w', r) := exec_doc example_env (DocObject 0) "/work" xy_executer "/out" None
                    false None None world_xx in
  r = Ok (<[Some "r"%string := table_xx]> ∅, variable_results_x) /\
  warnings w' = [skipped_warning plot_p; duplicate_labels_warning;
                 skipped_warning plot_q] /\
  written w' = [(table_xx, "/out", Some "r", "csv");
                (table_xx, "/out", Some "r", "h5")]%string.
Proof. vm_compute. repeat split. Qed.

(** A witness: the model of the document has no source. *)
Lemma model_without_source_is_an_error_witness :
  let '(w', r) := exec_doc tmp_env (DocObject 0) "/work" xx_executer "/out" None
                    false None None world_nowhere in
  is_ok r = false /\ calls w' = calls world_nowhere.
Proof.
  apply (model_without_source_is_an_error tmp_env 0 "/work" xx_executer "/out" None
           false None None world_nowhere (doc_r 0) 0 model_nowhere).
  - reflexivity.
  - vm_compute. constructor.
  - reflexivity.
  - reflexivity.
Defined.

(** A witness: the source [model.xml] of the model is resolved against the
    working directory [/work]. *)
Lemma model_sources_are_resolved_witness :
  exists d1,
    heap_docs run_before_tasks.1 !! 1 = Some d1 /\
    Forall2 (resolved_copy tmp_env "/work" world_ok run_before_tasks.1)
      (SedDocument.models (doc_r 0)) (SedDocument.models d1).
Proof.
  apply (model_sources_are_resolved tmp_env 0 "/work" None None world_ok
           run_before_tasks.1 1 ["csv"; "h5"]%string [] (doc_r 0)).
  - reflexivity.
  - vm_compute. repeat constructor. intros Hin. by apply elem_of_nil in Hin.
  - repeat constructor. by eexists.
  - vm_compute. reflexivity.
Defined.

(** The models of the document are to be distinct: a model that is listed
    twice has its source joined with a relative working directory twice. *)
Example model_listed_twice :
  Model.source
  <$> heap_models (before_tasks tmp_env (DocObject 0) "work" false None None
                     world_twice).1
  = [Some "model.xml"; Some "work/work/model.xml"]%string.
Proof. vm_compute. reflexivity. Qed.

Example model_source_resolved :
  Model.source <$> heap_models run_before_tasks.1
  = [Some "model.xml"; Some "/work/model.xml"]%string.
Proof. vm_compute. reflexivity. Qed.

End MoreExecExamples.

(** ** Tuple projections of concrete content items *)

Module CombineExamples.

Import CombineSpec MoreExamples CombineMore.

Lemma named_lovelace_babbage : Forall named [author_lovelace; author_babbage].
Proof. repeat constructor; by eexists. Qed.

(** A witness: the item of Lovelace and Babbage, whose projections are sorted
    by their family names. *)
Lemma CombineArchiveContent_to_tuple_of_named_authors_witness :
  exists authors,
    CombineArchiveContent.to_tuple (content_of [author_lovelace; author_babbage])
    = Ok (VTuple [VStr "./model.xml";
                  VStr "http://identifiers.org/combine.specifications/sbml";
                  VBool true; VNone; VTuple authors; VNone; VNone]) /\
    authors ≡ₚ map CombineArchiveAuthor.to_tuple [author_lovelace; author_babbage] /\
    Sorted pyval_le authors.
Proof.
  apply (CombineArchiveContent_to_tuple_of_named_authors
           (content_of [author_lovelace; author_babbage])).
  apply named_lovelace_babbage.
Defined.

Example to_tuple_lovelace_babbage :
  CombineArchiveContent.to_tuple (content_of [author_lovelace; author_babbage])
  = Ok (VTuple [VStr "./model.xml";
                VStr "http://identifiers.org/combine.specifications/sbml";
                VBool true; VNone;
                VTuple [VTuple [VStr "Babbage"; VStr "Charles"];
                        VTuple [VStr "Lovelace"; VStr "Ada"]];
                VNone; VNone]).
Proof. vm_compute. reflexivity. Qed.

(** A witness: the same authors in another order. *)
Lemma CombineArchiveContent_consistent_witness :
  CombineArchiveContent.is_equal (content_of [author_lovelace; author_babbage])
    (content_of [author_babbage; author_lovelace]) = true
  <-> CombineArchiveContent.to_tuple (content_of [author_lovelace; author_babbage])
      = CombineArchiveContent.to_tuple (content_of [author_babbage; author_lovelace]).
Proof.
  apply (CombineArchiveContent_consistent
           (content_of [author_lovelace; author_babbage])
           (content_of [author_babbage; author_lovelace])).
  - apply named_lovelace_babbage.
  - repeat constructor; by eexists.
Defined.

(** An item of Ada and Lovelace is equal to itself, and has no tuple
    projection. *)
Example to_tuple_ada_lovelace :
  CombineArchiveContent.is_equal (content_of [author_ada; author_lovelace])
    (content_of [author_ada; author_lovelace]) = true /\
  CombineArchiveContent.to_tuple (content_of [author_ada; author_lovelace])
  = Raise (TypeError "'<' not supported between instances").
Proof. split; vm_compute; reflexivity. Qed.

End CombineExamples.

(** ** The configuration and the directories of concrete environments *)

Module ConfigExamples.

Import Config Xpp MoreExamples ConfigFacts XppFacts.

(** A witness: three formats in the environment. *)
Lemma formats_round_trip_witness :
  (environ_formats !! "REPORT_FORMATS"%string
   = Some (str_join ", " ["h5"; "csv"; "tsv"]%string) ->
   REPORT_FORMATS (get_config environ_formats) = ["h5"; "csv"; "tsv"]%string) /\
  (environ_formats !! "PLOT_FORMATS"%string
   = Some (str_join ", " ["h5"; "csv"; "tsv"]%string) ->
   PLOT_FORMATS (get_config environ_formats) = ["h5"; "csv"; "tsv"]%string).
Proof.
  apply (formats_round_trip environ_formats ["h5"; "csv"; "tsv"]%string).
  - discriminate.
  - repeat constructor.
Defined.

Example report_formats_of_environ_formats :
  environ_formats !! "REPORT_FORMATS"%string
  = Some (str_join ", " ["h5"; "csv"; "tsv"]%string) /\
  REPORT_FORMATS (get_config environ_formats) = ["h5"; "csv"; "tsv"]%string /\
  PLOT_FORMATS (get_config environ_formats) = ["pdf"]%string.
Proof. repeat split; vm_compute; reflexivity. Qed.

(** A witness: the directory [model] has two problems. *)
Lemma directory_problems_are_all_reported_witness :
  exists msg,
    get_xpp_input_configuration_from_directory glob_model slash_join "model"
    = Raise (ValueError msg) /\
    names msg "model" /\
    (forall problem, problem ∈ problems glob_model slash_join "model" ->
       names msg problem) /\
    (1 < length (glob_model (slash_join "model" "*.ode")) ->
     names msg "Only 1 ODE file can be used at a time.") /\
    (glob_model (slash_join "model" "*.ode") = [] ->
     names msg "The directory must contain an ODE file.") /\
    (1 < length (glob_model (slash_join "model" "*.set")) ->
     names msg "Only 1 set file can be used at a time.") /\
    (1 < length (glob_model (slash_join "model" "*.par")) ->
     names msg "Only 1 parameter file can be used at a time.") /\
    (1 < length (glob_model (slash_join "model" "*.ic")) ->
     names msg "Only 1 initial conditions file can be used at a time.").
Proof.
  apply (directory_problems_are_all_reported glob_model slash_join "model").
  vm_compute. discriminate.
Defined.

Example problems_of_model :
  problems glob_model slash_join "model"
  = ["Only 1 ODE file can be used at a time.";
     "Only 1 set file can be used at a time."]%string.
Proof. vm_compute. reflexivity. Qed.

End ConfigExamples.
